(** * AxoGraph binary decoder ([neo/rawio/axographrawio.py])

    A shallow embedding of [StructFile] (the endian-aware field reader) and
    of [AxographRawIO] (column dispatch, episodic heuristic, event rescaling),
    followed by the properties the specification states about them and
    by further properties read off the code.

    Conventions of the embedding
    - a Python exception is a value of [exn]; a computation that may raise
      returns a [result];
    - the open file is a [StructFile]: the bytes of the file, the read
      position and the configured byte order;
    - Python [float] and NumPy [float32] values are [spec_float]s of the
      Standard Library (IEEE 754 binary64 and binary32, one NaN);
    - Python [str] is a list of Unicode code points;
    - a [dict] is an association list in insertion order;
    - an [np.memmap] is a handle (storage type, offset, length): the
      samples stay in the file;
    - calls to the logger are left out, except for the arithmetic in their
      arguments that can raise ([1/increment]). *)

From Stdlib Require Import ZArith NArith Bool String Ascii List Sorted Lia.
From Stdlib Require Import Strings.Byte Floats.SpecFloat.
Import ListNotations.

Local Open Scope string_scope.
Local Open Scope list_scope.
Local Open Scope Z_scope.

Set Implicit Arguments.

(** ** Python exceptions and results *)

Inductive not_implemented :=
| unimplemented_header_id
| unimplemented_format_version (format_ver : Z)
| series_only_for_first_column
| unimplemented_column_type (col_type : option Z)
| unimplemented_trace_header_version (v : Z)
| unimplemented_group_header_version (v : Z).

Inductive assertion :=
| not_an_AxoGraph_file
| header_version_mismatch (format_ver : Z)
| rest_of_the_file_not_empty
| unexpected_group_count (n_groups : Z)
| unexpected_font_setting1 (setting1 : Z).

Inductive exn :=
| StructError
| UnicodeDecodeError
| AssertionError (a : assertion)
| NotImplementedError (n : not_implemented)
| IndexError
| KeyError
| TypeError
| ValueError
| ZeroDivisionError
| UnboundLocalError.

Inductive result (A : Type) :=
| Ok (a : A)
| Raise (e : exn).

Arguments Ok {A} a.
Arguments Raise {A} e.

Definition rbind {A B} (r : result A) (k : A -> result B) : result B :=
  match r with
  | Ok a => k a
  | Raise e => Raise e
  end.

Declare Scope py_scope.
Delimit Scope py_scope with py.
Notation "'let?' x := r 'in' k" := (rbind r (fun x => k))
  (at level 10, x name, r at level 100, k at level 200) : py_scope.
Notation "'let?' ' p := r 'in' k" := (rbind r (fun x => match x with p => k end))
  (at level 10, p pattern, r at level 100, k at level 200) : py_scope.
Local Open Scope py_scope.

Definition py_assert (b : bool) (a : assertion) : result unit :=
  if b then Ok tt else Raise (AssertionError a).

(** ** Values *)

(** Python [str]: a sequence of code points. *)
Definition str := list N.

Definition str_of (s : string) : str :=
  map N_of_ascii (list_ascii_of_string s).

Definition str_eqb (a b : str) : bool :=
  if list_eq_dec N.eq_dec a b then true else false.

Inductive endianness := BigEndian | LittleEndian.

(** The scalars the decoder handles.  [NpFloat32] is a NumPy [float32]
    scalar (an element of a mapped [float32] array, or the result of an
    operation on such elements); every other floating value is a Python
    [float]. *)
Inductive value :=
| PyInt (z : Z)
| PyFloat (x : spec_float)
| NpFloat32 (x : spec_float)
| PyBool (b : bool)
| PyBytes (b : list byte)
| PyStr (s : str).

(** What [read_f] returns: [data[0]] or the tuple [data]. *)
Inductive pyobj :=
| Scalar (v : value)
| Tuple (vs : list value).

(** ** Fixed-width fields *)

Definition byte_N (b : byte) : N := Byte.to_N b.

Fixpoint be_uint (acc : Z) (bs : list byte) : Z :=
  match bs with
  | [] => acc
  | b :: t => be_uint (acc * 256 + Z.of_N (byte_N b)) t
  end.

Definition uint_of (o : endianness) (bs : list byte) : Z :=
  match o with
  | BigEndian => be_uint 0 bs
  | LittleEndian => be_uint 0 (rev bs)
  end.

Definition to_signed (bits : Z) (u : Z) : Z :=
  if u <? 2 ^ (bits - 1) then u else u - 2 ^ bits.

Definition sint_of (o : endianness) (bs : list byte) : Z :=
  to_signed (8 * Z.of_nat (length bs)) (uint_of o bs).

(** IEEE 754 interchange formats: [prec] bits of significand (with the
    implicit one) and [ebits] bits of exponent. *)
Definition decode_float (prec ebits : Z) (u : Z) : spec_float :=
  let mbits := prec - 1 in
  let emax := 2 ^ (ebits - 1) in
  let s := Z.testbit u (mbits + ebits) in
  let e := Z.land (Z.shiftr u mbits) (2 ^ ebits - 1) in
  let m := Z.land u (2 ^ mbits - 1) in
  if e =? 2 ^ ebits - 1 then
    if m =? 0 then S754_infinity s else S754_nan
  else if e =? 0 then
    match m with
    | Zpos p => S754_finite s p (emin prec emax)
    | _ => S754_zero s
    end
  else
    match m + 2 ^ mbits with
    | Zpos p => S754_finite s p (e - (emax - 1) - mbits)
    | _ => S754_nan
    end.

Definition decode_binary32 : Z -> spec_float := decode_float 24 8.
Definition decode_binary64 : Z -> spec_float := decode_float 53 11.

(** A binary32 value seen as a binary64 one (exact). *)
Definition widen (x : spec_float) : spec_float :=
  match x with
  | S754_finite s m e => binary_normalize 53 1024 (cond_Zopp s (Zpos m)) e s
  | _ => x
  end.

(** ** [struct] format strings

    The codes that occur in the module's format strings, in standard size
    (the byte-order prefix is always given, so there is no alignment).
    [struct] accepts other codes ([i], [q], [s], [?] and so on), which
    this model refuses: what is stated of an arbitrary format string is
    stated of those that satisfy [module_format]. *)
Inductive fmt_code := Cx | Cb | CB | Ch | CH | Cl | Cf | Cd | Cp.

Definition code_of_ascii (a : ascii) : option fmt_code :=
  if Ascii.eqb a "x" then Some Cx
  else if Ascii.eqb a "b" then Some Cb
  else if Ascii.eqb a "B" then Some CB
  else if Ascii.eqb a "h" then Some Ch
  else if Ascii.eqb a "H" then Some CH
  else if Ascii.eqb a "l" then Some Cl
  else if Ascii.eqb a "f" then Some Cf
  else if Ascii.eqb a "d" then Some Cd
  else if Ascii.eqb a "p" then Some Cp
  else None.

Definition digit_of_ascii (a : ascii) : option nat :=
  let n := nat_of_ascii a in
  if andb (48 <=? n)%nat (n <=? 57)%nat then Some (n - 48)%nat else None.

Definition is_struct_space (a : ascii) : bool :=
  let n := nat_of_ascii a in
  orb (n =? 32)%nat (andb (9 <=? n)%nat (n <=? 13)%nat).

(** A repeat count and its code; white space between items is skipped. *)
Fixpoint parse_fmt (count : option nat) (s : string) : option (list (nat * fmt_code)) :=
  match s with
  | EmptyString =>
      match count with
      | None => Some []
      | Some _ => None
      end
  | String a t =>
      match digit_of_ascii a with
      | Some d =>
          parse_fmt (Some (match count with None => d | Some c => 10 * c + d end)%nat) t
      | None =>
          if is_struct_space a then
            match count with
            | None => parse_fmt None t
            | Some _ => None
            end
          else
            match code_of_ascii a with
            | None => None
            | Some c =>
                match parse_fmt None t with
                | None => None
                | Some items => Some ((match count with None => 1 | Some n => n end, c)%nat :: items)
                end
            end
      end
  end.

Definition code_size (c : fmt_code) : nat :=
  match c with
  | Cx | Cb | CB | Cp => 1
  | Ch | CH => 2
  | Cl | Cf => 4
  | Cd => 8
  end.

Definition calcsize_items (items : list (nat * fmt_code)) : nat :=
  fold_right (fun '(n, c) acc => (n * code_size c + acc)%nat) 0%nat items.

Definition calcsize (fmt : string) : result nat :=
  match parse_fmt None fmt with
  | Some items => Ok (calcsize_items items)
  | None => Raise StructError
  end.

Definition decode_scalar (o : endianness) (c : fmt_code) (bs : list byte) : value :=
  match c with
  | Cb | Ch | Cl => PyInt (sint_of o bs)
  | CB | CH => PyInt (uint_of o bs)
  | Cf => PyFloat (widen (decode_binary32 (uint_of o bs)))
  | Cd => PyFloat (decode_binary64 (uint_of o bs))
  | Cx | Cp => PyBytes bs
  end.

Fixpoint decode_repeat (o : endianness) (c : fmt_code) (n : nat) (bs : list byte) : list value :=
  match n with
  | O => []
  | S n' => decode_scalar o c (firstn (code_size c) bs)
            :: decode_repeat o c n' (skipn (code_size c) bs)
  end.

(** ['np']: a Pascal string stored in [n] bytes, the first one its length. *)
Definition decode_pascal (n : nat) (bs : list byte) : value :=
  match bs with
  | [] => PyBytes []
  | len :: body => PyBytes (firstn (Nat.min (N.to_nat (byte_N len)) (n - 1)) body)
  end.

Fixpoint decode_items (o : endianness) (items : list (nat * fmt_code)) (bs : list byte) : list value :=
  match items with
  | [] => []
  | (n, c) :: rest =>
      let sz := (n * code_size c)%nat in
      let here := firstn sz bs in
      let vs :=
        match c with
        | Cx => []
        | Cp => [decode_pascal n here]
        | _ => decode_repeat o c n here
        end in
      vs ++ decode_items o rest (skipn sz bs)
  end.

(** [struct.unpack(endianness + fmt, buffer)] *)
Definition unpack (o : endianness) (fmt : string) (buffer : list byte) : result (list value) :=
  match parse_fmt None fmt with
  | None => Raise StructError
  | Some items =>
      if (length buffer =? calcsize_items items)%nat
      then Ok (decode_items o items buffer)
      else Raise StructError
  end.

(** ** Text codecs (strict error handling, as [bytes.decode] has by default) *)

Definition in_range (lo hi x : N) : bool := ((lo <=? x) && (x <=? hi))%N.

Fixpoint utf8_decode (bs : list byte) : option str :=
  match bs with
  | [] => Some []
  | b0 :: t =>
      let c0 := byte_N b0 in
      if (c0 <? 0x80)%N then option_map (cons c0) (utf8_decode t)
      else if in_range 0xC2 0xDF c0 then
        match t with
        | b1 :: t1 =>
            let c1 := byte_N b1 in
            if in_range 0x80 0xBF c1
            then option_map (cons ((c0 - 0xC0) * 64 + (c1 - 0x80))%N) (utf8_decode t1)
            else None
        | _ => None
        end
      else if in_range 0xE0 0xEF c0 then
        match t with
        | b1 :: b2 :: t2 =>
            let c1 := byte_N b1 in
            let c2 := byte_N b2 in
            let lo := if (c0 =? 0xE0)%N then 0xA0%N else 0x80%N in
            let hi := if (c0 =? 0xED)%N then 0x9F%N else 0xBF%N in
            if in_range lo hi c1 && in_range 0x80 0xBF c2
            then option_map
                   (cons ((c0 - 0xE0) * 4096 + (c1 - 0x80) * 64 + (c2 - 0x80))%N)
                   (utf8_decode t2)
            else None
        | _ => None
        end
      else if in_range 0xF0 0xF4 c0 then
        match t with
        | b1 :: b2 :: b3 :: t3 =>
            let c1 := byte_N b1 in
            let c2 := byte_N b2 in
            let c3 := byte_N b3 in
            let lo := if (c0 =? 0xF0)%N then 0x90%N else 0x80%N in
            let hi := if (c0 =? 0xF4)%N then 0x8F%N else 0xBF%N in
            if in_range lo hi c1 && in_range 0x80 0xBF c2 && in_range 0x80 0xBF c3
            then option_map
                   (cons ((c0 - 0xF0) * 262144 + (c1 - 0x80) * 4096
                          + (c2 - 0x80) * 64 + (c3 - 0x80))%N)
                   (utf8_decode t3)
            else None
        | _ => None
        end
      else None
  end.

Definition unit16 (o : endianness) (b0 b1 : byte) : N :=
  match o with
  | BigEndian => (byte_N b0 * 256 + byte_N b1)%N
  | LittleEndian => (byte_N b1 * 256 + byte_N b0)%N
  end.

Fixpoint utf16_units (o : endianness) (bs : list byte) : option (list N) :=
  match bs with
  | [] => Some []
  | [_] => None
  | b0 :: b1 :: t => option_map (cons (unit16 o b0 b1)) (utf16_units o t)
  end.

Fixpoint utf16_join (us : list N) : option str :=
  match us with
  | [] => Some []
  | u :: t =>
      if in_range 0xD800 0xDBFF u then
        match t with
        | lo :: t' =>
            if in_range 0xDC00 0xDFFF lo
            then option_map
                   (cons (0x10000 + (u - 0xD800) * 1024 + (lo - 0xDC00))%N)
                   (utf16_join t')
            else None
        | [] => None
        end
      else if in_range 0xDC00 0xDFFF u then None
      else option_map (cons u) (utf16_join t)
  end.

(** ['utf-16-be'] and ['utf-16-le']: no byte-order mark is interpreted. *)
Definition utf16_decode (o : endianness) (bs : list byte) : option str :=
  match utf16_units o bs with
  | Some us => utf16_join us
  | None => None
  end.

Definition decode (codec : list byte -> option str) (bs : list byte) : result str :=
  match codec bs with
  | Some s => Ok s
  | None => Raise UnicodeDecodeError
  end.

(** ** [StructFile]

    A buffered reader over the bytes of the file.  [byte_order] is ['>'] or
    ['<']; the decoder only ever builds [StructFile(fid)], whose order is the
    default ['>'].  (The branch of [__init__] for any other order selects the
    platform's codec and sizes and is outside this model.) *)
Record StructFile := mkStructFile {
  byte_order : endianness;
  raw : list byte;
  position : nat
}.

Definition utf_16_decoder (f : StructFile) : list byte -> option str :=
  utf16_decode (byte_order f).

(** Computations that read from the file and may raise. *)
Definition M (A : Type) : Type := StructFile -> result (A * StructFile).

Definition ret {A} (a : A) : M A := fun f => Ok (a, f).
Definition raise {A} (e : exn) : M A := fun _ => Raise e.
Definition lift {A} (r : result A) : M A :=
  fun f => match r with Ok a => Ok (a, f) | Raise e => Raise e end.
Definition bind {A B} (m : M A) (k : A -> M B) : M B :=
  fun f => match m f with
           | Ok (a, f') => k a f'
           | Raise e => Raise e
           end.

Notation "x <- m ;; k" := (bind m (fun x => k))
  (at level 61, m at next level, right associativity) : py_scope.
Notation "' p <- m ;; k" := (bind m (fun x => match x with p => k end))
  (at level 61, p pattern, m at next level, right associativity) : py_scope.
Notation "m ;;; k" := (bind m (fun _ => k))
  (at level 61, right associativity) : py_scope.

Definition remaining (f : StructFile) : list byte := skipn (position f) (raw f).

(** [f.read(size)] for [size >= 0]: at most [size] bytes, fewer at the end
    of the file. *)
Definition read (size : nat) : M (list byte) := fun f =>
  let b := firstn size (remaining f) in
  Ok (b, mkStructFile (byte_order f) (raw f) (position f + length b)).

(** [f.read()] *)
Definition read_all : M (list byte) := fun f =>
  let b := remaining f in
  Ok (b, mkStructFile (byte_order f) (raw f) (position f + length b)).

Definition tell : M nat := fun f => Ok (position f, f).

(** [f.seek(n, 1)] *)
Definition seek_cur (n : nat) : M unit := fun f =>
  Ok (tt, mkStructFile (byte_order f) (raw f) (position f + n)).

(** [f.seek(offset)] *)
Definition seek (offset : nat) : M unit := fun f =>
  Ok (tt, mkStructFile (byte_order f) (raw f) offset).

Definition read_and_unpack (fmt : string) : M (list value) := fun f =>
  let? size := calcsize fmt in
  let? '(buffer, f') := read size f in
  let? data := unpack (byte_order f) fmt buffer in
  Ok (data, f').

Definition read_string : M str :=
  data <- read_and_unpack "l" ;;
  match data with
  | PyInt length :: _ =>
      if 0 <? length then
        bs <- read (Z.to_nat length) ;;
        fun f => lift (decode (utf_16_decoder f) bs) f
      else ret []
  | _ => raise TypeError
  end.

Definition read_bool : M bool :=
  data <- read_and_unpack "l" ;;
  match data with
  | PyInt z :: _ => ret (negb (z =? 0))
  | _ => raise TypeError
  end.

(** [str.replace(c, by)] for a one-character [c], and [str.split(c)]. *)
Fixpoint replace (c : ascii) (by_ : string) (s : string) : string :=
  match s with
  | EmptyString => EmptyString
  | String a t =>
      if Ascii.eqb a c then String.append by_ (replace c by_ t)
      else String a (replace c by_ t)
  end.

Fixpoint split_on (c : ascii) (s : string) : list string :=
  match s with
  | EmptyString => [EmptyString]
  | String a t =>
      if Ascii.eqb a c then EmptyString :: split_on c t
      else match split_on c t with
           | [] => [String a EmptyString]
           | h :: r => String a h :: r
           end
  end.

Fixpoint read_subfmts (fmts : list string) (data : list value) : M (list value) :=
  match fmts with
  | [] => ret data
  | subfmt :: rest =>
      if String.eqb subfmt "S" then
        s <- read_string ;; read_subfmts rest (data ++ [PyStr s])
      else if String.eqb subfmt "Z" then
        b <- read_bool ;; read_subfmts rest (data ++ [PyBool b])
      else
        vs <- read_and_unpack subfmt ;; read_subfmts rest (data ++ vs)
  end.

Definition read_f_at (offset : option nat) (fmt : string) : M pyobj :=
  match offset with Some o => seek o | None => ret tt end ;;;
  let fmt := replace "S" ",S," fmt in
  let fmt := replace "Z" ",Z," fmt in
  let fmt := split_on "," fmt in
  data <- read_subfmts fmt [] ;;
  match data with
  | [v] => ret (Scalar v)
  | _ => ret (Tuple data)
  end.

(** Every call in the decoder leaves [offset] at its default, [None]. *)
Definition read_f (fmt : string) : M pyobj := read_f_at None fmt.

(** Typed views of what [read_f] returns (the decoder unpacks the result of
    each call according to the format it passed). *)
Definition read_int (fmt : string) : M Z :=
  o <- read_f fmt ;;
  match o with Scalar (PyInt z) => ret z | _ => raise TypeError end.

Definition read_int2 (fmt : string) : M (Z * Z) :=
  o <- read_f fmt ;;
  match o with Tuple [PyInt a; PyInt b] => ret (a, b) | _ => raise ValueError end.

Definition read_float (fmt : string) : M value :=
  o <- read_f fmt ;;
  match o with Scalar (PyFloat x) => ret (PyFloat x) | _ => raise TypeError end.

Definition read_float2 (fmt : string) : M (value * value) :=
  o <- read_f fmt ;;
  match o with
  | Tuple [PyFloat a; PyFloat b] => ret (PyFloat a, PyFloat b)
  | _ => raise ValueError
  end.

Definition read_bytes (fmt : string) : M (list byte) :=
  o <- read_f fmt ;;
  match o with Scalar (PyBytes b) => ret b | _ => raise TypeError end.

Definition read_str (fmt : string) : M str :=
  o <- read_f fmt ;;
  match o with Scalar (PyStr s) => ret s | _ => raise TypeError end.

(** ** Python and NumPy arithmetic on scalars *)

Definition b64_of_Z (z : Z) : spec_float := binary_normalize 53 1024 z 0 false.
Definition b32_of_Z (z : Z) : spec_float := binary_normalize 24 128 z 0 false.

Definition is_zero (x : spec_float) : bool :=
  match x with S754_zero _ => true | _ => false end.

Definition is_nan (x : spec_float) : bool :=
  match x with S754_nan => true | _ => false end.

(** The value as a binary64 number, when it is a number. *)
Definition to_float64 (v : value) : option spec_float :=
  match v with
  | PyInt z => Some (b64_of_Z z)
  | PyFloat x => Some x
  | NpFloat32 x => Some (widen x)
  | PyBool b => Some (b64_of_Z (if b then 1 else 0))
  | _ => None
  end.

(** [a / b].  Python raises on a zero divisor; NumPy scalars do not (they
    warn and return an infinity or a NaN).  A Python [int] is weak against
    a [float32] scalar: the quotient stays in binary32. *)
Definition py_truediv (a b : value) : result value :=
  match a, b with
  | PyInt z, NpFloat32 y => Ok (NpFloat32 (SFdiv 24 128 (b32_of_Z z) y))
  | NpFloat32 x, NpFloat32 y => Ok (NpFloat32 (SFdiv 24 128 x y))
  | PyFloat x, NpFloat32 y => Ok (PyFloat (SFdiv 53 1024 x (widen y)))
  | NpFloat32 x, (PyFloat _ | PyInt _ | PyBool _) =>
      match to_float64 b with
      | Some y => Ok (PyFloat (SFdiv 53 1024 (widen x) y))
      | None => Raise TypeError
      end
  | _, _ =>
      match to_float64 a, to_float64 b with
      | Some x, Some y =>
          if is_zero y then Raise ZeroDivisionError
          else Ok (PyFloat (SFdiv 53 1024 x y))
      | _, _ => Raise TypeError
      end
  end.

(** [a * b] and [a - b] on Python numbers (no exception on floats). *)
Definition py_mul (a b : value) : result value :=
  match a, b with
  | PyInt x, PyInt y => Ok (PyInt (x * y))
  | PyInt z, NpFloat32 y => Ok (NpFloat32 (SFmul 24 128 (b32_of_Z z) y))
  | _, _ =>
      match to_float64 a, to_float64 b with
      | Some x, Some y => Ok (PyFloat (SFmul 53 1024 x y))
      | _, _ => Raise TypeError
      end
  end.

Definition py_sub (a b : value) : result value :=
  match a, b with
  | PyInt x, PyInt y => Ok (PyInt (x - y))
  | _, _ =>
      match to_float64 a, to_float64 b with
      | Some x, Some y => Ok (PyFloat (SFsub 53 1024 x y))
      | _, _ => Raise TypeError
      end
  end.

(** ** Column titles: a name, and units in a trailing parenthesised token *)

(** [str.isspace] on one code point, the separator set of [str.split()]. *)
Definition py_isspace (c : N) : bool :=
  in_range 9 13 c || in_range 28 32 c || (c =? 0x85)%N || (c =? 0xA0)%N
  || (c =? 0x1680)%N || in_range 0x2000 0x200A c || in_range 0x2028 0x2029 c
  || (c =? 0x202F)%N || (c =? 0x205F)%N || (c =? 0x3000)%N.

(** [s.split()]; [cur] is the word being read, reversed. *)
Fixpoint py_split (cur : str) (s : str) : list str :=
  match s with
  | [] => match cur with [] => [] | _ => [rev cur] end
  | c :: t =>
      if py_isspace c then
        match cur with
        | [] => py_split [] t
        | _ => rev cur :: py_split [] t
        end
      else py_split (c :: cur) t
  end.

Fixpoint py_lstrip (chars : N -> bool) (s : str) : str :=
  match s with
  | [] => []
  | c :: t => if chars c then py_lstrip chars t else s
  end.

Definition py_strip (chars : N -> bool) (s : str) : str :=
  rev (py_lstrip chars (rev (py_lstrip chars s))).

(** [sep.join(words)] *)
Fixpoint py_join (sep : str) (words : list str) : str :=
  match words with
  | [] => []
  | [w] => w
  | w :: rest => w ++ sep ++ py_join sep rest
  end.

Definition lparen : N := 40.
Definition rparen : N := 41.

Definition name_and_units (title : str) : str * str :=
  let words := py_split [] title in
  match rev words with
  | last_word :: _ =>
      if (hd 0%N last_word =? lparen)%N && (List.last last_word 0%N =? rparen)%N
      then (py_join (str_of " ") (removelast words),
            py_strip (fun c => (c =? lparen)%N || (c =? rparen)%N) last_word)
      else (title, [])
  | [] => (title, [])
  end.

(** ** Memory-mapped sample arrays *)

(** The NumPy type characters the decoder uses: ['h'], ['l'], ['f'], ['d']. *)
Inductive np_char := Nh | Nl | Nf | Nd.

(** A read-only [np.memmap] over the file: nothing is copied, the handle
    records where the samples are. *)
Record memmap := mk_memmap {
  mm_dtype : endianness * np_char;
  mm_offset : nat;
  mm_shape : nat
}.

(** [len(array)] *)
Definition mm_len (a : memmap) : nat := mm_shape a.

Section Decoder.

(** NumPy's ['l'] is the C [long] of the platform (4 or 8 bytes); the
    decoder is verified for any size. *)
Variable np_long_itemsize : nat.

Definition itemsize (c : np_char) : nat :=
  match c with
  | Nh => 2
  | Nl => np_long_itemsize
  | Nf => 4
  | Nd => 8
  end.

Definition nbytes (a : memmap) : nat := (mm_shape a * itemsize (snd (mm_dtype a)))%nat.

(** [np.memmap(filename, mode='r', dtype=..., offset=..., shape=n_points)]:
    a negative shape is refused, and so is a mapping that ends beyond the
    end of the file. *)
Definition np_memmap (file : list byte) (dtype : endianness * np_char)
    (offset : nat) (shape : Z) : result memmap :=
  if shape <? 0 then Raise ValueError
  else if (offset + Z.to_nat shape * itemsize (snd dtype) <=? length file)%nat
       then Ok (mk_memmap dtype offset (Z.to_nat shape))
       else Raise ValueError.

(** The mapping at the current position of the file, which is then moved
    past the samples: the two lines
    [array = np.memmap(..., offset=f.tell(), shape=n_points)] and
    [f.seek(array.nbytes, 1)]. *)
Definition map_array (dtype : np_char) (n_points : Z) : M memmap := fun f =>
  let? '(offset, f) := tell f in
  let? array := np_memmap (raw f) (byte_order f, dtype) offset n_points in
  let? '(_, f) := seek_cur (nbytes array) f in
  Ok (array, f).

(** The elements of a mapped [float32] array. *)
Definition float32_elements (file : list byte) (a : memmap) : list spec_float :=
  map (fun k => decode_binary32
                  (uint_of (fst (mm_dtype a))
                     (firstn 4 (skipn (mm_offset a + 4 * k) file))))
      (seq 0 (mm_shape a)).

(** [np.diff] on binary32 values. *)
Fixpoint np_diff (xs : list spec_float) : list spec_float :=
  match xs with
  | x :: ((y :: _) as t) => SFsub 24 128 y x :: np_diff t
  | _ => []
  end.

Fixpoint insert_sorted (x : spec_float) (l : list spec_float) : list spec_float :=
  match l with
  | [] => [x]
  | y :: t => if SFleb x y then x :: l else y :: insert_sorted x t
  end.

(** [np.median] on binary32 values: NaN for an empty array or one that
    holds a NaN, else the middle element of the sorted values, or the mean
    of the two middle ones. *)
Definition np_median (xs : list spec_float) : spec_float :=
  if existsb is_nan xs then S754_nan
  else
    let s := fold_right insert_sorted [] xs in
    let n := length s in
    match n with
    | O => S754_nan
    | _ =>
        if Nat.odd n then nth (n / 2) s S754_nan
        else SFdiv 24 128
               (SFadd 24 128 (nth (n / 2 - 1) s S754_nan) (nth (n / 2) s S754_nan))
               (b32_of_Z 2)
    end.

(** ** Signal channels *)

(** One row for the signal-channel table, in the order of
    [_signal_channel_dtype]: name, id, sampling rate, storage type, units,
    gain, offset, group id. *)
Record channel_info := mk_channel_info {
  ch_name : str;
  ch_id : Z;
  ch_sampling_rate : value;
  ch_dtype : endianness * np_char;
  ch_units : str;
  ch_gain : value;
  ch_offset : value;
  ch_group_id : Z
}.

(** The variables of [_do_the_heavy_lifting] that the loop over the columns
    updates.  [t_start] and [sampling_period] are unbound ([None]) until
    the time column has been read. *)
Record columns := mk_columns {
  sigs_memmap : list memmap;
  sig_channels : list channel_info;
  t_start : option value;
  sampling_period : option value
}.

Definition no_columns : columns := mk_columns [] [] None None.

Definition set_time (st : columns) (first_value increment : value) : columns :=
  mk_columns (sigs_memmap st) (sig_channels st) (Some first_value) (Some increment).

(** The number of points, the type and the title of a column. *)
Definition read_column_header (format_ver : Z) : M (Z * option Z * str) :=
  n_points <- read_int "l" ;;
  col_type <-
    (if (format_ver =? 1) || (format_ver =? 2) then ret None
     else if 3 <=? format_ver then (t <- read_int "l" ;; ret (Some t))
     else raise (NotImplementedError (unimplemented_format_version format_ver))) ;;
  title <-
    (if (format_ver =? 1) || (format_ver =? 2) then
       (b <- read_bytes "80p" ;; lift (decode utf8_decode b))
     else if 3 <=? format_ver then read_str "S"
     else raise (NotImplementedError (unimplemented_format_version format_ver))) ;;
  ret (n_points, col_type, title).

(** The end of the loop body: map the samples, skip them, and append the
    array and its channel row. *)
Definition store_column (i n_points : Z) (name units : str) (dtype : np_char)
    (gain offset : value) (st : columns) : M columns :=
  array <- map_array dtype n_points ;;
  order <- (fun f => Ok (byte_order f, f)) ;;
  let channel_id := i in
  let group_id := 0 in
  match sampling_period st with
  | None => raise UnboundLocalError
  | Some period =>
      rate <- lift (py_truediv (PyInt 1) period) ;;
      let channel_info :=
        mk_channel_info name channel_id rate (order, dtype) units gain offset group_id in
      ret (mk_columns (sigs_memmap st ++ [array]) (sig_channels st ++ [channel_info])
             (t_start st) (sampling_period st))
  end.

(** A series: a first value and an increment, and no stored array.  The
    frequency [1/increment] is computed for the log. *)
Definition read_series (fmt : string) : M (value * value) :=
  '(first_value, increment) <- read_float2 fmt ;;
  _ <- lift (py_truediv (PyInt 1) increment) ;;
  ret (first_value, increment).

(** Version 1: the time column is an array of floats, taken as regularly
    sampled at the median of its differences. *)
Definition read_time_array (n_points : Z) : M (value * value) :=
  array <- map_array Nf n_points ;;
  file <- (fun f => Ok (raw f, f)) ;;
  let elements := float32_elements file array in
  match elements with
  | [] => raise IndexError
  | first_value :: _ =>
      let increment := np_median (np_diff elements) in
      _ <- lift (py_truediv (PyInt 1) (NpFloat32 increment)) ;;
      ret (NpFloat32 first_value, NpFloat32 increment)
  end.

(** [col_type is k]: the type of the column is the small integer [k]
    ([None] before version 3). *)
Definition is_ (col_type : option Z) (k : Z) : bool :=
  match col_type with
  | Some t => t =? k
  | None => false
  end.

(** What the branches of READ COLUMN leave behind: the time axis, after
    which the loop goes on to the next column ([continue]), or the storage
    type, the gain and the offset of a column of samples. *)
Inductive column_kind :=
| time_axis (first_value increment : value)
| samples (dtype : np_char) (gain offset : value).

(** READ COLUMN: what is read after the title depends on the version and,
    from version 3 on, on the type of the column. *)
Definition read_column_kind (format_ver i n_points : Z) (col_type : option Z)
    : M column_kind :=
  if format_ver =? 1 then
    if i =? 0 then
      '(first_value, increment) <- read_time_array n_points ;;
      ret (time_axis first_value increment)
    else ret (samples Nf (PyInt 1) (PyInt 0))
  else if format_ver =? 2 then
    if i =? 0 then
      '(first_value, increment) <- read_series "ff" ;;
      ret (time_axis first_value increment)
    else
      gain <- read_float "f" ;;
      ret (samples Nh gain (PyInt 0))
  else if 3 <=? format_ver then
    if is_ col_type 9 then
      '(first_value, increment) <- read_series "dd" ;;
      if i =? 0 then ret (time_axis first_value increment)
      else raise (NotImplementedError series_only_for_first_column)
    else if is_ col_type 4 then ret (samples Nh (PyInt 1) (PyInt 0))
    else if is_ col_type 5 then ret (samples Nl (PyInt 1) (PyInt 0))
    else if is_ col_type 6 then ret (samples Nf (PyInt 1) (PyInt 0))
    else if is_ col_type 7 then ret (samples Nd (PyInt 1) (PyInt 0))
    else if is_ col_type 10 then
      '(gain, offset) <- read_float2 "dd" ;;
      ret (samples Nh gain offset)
    else raise (NotImplementedError (unimplemented_column_type col_type))
  else raise (NotImplementedError (unimplemented_format_version format_ver)).

Definition read_column_data (format_ver i n_points : Z) (col_type : option Z)
    (name units : str) (st : columns) : M columns :=
  kind <- read_column_kind format_ver i n_points col_type ;;
  match kind with
  | time_axis first_value increment => ret (set_time st first_value increment)
  | samples dtype gain offset =>
      store_column i n_points name units dtype gain offset st
  end.

(** The body of [for i in range(n_cols)]. *)
Definition read_column (format_ver i : Z) (st : columns) : M columns :=
  '(n_points, col_type, title) <- read_column_header format_ver ;;
  let '(name, units) := name_and_units title in
  read_column_data format_ver i n_points col_type name units st.

Definition py_range (n : Z) : list Z := map Z.of_nat (seq 0 (Z.to_nat n)).

Fixpoint read_columns (format_ver : Z) (indices : list Z) (st : columns) : M columns :=
  match indices with
  | [] => ret st
  | i :: rest =>
      st' <- read_column format_ver i st ;;
      read_columns format_ver rest st'
  end.

(** The identifier, the format version and the number of columns. *)
Definition read_preamble : M (str * Z * Z) :=
  id_bytes <- read 4 ;;
  header_id <- lift (decode utf8_decode id_bytes) ;;
  lift (py_assert (str_eqb header_id (str_of "AxGr") || str_eqb header_id (str_of "axgx"))
          not_an_AxoGraph_file) ;;;
  if str_eqb header_id (str_of "AxGr") then
    '(format_ver, n_cols) <- read_int2 "HH" ;;
    lift (py_assert ((format_ver =? 1) || (format_ver =? 2))
            (header_version_mismatch format_ver)) ;;;
    ret (header_id, format_ver, n_cols)
  else if str_eqb header_id (str_of "axgx") then
    '(format_ver, n_cols) <- read_int2 "ll" ;;
    lift (py_assert (3 <=? format_ver) (header_version_mismatch format_ver)) ;;;
    ret (header_id, format_ver, n_cols)
  else raise (NotImplementedError unimplemented_header_id).

(** ** Dictionaries ([dict] keeps insertion order) *)

Definition dict (K V : Type) := list (K * V).

Fixpoint dict_set {K V} (eqb : K -> K -> bool) (k : K) (v : V) (d : dict K V) : dict K V :=
  match d with
  | [] => [(k, v)]
  | (k', v') :: t => if eqb k k' then (k, v) :: t else (k', v') :: dict_set eqb k v t
  end.

Fixpoint dict_get {K V} (eqb : K -> K -> bool) (k : K) (d : dict K V) : result V :=
  match d with
  | [] => Raise KeyError
  | (k', v) :: t => if eqb k k' then Ok v else dict_get eqb k t
  end.

(** A record read field by field, keyed by the names of its description. *)
Definition pydict := dict string pyobj.

Definition as_int (o : pyobj) : result Z :=
  match o with Scalar (PyInt z) => Ok z | _ => Raise TypeError end.

Definition as_value (o : pyobj) : result value :=
  match o with Scalar v => Ok v | _ => Raise TypeError end.

Definition as_str (o : pyobj) : result str :=
  match o with Scalar (PyStr s) => Ok s | _ => Raise TypeError end.

Definition get_int (key : string) (d : pydict) : result Z :=
  let? o := dict_get String.eqb key d in as_int o.

(** ** Section layouts *)

Definition FONT_BOLD : Z := 75.
Definition FONT_NOT_BOLD : Z := 50.
Definition FONT_ITALICS : Z := 1.
Definition FONT_UNDERLINE : Z := 2.
Definition FONT_STRIKEOUT : Z := 4.

Definition TraceHeaderDescriptionV1 : list (string * string) :=
  [ ("x_index", "l");
    ("y_index", "l");
    ("err_bar_index", "l");
    ("group_id_for_this_trace", "l");
    ("hidden", "Z");
    ("min_x", "d");
    ("max_x", "d");
    ("min_positive_x", "d");
    ("x_is_regularly_spaced", "Z");
    ("x_increases_monotonically", "Z");
    ("x_interval_if_regularly_spaced", "d");
    ("min_y", "d");
    ("max_y", "d");
    ("min_positive_y", "d");
    ("trace_color", "xBBB");
    ("display_joined_line_plot", "Z");
    ("line_thickness", "d");
    ("pen_style", "l");
    ("display_symbol_plot", "Z");
    ("symbol_type", "l");
    ("symbol_size", "l");
    ("draw_every_data_point", "Z");
    ("skip_points_by_distance_instead_of_pixels", "Z");
    ("pixels_between_symbols", "l");
    ("display_histogram_plot", "Z");
    ("histogram_type", "l");
    ("histogram_bar_separation", "l");
    ("display_error_bars", "Z");
    ("display_pos_err_bar", "Z");
    ("display_neg_err_bar", "Z");
    ("err_bar_width", "l") ].

(** [list.insert(3, ...)] on a copy of version 1. *)
Definition TraceHeaderDescriptionV2 : list (string * string) :=
  firstn 3 TraceHeaderDescriptionV1
  ++ [("neg_err_bar_index", "l")]
  ++ skipn 3 TraceHeaderDescriptionV1.

Definition GroupHeaderDescriptionV1 : list (string * string) :=
  [ ("title", "S"); ("unknown1", "h"); ("units", "S"); ("unknown2", "hll") ].

Definition FontSettingsDescription : list (string * string) :=
  [ ("font", "S"); ("size", "h"); ("unknown1", "5b");
    ("setting1", "B"); ("setting2", "B") ].

Definition XAxisSettingsDescription : list (string * string) :=
  [ ("unknown1", "3l2d"); ("plotted_x_range", "dd"); ("unknown2", "d");
    ("auto_x_ticks", "Z"); ("x_minor_ticks", "d"); ("x_major_ticks", "d");
    ("x_axis_title", "S"); ("unknown3", "h"); ("units", "S"); ("unknown4", "h") ].

Definition EpochInfoDescription : list (string * string) :=
  [ ("title", "S"); ("t_start", "d"); ("t_stop", "d"); ("y_pos", "d") ].

(** [for key, fmt in description: info[key] = f.read_f(fmt)] *)
Fixpoint read_description (description : list (string * string)) (info : pydict) : M pydict :=
  match description with
  | [] => ret info
  | (key, fmt) :: rest =>
      v <- read_f fmt ;;
      read_description rest (dict_set String.eqb key v info)
  end.

(** ** The sections that follow the columns (format version 3 and later) *)

(** [np.sort(list(set(xs)))], also [np.unique(xs)]: the distinct values in
    increasing order. *)
Fixpoint insert_unique (x : Z) (l : list Z) : list Z :=
  match l with
  | [] => [x]
  | y :: t =>
      if x <? y then x :: l
      else if x =? y then l
      else y :: insert_unique x t
  end.

Definition np_unique (xs : list Z) : list Z := fold_right insert_unique [] xs.

Definition trace_description (version : Z) : result (list (string * string)) :=
  if version =? 1 then Ok TraceHeaderDescriptionV1
  else if version =? 2 then Ok TraceHeaderDescriptionV2
  else Raise (NotImplementedError (unimplemented_trace_header_version version)).

(** [for i in range(n_traces)]: traces are keyed from 1. *)
Fixpoint read_trace_headers (format_ver : Z) (indices : list Z)
    (trace_header_info_list : dict Z pydict) (group_ids : list Z)
    : M (dict Z pydict * list Z) :=
  match indices with
  | [] => ret (trace_header_info_list, group_ids)
  | i :: rest =>
      version <- (if format_ver <? 6 then ret 1 else read_int "l") ;;
      description <- lift (trace_description version) ;;
      trace_header_info <-
        read_description description [("trace_header_version", Scalar (PyInt version))] ;;
      group_id <- lift (get_int "group_id_for_this_trace" trace_header_info) ;;
      read_trace_headers format_ver rest
        (dict_set Z.eqb (i + 1) trace_header_info trace_header_info_list)
        (group_ids ++ [group_id])
  end.

Definition group_description (version : Z) : result (list (string * string)) :=
  if version =? 1 then Ok GroupHeaderDescriptionV1
  else Raise (NotImplementedError (unimplemented_group_header_version version)).

(** [for i in group_ids]: groups are keyed by their identifier. *)
Fixpoint read_group_headers (format_ver : Z) (group_ids : list Z)
    (group_header_info_list : dict Z pydict) : M (dict Z pydict) :=
  match group_ids with
  | [] => ret group_header_info_list
  | i :: rest =>
      version <- (if format_ver <? 6 then ret 1 else read_int "l") ;;
      description <- lift (group_description version) ;;
      group_header_info <-
        read_description description [("group_header_version", Scalar (PyInt version))] ;;
      read_group_headers format_ver rest
        (dict_set Z.eqb i group_header_info group_header_info_list)
  end.

(** One boolean per episode; the episodes that are set, counted from 1. *)
Fixpoint read_flags (indices : list Z) (set_episodes : list Z) : M (list Z) :=
  match indices with
  | [] => ret set_episodes
  | i :: rest =>
      o <- read_f "Z" ;;
      match o with
      | Scalar (PyBool episode_bool) =>
          read_flags rest (if episode_bool then set_episodes ++ [i + 1] else set_episodes)
      | _ => raise TypeError
      end
  end.

Definition read_episode_list : M (Z * list Z) :=
  n <- read_int "l" ;;
  flags <- read_flags (py_range n) [] ;;
  ret (n, flags).

Definition font_derived (info : pydict) : result pydict :=
  let? setting1 := get_int "setting1" info in
  let? _ := py_assert ((setting1 =? FONT_BOLD) || (setting1 =? FONT_NOT_BOLD))
              (unexpected_font_setting1 setting1) in
  let? size := get_int "size" info in
  let? size := py_truediv (PyInt size) (PyFloat (b64_of_Z 10)) in
  let? setting2 := get_int "setting2" info in
  let flag mask := Scalar (PyBool (negb (Z.land setting2 mask =? 0))) in
  Ok (dict_set String.eqb "strikeout" (flag FONT_STRIKEOUT)
     (dict_set String.eqb "underline" (flag FONT_UNDERLINE)
     (dict_set String.eqb "italics" (flag FONT_ITALICS)
     (dict_set String.eqb "bold" (Scalar (PyBool (setting1 =? FONT_BOLD)))
     (dict_set String.eqb "size" (Scalar size) info))))).

Fixpoint read_font_settings (font_categories : list string)
    (font_settings_info_list : dict string pydict) : M (dict string pydict) :=
  match font_categories with
  | [] => ret font_settings_info_list
  | i :: rest =>
      font_settings_info <- read_description FontSettingsDescription [] ;;
      font_settings_info <- lift (font_derived font_settings_info) ;;
      read_font_settings rest
        (dict_set String.eqb i font_settings_info font_settings_info_list)
  end.

(** [for i in range(n): xs.append(read)] *)
Fixpoint read_list {A} (indices : list Z) (read_one : M A) (xs : list A) : M (list A) :=
  match indices with
  | [] => ret xs
  | _ :: rest => x <- read_one ;; read_list rest read_one (xs ++ [x])
  end.

(** A local variable of the function that may still be unbound. *)
Definition bound (v : option value) : result value :=
  match v with Some x => Ok x | None => Raise UnboundLocalError end.

(** [event_index * sampling_period] for each labelled event. *)
Fixpoint make_event_list (events : list (str * Z)) (sampling_period : option value)
    : result (list (str * value)) :=
  match events with
  | [] => Ok []
  | (event_label, event_index) :: rest =>
      let? period := bound sampling_period in
      let? event_time := py_mul (PyInt event_index) period in
      let? event_list := make_event_list rest sampling_period in
      Ok ((event_label, event_time) :: event_list)
  end.

(** The start, the duration (both in sampling periods) and the label of
    each epoch. *)
Fixpoint make_epoch_arrays (epoch_list : list pydict) (sampling_period : option value)
    : result (list value * list value * list str) :=
  match epoch_list with
  | [] => Ok ([], [], [])
  | epoch :: rest =>
      let? start := let? o := dict_get String.eqb "t_start" epoch in as_value o in
      let? period := bound sampling_period in
      let? timestamp := py_truediv start period in
      let? stop := let? o := dict_get String.eqb "t_stop" epoch in as_value o in
      let? length := py_sub stop start in
      let? duration := py_truediv length period in
      let? title := let? o := dict_get String.eqb "title" epoch in as_str o in
      let? '(timestamps, durations, labels) := make_epoch_arrays rest sampling_period in
      Ok (timestamp :: timestamps, duration :: durations, title :: labels)
  end.

(** What [info] holds for format version 3 and later only. *)
Record modern_info := mk_modern_info {
  n_cols : Z;
  n_traces : Z;
  n_groups : Z;
  n_episodes : Z;
  n_events : Z;
  n_epochs : Z;
  comment : str;
  notes : str;
  trace_header_info_list : dict Z pydict;
  group_header_info_list : dict Z pydict;
  event_list : list (str * value);
  epoch_list : list pydict;
  episodes_in_review : list Z;
  masked_episodes : list Z;
  font_settings_info_list : dict string pydict;
  x_axis_settings_info : pydict
}.

(** The events and epochs, and the details kept in [info]. *)
Record annotations := mk_annotations {
  raw_event_timestamps : list value;
  raw_epoch_timestamps : list value;
  raw_epoch_durations : list value;
  event_labels : list str;
  epoch_labels : list str;
  details : option modern_info
}.

Definition read_modern_sections (format_ver cols : Z) (sampling_period : option value)
    : M annotations :=
  comment <- read_str "S" ;;
  notes <- read_str "S" ;;
  n_traces <- read_int "l" ;;
  '(trace_header_info_list, group_ids) <-
    read_trace_headers format_ver (py_range n_traces) [] [] ;;
  n_groups <- read_int "l" ;;
  let group_ids := np_unique group_ids in
  lift (py_assert (n_groups =? Z.of_nat (length group_ids))
          (unexpected_group_count n_groups)) ;;;
  group_header_info_list <- read_group_headers format_ver group_ids [] ;;
  _ <- read_f "9l" ;;
  '(n_episodes, episodes_in_review) <- read_episode_list ;;
  _ <- (if format_ver =? 5 then read_episode_list else ret (0, [])) ;;
  _ <- read_episode_list ;;
  '(_, masked_episodes) <- read_episode_list ;;
  _ <- read_f "d 9l d 4l" ;;
  let font_categories :=
    if 6 <=? format_ver
    then ["axis titles"; "axis labels (ticks)"; "notes"; "graph title"]
    else ["everything (?)"] in
  font_settings_info_list <- read_font_settings font_categories [] ;;
  x_axis_settings_info <- read_description XAxisSettingsDescription [] ;;
  _ <- read_f "8l 3d 13l" ;;
  '(n_events, n_events_again) <- read_int2 "ll" ;;
  raw_event_timestamps <- read_list (py_range n_events_again) (read_int "l") [] ;;
  n_events_yet_again <- read_int "l" ;;
  event_labels <- read_list (py_range n_events_yet_again) (read_str "S") [] ;;
  event_list <-
    lift (make_event_list (combine event_labels raw_event_timestamps) sampling_period) ;;
  _ <- read_f "7l" ;;
  n_epochs <- read_int "l" ;;
  epoch_list <- read_list (py_range n_epochs) (read_description EpochInfoDescription []) [] ;;
  '(raw_epoch_timestamps, raw_epoch_durations, epoch_labels) <-
    lift (make_epoch_arrays epoch_list sampling_period) ;;
  _ <- read_all ;;
  ret (mk_annotations (map PyInt raw_event_timestamps) raw_epoch_timestamps
         raw_epoch_durations event_labels epoch_labels
         (Some (mk_modern_info cols n_traces n_groups n_episodes n_events n_epochs
                  comment notes trace_header_info_list group_header_info_list
                  event_list epoch_list episodes_in_review masked_episodes
                  font_settings_info_list x_axis_settings_info))).

(** Format versions 1 and 2: nothing follows the columns. *)
Definition read_legacy_end : M annotations :=
  rest_of_the_file <- read_all ;;
  lift (py_assert (match rest_of_the_file with [] => true | _ => false end)
          rest_of_the_file_not_empty) ;;;
  ret (mk_annotations [] [] [] [] [] None).

(** ** The decoder object *)

Record header_t := mk_header {
  nb_block : Z;
  nb_segment : list Z;
  signal_channels : list channel_info;
  event_channels : list (str * str * str);
  unit_channels : list str
}.

Record info_t := mk_info {
  header_id : str;
  format_ver : Z;
  info_t_start : value;
  info_sampling_period : value;
  modern : option modern_info
}.

(** The attributes of an [AxographRawIO] once [_do_the_heavy_lifting] has
    run.  [_raw_signals] is indexed by segment, the three event and epoch
    attributes by event channel (0: tags, 1: intervals). *)
Record AxographRawIO := mk_AxographRawIO {
  force_single_segment : bool;
  header : header_t;
  _sampling_period : value;
  _t_start : value;
  _raw_signals : list (list memmap);
  _raw_event_epoch_timestamps : list (list value);
  _raw_event_epoch_durations : list (option (list value));
  _event_epoch_labels : list (list str);
  info : info_t
}.

(** An element of an array of type ['U'] as it is read back: the array
    pads its elements with NUL characters to a common width, and an element
    comes back without its trailing NULs, its own included. *)
Fixpoint np_str (s : str) : str :=
  match s with
  | [] => []
  | c :: t =>
      match np_str t with
      | [] => if (c =? 0)%N then [] else [c]
      | t' => c :: t'
      end
  end.

(** [np.array(labels, dtype='U')] *)
Definition np_array_U (labels : list str) : list str := map np_str labels.

Definition read_file (force : bool) : M AxographRawIO :=
  '(header_id, format_ver, n_cols) <- read_preamble ;;
  cols <- read_columns format_ver (py_range n_cols) no_columns ;;
  ann <-
    (if (format_ver =? 1) || (format_ver =? 2) then read_legacy_end
     else if 3 <=? format_ver then
       read_modern_sections format_ver n_cols (sampling_period cols)
     else raise UnboundLocalError) ;;
  let event_channels :=
    [ (str_of "AxoGraph Tags", str_of "", str_of "event");
      (str_of "AxoGraph Intervals", str_of "", str_of "epoch") ] in
  period <- lift (bound (sampling_period cols)) ;;
  start <- lift (bound (t_start cols)) ;;
  ret (mk_AxographRawIO force
         (mk_header 1 [1] (sig_channels cols) event_channels [])
         period start
         [sigs_memmap cols]
         [raw_event_timestamps ann; raw_epoch_timestamps ann]
         [None; Some (raw_epoch_durations ann)]
         [np_array_U (event_labels ann); np_array_U (epoch_labels ann)]
         (mk_info header_id format_ver start period (details ann))).

(** [with open(self.filename, 'rb') as fid: f = StructFile(fid) ...] on a
    file whose content is [file]. *)
Definition _do_the_heavy_lifting (force : bool) (file : list byte) : result AxographRawIO :=
  let? '(self, _) := read_file force (mkStructFile BigEndian file 0) in
  Ok self.

(** ** Event and epoch times *)

Inductive float_dtype := float32 | float64.

Definition b32_of_b64 (x : spec_float) : spec_float :=
  match x with
  | S754_finite s m e => binary_normalize 24 128 (cond_Zopp s (Zpos m)) e s
  | _ => x
  end.

(** One element of [array.astype(dtype)], for an array of integers or of
    floats.  The cast rounds once: an integer goes straight to the
    precision asked for, not through binary64. *)
Definition astype (dtype : float_dtype) (v : value) : result value :=
  match dtype with
  | float64 =>
      match to_float64 v with
      | Some x => Ok (PyFloat x)
      | None => Raise TypeError
      end
  | float32 =>
      match v with
      | PyInt z => Ok (NpFloat32 (b32_of_Z z))
      | _ =>
          match to_float64 v with
          | Some x => Ok (NpFloat32 (b32_of_b64 x))
          | None => Raise TypeError
          end
      end
  end.

(** One element of [array * scalar] for an array of floats: a [float32]
    array stays in binary32 against a Python [float] or a [float32]. *)
Definition np_mul (x scalar : value) : result value :=
  match x, to_float64 scalar with
  | PyFloat a, Some b => Ok (PyFloat (SFmul 53 1024 a b))
  | NpFloat32 a, Some b => Ok (NpFloat32 (SFmul 24 128 a (b32_of_b64 b)))
  | _, _ => Raise TypeError
  end.

Fixpoint np_map (f : value -> result value) (xs : list value) : result (list value) :=
  match xs with
  | [] => Ok []
  | x :: t =>
      let? y := f x in
      let? ys := np_map f t in
      Ok (y :: ys)
  end.

Definition _rescale_event_timestamp (self : AxographRawIO) (event_timestamps : list value)
    (dtype : float_dtype) : result (list value) :=
  np_map (fun t => let? x := astype dtype t in np_mul x (_sampling_period self))
    event_timestamps.

Definition _rescale_epoch_duration (self : AxographRawIO) (raw_duration : list value)
    (dtype : float_dtype) : result (list value) :=
  np_map (fun d => let? x := astype dtype d in np_mul x (_sampling_period self))
    raw_duration.

(** Modelled from the spec: the rescale step of the access layer, a method
    of the base class that is not part of this module: "a separate rescale
    step multiplies by gain and adds offset to produce physical units".
    [raw_sample] is the sample once cast to binary64; the gain and the
    offset are those of the channel table. *)
Definition rescale_signal_raw_to_float (raw_sample : spec_float) (gain offset : value)
    : result spec_float :=
  match to_float64 gain, to_float64 offset with
  | Some g, Some o => Ok (SFadd 53 1024 (SFmul 53 1024 raw_sample g) o)
  | _, _ => Raise TypeError
  end.

(** The column kinds that declare no scaling: the float columns of version
    1 and, from version 3 on, the types 4, 5, 6 and 7. *)
Definition unscaled_kind (format_ver : Z) (col_type : option Z) : Prop :=
  format_ver = 1 \/ (3 <= format_ver /\ In col_type [Some 4; Some 5; Some 6; Some 7]).

(** ** The episodic heuristic *)

(** [len(np.unique(xs)) == 1] for rows compared by [eqb]: there is a row and
    every other row equals it (a row that holds a NaN equals no row). *)
Definition unique_is_singleton {A} (eqb : A -> A -> bool) (xs : list A) : bool :=
  match xs with
  | [] => false
  | x :: t => forallb (eqb x) t
  end.

Definition float_eqb (a b : value) : bool :=
  match to_float64 a, to_float64 b with
  | Some x, Some y => SFeqb x y
  | _, _ => false
  end.

Definition dtype_eqb (a b : endianness * np_char) : bool :=
  match fst a, fst b with
  | BigEndian, BigEndian | LittleEndian, LittleEndian =>
      match snd a, snd b with
      | Nh, Nh | Nl, Nl | Nf, Nf | Nd, Nd => true
      | _, _ => false
      end
  | _, _ => false
  end.

(** Modelled from the spec: the rows of the signal-channel table (the
    declaration [_signal_channel_dtype] belongs to the base class) hold a
    name, an id, a sampling rate, a storage type, units, a gain, an offset
    and a group id; the rate, the gain and the offset are stored as
    binary64 numbers.  Two rows with their ids dropped are equal when the
    seven other fields are. *)
Definition same_signal_parameters (a b : channel_info) : bool :=
  str_eqb (ch_name a) (ch_name b)
  && float_eqb (ch_sampling_rate a) (ch_sampling_rate b)
  && dtype_eqb (ch_dtype a) (ch_dtype b)
  && str_eqb (ch_units a) (ch_units b)
  && float_eqb (ch_gain a) (ch_gain b)
  && float_eqb (ch_offset a) (ch_offset b)
  && (ch_group_id a =? ch_group_id b).

(** The columns ([y_index]) of the traces of a group, in trace order. *)
Fixpoint columns_of_group (group_id : Z) (traces : dict Z pydict) : result (list Z) :=
  match traces with
  | [] => Ok []
  | (trace_index, trace_header) :: rest =>
      let? g := get_int "group_id_for_this_trace" trace_header in
      let? col_indexes := columns_of_group group_id rest in
      if g =? group_id then
        let? y := get_int "y_index" trace_header in
        Ok (y :: col_indexes)
      else Ok col_indexes
  end.

Fixpoint group_columns (groups : dict Z pydict) (traces : dict Z pydict)
    (group_id_to_col_indexes : dict Z (list Z)) : result (dict Z (list Z)) :=
  match groups with
  | [] => Ok group_id_to_col_indexes
  | (group_id, group_header) :: rest =>
      let? col_indexes := columns_of_group group_id traces in
      group_columns rest traces (dict_set Z.eqb group_id col_indexes group_id_to_col_indexes)
  end.

(** [table[np.array(col_indexes) - 1]]: a negative index counts from the
    end, an index out of bounds raises; so does an empty list of indices
    (it makes an array of floats). *)
Definition np_take {A} (table : list A) (index : Z) : result A :=
  let n := Z.of_nat (length table) in
  let j := if index <? 0 then index + n else index in
  if (0 <=? j) && (j <? n) then
    match nth_error table (Z.to_nat j) with
    | Some row => Ok row
    | None => Raise IndexError
    end
  else Raise IndexError.

Fixpoint np_take_all {A} (table : list A) (indices : list Z) : result (list A) :=
  match indices with
  | [] => Ok []
  | j :: rest =>
      let? row := np_take table j in
      let? rows := np_take_all table rest in
      Ok (row :: rows)
  end.

Definition signal_params_for_group (table : list channel_info) (col_indexes : list Z)
    : result (list channel_info) :=
  match col_indexes with
  | [] => Raise IndexError
  | _ => np_take_all table (map (fun c => c - 1) col_indexes)
  end.

Fixpoint groups_uniform (table : list channel_info)
    (group_id_to_col_indexes : dict Z (list Z))
    (group_has_uniform_signal_parameters : dict Z bool) : result (dict Z bool) :=
  match group_id_to_col_indexes with
  | [] => Ok group_has_uniform_signal_parameters
  | (group_id, col_indexes) :: rest =>
      let? params := signal_params_for_group table col_indexes in
      groups_uniform table rest
        (dict_set Z.eqb group_id (unique_is_singleton same_signal_parameters params)
           group_has_uniform_signal_parameters)
  end.

(** The answer, and the line written to the debug log. *)
Definition _safe_to_treat_as_episodic (self : AxographRawIO) : result (bool * string) :=
  if format_ver (info self) <? 3 then
    Ok (false, "Cannot treat as episodic because old format contains insufficient metadata")
  else
    let? m := match modern (info self) with Some m => Ok m | None => Raise KeyError end in
    let? group_id_to_col_indexes :=
      group_columns (group_header_info_list m) (trace_header_info_list m) [] in
    let n_traces_by_group :=
      map (fun '(k, v) => (k, Z.of_nat (length v))) group_id_to_col_indexes in
    let all_groups_have_same_number_of_traces :=
      (length (np_unique (map snd n_traces_by_group)) =? 1)%nat in
    if negb all_groups_have_same_number_of_traces then
      Ok (false, "Cannot treat as episodic because groups differ in number of traces")
    else
      let n_traces_per_group := np_unique (map snd n_traces_by_group) in
      let? differs :=
        match n_traces_per_group with
        | [n] => Ok (negb (n =? n_episodes m))
        | _ => Raise ValueError
        end in
      if differs then
        Ok (false, "Cannot treat as episodic because n_episodes does not match number of traces per group")
      else
        let? group_has_uniform_signal_parameters :=
          groups_uniform (signal_channels (header self)) group_id_to_col_indexes [] in
        let all_groups_have_uniform_signal_parameters :=
          forallb (fun b => b) (map snd group_has_uniform_signal_parameters) in
        if negb all_groups_have_uniform_signal_parameters then
          Ok (false, "Cannot treat as episodic because some groups have heterogeneous signal parameters")
        else Ok (true, "Can treat as episodic").

(** [table.reshape(n, -1)[0]] *)
Definition reshape_first_row {A} (n : Z) (table : list A) : result (list A) :=
  if n <=? 0 then Raise ValueError
  else if Z.of_nat (length table) mod n =? 0
       then Ok (firstn (Z.to_nat (Z.of_nat (length table) / n)) table)
       else Raise ValueError.

(** [np.arange(0, stop, step)] on Python integers, [stop >= 0]. *)
Definition np_arange (stop step : nat) : result (list nat) :=
  match step with
  | O => Raise ZeroDivisionError
  | _ => Ok (map (fun q => q * step)%nat (seq 0 ((stop + step - 1) / step)))
  end.

Definition _convert_to_multi_segment (self : AxographRawIO) : result AxographRawIO :=
  let? m := match modern (info self) with Some m => Ok m | None => Raise KeyError end in
  let? table := reshape_first_row (n_episodes m) (signal_channels (header self)) in
  let n_traces_per_group := length table in
  let? sigs_memmap :=
    match _raw_signals self with
    | sigs :: _ => Ok sigs
    | [] => Raise IndexError
    end in
  let? starts := np_arange (length sigs_memmap) n_traces_per_group in
  let new_sigs_memmap :=
    map (fun first_index => firstn n_traces_per_group (skipn first_index sigs_memmap))
      starts in
  Ok (mk_AxographRawIO (force_single_segment self)
        (mk_header (nb_block (header self)) [n_episodes m] table
           (event_channels (header self)) (unit_channels (header self)))
        (_sampling_period self) (_t_start self)
        new_sigs_memmap
        (_raw_event_epoch_timestamps self) (_raw_event_epoch_durations self)
        (_event_epoch_labels self) (info self)).

(** [_parse_header]; the annotations the base class generates afterwards
    do not touch the header. *)
Definition _parse_header (force : bool) (file : list byte) : result AxographRawIO :=
  let? self := _do_the_heavy_lifting force file in
  if negb (force_single_segment self) then
    let? '(safe, _) := _safe_to_treat_as_episodic self in
    if safe then _convert_to_multi_segment self else Ok self
  else Ok self.

End Decoder.

(** ** Access to the decoded data *)

(** [xs[index]] on a Python list: a negative index counts from the end. *)
Definition py_getitem {A} (xs : list A) (index : Z) : result A :=
  let n := Z.of_nat (length xs) in
  let j := if index <? 0 then index + n else index in
  if (0 <=? j) && (j <? n) then
    match nth_error xs (Z.to_nat j) with
    | Some x => Ok x
    | None => Raise IndexError
    end
  else Raise IndexError.

(** [len(self._raw_signals[seg_index][0])]; the block and the channels
    asked for play no part. *)
Definition _get_signal_size (self : AxographRawIO) (block_index seg_index : Z)
    (channel_indexes : option (list Z)) : result nat :=
  let? segment := py_getitem (_raw_signals self) seg_index in
  let? first := py_getitem segment 0 in
  Ok (mm_len first).

(** [event_channel_index]: 0 for the tags, 1 for the intervals. *)
Definition _event_count (self : AxographRawIO)
    (block_index seg_index event_channel_index : Z) : result nat :=
  let? timestamps := py_getitem (_raw_event_epoch_timestamps self) event_channel_index in
  Ok (length timestamps).

(** The raw times, durations and labels of an event channel; the time
    window is not looked at. *)
Definition _get_event_timestamps (self : AxographRawIO)
    (block_index seg_index event_channel_index : Z) (t_start t_stop : option value)
    : result (list value * option (list value) * list str) :=
  let? timestamps := py_getitem (_raw_event_epoch_timestamps self) event_channel_index in
  let? durations := py_getitem (_raw_event_epoch_durations self) event_channel_index in
  let? labels := py_getitem (_event_epoch_labels self) event_channel_index in
  Ok (timestamps, durations, labels).

(** ** Notions used in the statements *)

(** The file after [n] more bytes have been consumed. *)
Definition advance (f : StructFile) (n : nat) : StructFile :=
  mkStructFile (byte_order f) (raw f) (position f + n).

(** The read position is not beyond the end of the file. *)
Definition inside (f : StructFile) : Prop := (position f <= length (raw f))%nat.

(** A computation that leaves the content and the byte order of the file
    alone, and its position inside the file. *)
Definition preserves {A} (m : M A) : Prop :=
  forall f a f', m f = Ok (a, f') ->
    raw f' = raw f /\ byte_order f' = byte_order f /\ (inside f -> inside f').

(** How the time axis of a file is read, by format version: the array of
    version 1, the series of version 2, the series of type 9 later on. *)
Definition time_axis_read (long : nat) (format_ver n_points : Z) (col_type : option Z)
    (f : StructFile) (axis : value * value) (f' : StructFile) : Prop :=
  (format_ver = 1 /\ read_time_array long n_points f = Ok (axis, f'))
  \/ (format_ver = 2 /\ read_series "ff" f = Ok (axis, f'))
  \/ (3 <= format_ver /\ col_type = Some 9 /\ read_series "dd" f = Ok (axis, f')).

(** The first value and the increment of the time axis, as the bytes
    [ahead] that follow the header of column 0 give them, in a big-endian
    file.  Version 1: a mapped array of [n_points] binary32 numbers, whose
    first element is the first value and the median of whose differences
    is the increment, both [float32].  Version 2: two binary32 numbers,
    read as Python [float]s.  From version 3 on, for a column of type 9:
    two binary64 numbers. *)
Definition time_axis_values (format_ver n_points : Z) (col_type : option Z)
    (fh : StructFile) (first_value increment : value) : Prop :=
  let ahead := remaining fh in
  (format_ver = 1
   /\ exists first rest,
        float32_elements (raw fh)
          (mk_memmap (BigEndian, Nf) (position fh) (Z.to_nat n_points)) = first :: rest
        /\ first_value = NpFloat32 first
        /\ increment = NpFloat32 (np_median (np_diff (first :: rest))))
  \/ (format_ver = 2
      /\ first_value
         = PyFloat (widen (decode_binary32 (uint_of BigEndian (firstn 4 ahead))))
      /\ increment
         = PyFloat (widen (decode_binary32 (uint_of BigEndian (firstn 4 (skipn 4 ahead))))))
  \/ (3 <= format_ver /\ col_type = Some 9
      /\ first_value = PyFloat (decode_binary64 (uint_of BigEndian (firstn 8 ahead)))
      /\ increment
         = PyFloat (decode_binary64 (uint_of BigEndian (firstn 8 (skipn 8 ahead))))).

(** The time axis is bound, with a sampling period that has an inverse. *)
Definition time_bound (st : columns) : Prop :=
  exists period rate,
    sampling_period st = Some period /\ py_truediv (PyInt 1) period = Ok rate.

(** The runs of [k] elements of [l] that begin at [starts]. *)
Definition chunks {A} (k : nat) (starts : list nat) (l : list A) : list (list A) :=
  map (fun first_index => firstn k (skipn first_index l)) starts.

(** The number of traces that belong to a group. *)
Fixpoint traces_of_group (group_id : Z) (traces : dict Z pydict) : nat :=
  match traces with
  | [] => 0%nat
  | (_, trace_header) :: rest =>
      let here :=
        match get_int "group_id_for_this_trace" trace_header with
        | Ok g => if g =? group_id then 1%nat else 0%nat
        | Raise _ => 0%nat
        end in
      (here + traces_of_group group_id rest)%nat
  end.

(** A trace header in which the group and the column of the trace are
    integers, as they are in every header read from a file. *)
Definition trace_ok (trace_header : pydict) : Prop :=
  (exists g, get_int "group_id_for_this_trace" trace_header = Ok g)
  /\ (exists y, get_int "y_index" trace_header = Ok y).

(** A format of plain [struct] codes: no ['S'], no ['Z'] and no comma. *)
Definition plain_format (fmt : string) : bool :=
  forallb (fun a => negb (Ascii.eqb a "S" || Ascii.eqb a "Z" || Ascii.eqb a ","))
    (list_ascii_of_string fmt).

(** What [read_f] makes of the values it has read, [data[0]] when there is
    exactly one and the tuple otherwise; and the values of such a result. *)
Definition collapse (data : list value) : pyobj :=
  match data with
  | [v] => Scalar v
  | _ => Tuple data
  end.

Definition items (o : pyobj) : list value :=
  match o with
  | Scalar v => [v]
  | Tuple vs => vs
  end.

(** The read that [read_f] performs for ['S'] and for ['Z']. *)
Definition read_special (c : ascii) : M value :=
  if Ascii.eqb c "S" then (s <- read_string ;; ret (PyStr s))
  else (b <- read_bool ;; ret (PyBool b)).

(** Text without white space, and the parentheses that enclose units. *)
Definition no_space (s : str) : bool := forallb (fun c => negb (py_isspace c)) s.

Definition is_paren (c : N) : bool := (c =? lparen)%N || (c =? rparen)%N.

(** A title as AxoGraph writes it: the words of the name, one space apart,
    then the units in parentheses. *)
Definition title_of (words : list str) (units : str) : str :=
  py_join (str_of " ") (words ++ [lparen :: units ++ [rparen]]).

(** The two identifiers, as bytes. *)
Definition bytes_eqb (a b : list byte) : bool :=
  if list_eq_dec Byte.byte_eq_dec a b then true else false.

Definition magic_legacy : list byte := list_byte_of_string "AxGr".
Definition magic_modern : list byte := list_byte_of_string "axgx".

(** The errors of the branches that guard against an identifier or a
    format version outside the known ones. *)
Definition guarded_against (e : exn) : bool :=
  match e with
  | NotImplementedError unimplemented_header_id
  | NotImplementedError (unimplemented_format_version _) => true
  | _ => false
  end.

(** A computation, and a result, that is none of these errors. *)
Definition avoids {A} (m : M A) : Prop :=
  forall f e, m f = Raise e -> guarded_against e = false.

Definition ravoids {A} (r : result A) : Prop :=
  forall e, r = Raise e -> guarded_against e = false.

(** The versions the preamble lets through. *)
Definition known_version (format_ver : Z) : Prop :=
  format_ver = 1 \/ format_ver = 2 \/ 3 <= format_ver.

(** A computation that never moves the read position backwards. *)
Definition forward {A} (m : M A) : Prop :=
  forall f a f', m f = Ok (a, f') -> (position f <= position f')%nat.

(** The arrays lie one after the other, without overlap, between the
    offsets [from] and [upto] of the file. *)
Fixpoint in_file_order (long from : nat) (arrays : list memmap) (upto : nat) : Prop :=
  match arrays with
  | [] => (from <= upto)%nat
  | a :: rest =>
      (from <= mm_offset a)%nat
      /\ in_file_order long (mm_offset a + nbytes long a) rest upto
  end.

(** What every row of the signal-channel table has in common: the group
    id 0, the byte order of the file, and the inverse of the sampling
    period as its rate. *)
Definition common_row (period : value) (ch : channel_info) : Prop :=
  ch_group_id ch = 0
  /\ fst (ch_dtype ch) = BigEndian
  /\ py_truediv (PyInt 1) period = Ok (ch_sampling_rate ch).

(** What the loop over the columns keeps true of the arrays and the rows
    read so far. *)
Definition columns_laid_out (long from : nat) (st : columns) (f : StructFile) : Prop :=
  in_file_order long from (sigs_memmap st) (position f)
  /\ map mm_dtype (sigs_memmap st) = map ch_dtype (sig_channels st)
  /\ forall period, sampling_period st = Some period ->
       Forall (common_row period) (sig_channels st).

(** The group of a trace, as recorded in its header. *)
Definition group_of (entry : Z * pydict) (g : Z) : Prop :=
  get_int "group_id_for_this_trace" (snd entry) = Ok g.

(** The settings of a font once decoded: the switch for bold is one of the
    two known constants, and the four flags are read off the two setting
    bytes. *)
Definition font_ok (info : pydict) : Prop :=
  exists setting1 setting2,
    get_int "setting1" info = Ok setting1
    /\ (setting1 = FONT_BOLD \/ setting1 = FONT_NOT_BOLD)
    /\ get_int "setting2" info = Ok setting2
    /\ dict_get String.eqb "bold" info = Ok (Scalar (PyBool (setting1 =? FONT_BOLD)))
    /\ dict_get String.eqb "italics" info
       = Ok (Scalar (PyBool (negb (Z.land setting2 FONT_ITALICS =? 0))))
    /\ dict_get String.eqb "underline" info
       = Ok (Scalar (PyBool (negb (Z.land setting2 FONT_UNDERLINE =? 0))))
    /\ dict_get String.eqb "strikeout" info
       = Ok (Scalar (PyBool (negb (Z.land setting2 FONT_STRIKEOUT =? 0)))).

(** The categories of fonts a file of a given version describes. *)
Definition font_categories (format_ver : Z) : list string :=
  if 6 <=? format_ver
  then ["axis titles"; "axis labels (ticks)"; "notes"; "graph title"]
  else ["everything (?)"].



(** Texts whose characters are all ASCII. *)
Definition ascii_only (s : string) : bool :=
  forallb (fun a => (N_of_ascii a <? 128)%N) (list_ascii_of_string s).

(** ** Sample files

    Files written out byte by byte, on which the decoder is run. *)

Definition byte_of (n : Z) : byte :=
  match Byte.of_N (Z.to_N (n mod 256)) with
  | Some b => b
  | None => x00
  end.

(** [z] in [width] bytes, most significant first. *)
Definition be (width : nat) (z : Z) : list byte :=
  map (fun k => byte_of (z / 256 ^ Z.of_nat (width - 1 - k))) (seq 0 width).

Definition zeros (n : nat) : list byte := repeat x00 n.

(** An 80-byte Pascal string. *)
Definition pascal80 (s : string) : list byte :=
  byte_of (Z.of_nat (String.length s)) :: list_byte_of_string s
  ++ zeros (79 - String.length s).

(** A length-prefixed UTF-16 string of ASCII characters. *)
Definition text (s : string) : list byte :=
  be 4 (2 * Z.of_nat (String.length s))
  ++ flat_map (fun b => [x00; b]) (list_byte_of_string s).

(** 0.001 as a binary32 and as a binary64 number, 2.5 as a binary32. *)
Definition millisecond32 : Z := 0x3a83126f.
Definition millisecond64 : Z := 0x3f50624dd2f1a9fc.
Definition two_and_a_half32 : Z := 0x40200000.

(** Version 2: a time series and one column of three scaled shorts. *)
Definition legacy_file : list byte :=
  list_byte_of_string "AxGr" ++ be 2 2 ++ be 2 2
  ++ be 4 3 ++ pascal80 "Time (s)" ++ be 4 0 ++ be 4 millisecond32
  ++ be 4 3 ++ pascal80 "Current (pA)" ++ be 4 two_and_a_half32
  ++ be 2 1 ++ be 2 (-2) ++ be 2 40.

(** Version 1 with a time column of no points. *)
Definition legacy_file_without_times : list byte :=
  list_byte_of_string "AxGr" ++ be 2 1 ++ be 2 1
  ++ be 4 0 ++ pascal80 "Time (s)".

Definition series_column (n_points first_value increment : Z) : list byte :=
  be 4 n_points ++ be 4 9 ++ text "Time (s)" ++ be 8 first_value ++ be 8 increment.

Definition typed_column (col_type : Z) (title : string) (samples : list Z) : list byte :=
  be 4 (Z.of_nat (length samples)) ++ be 4 col_type ++ text title
  ++ flat_map (be 2) samples.

(** A column of type 10: shorts with a gain and an offset (binary64). *)
Definition scaled_column (title : string) (gain offset : Z) (samples : list Z)
    : list byte :=
  be 4 (Z.of_nat (length samples)) ++ be 4 10 ++ text title
  ++ be 8 gain ++ be 8 offset ++ flat_map (be 2) samples.

(** A version-1 trace header: its column and its group, the rest zero. *)
Definition trace_header (y_index group_id : Z) : list byte :=
  be 4 0 ++ be 4 y_index ++ be 4 0 ++ be 4 group_id ++ zeros 140.

Definition episode_flags (n : Z) : list byte :=
  be 4 n ++ flat_map (fun _ => be 4 1) (seq 0 (Z.to_nat n)).

(** A file of version 3 to 5 with the given columns, traces (column and
    group of each), number of groups and number of episodes; no event, no
    epoch, every undeciphered field zero. *)
Definition modern_file (format_ver : Z) (columns : list (list byte))
    (traces : list (Z * Z)) (groups episodes : Z) : list byte :=
  list_byte_of_string "axgx" ++ be 4 format_ver ++ be 4 (Z.of_nat (length columns))
  ++ concat columns
  ++ text "" ++ text ""
  ++ be 4 (Z.of_nat (length traces)) ++ flat_map (fun '(y, g) => trace_header y g) traces
  ++ be 4 groups ++ zeros (20 * Z.to_nat groups)
  ++ zeros 36
  ++ episode_flags episodes
  ++ (if format_ver =? 5 then episode_flags 0 else [])
  ++ episode_flags 0 ++ episode_flags 0
  ++ zeros 68
  ++ (text "" ++ be 2 120 ++ zeros 5 ++ [byte_of FONT_NOT_BOLD; x00])
  ++ zeros 84
  ++ zeros 108
  ++ zeros 12
  ++ zeros 28
  ++ be 4 0.

(** Two episodes of one channel. *)
Definition episodic_file : list byte :=
  modern_file 3
    [ series_column 2 0 millisecond64;
      typed_column 4 "I (pA)" [1; 2];
      typed_column 4 "I (pA)" [3; 4] ]
    [ (1, 0); (2, 0) ] 1 2.

(** Two groups, of one and of two traces. *)
Definition uneven_groups_file : list byte :=
  modern_file 3
    [ series_column 2 0 millisecond64;
      typed_column 4 "I (pA)" [1; 2];
      typed_column 4 "V (mV)" [3; 4];
      typed_column 4 "V (mV)" [5; 6] ]
    [ (1, 0); (2, 1); (3, 1) ] 2 1.

(** Two episodes of two channels, the columns ordered by channel (both
    episodes of the first channel, then both episodes of the second). *)
Definition channel_major_file : list byte :=
  modern_file 3
    [ series_column 2 0 millisecond64;
      typed_column 4 "I (pA)" [1; 2];
      typed_column 4 "I (pA)" [3; 4];
      typed_column 4 "V (mV)" [5; 6];
      typed_column 4 "V (mV)" [7; 8] ]
    [ (1, 0); (2, 0); (3, 1); (4, 1) ] 2 2.

(** Three episodes of two channels, the columns ordered by episode. *)
Definition three_episodes_file : list byte :=
  modern_file 3
    [ series_column 2 0 millisecond64;
      typed_column 4 "I (pA)" [1; 2]; typed_column 4 "V (mV)" [3; 4];
      typed_column 4 "I (pA)" [5; 6]; typed_column 4 "V (mV)" [7; 8];
      typed_column 4 "I (pA)" [9; 10]; typed_column 4 "V (mV)" [11; 12] ]
    [ (1, 0); (2, 1); (3, 0); (4, 1); (5, 0); (6, 1) ] 2 3.

(** Version 4: a series of 1 ms and a column of shorts scaled by 2.5,
    offset by -100. *)
Definition scaled_file : list byte :=
  modern_file 4
    [ series_column 1 0 millisecond64;
      scaled_column "I (pA)" 0x4004000000000000 0xC059000000000000 [40] ]
    [ (1, 0) ] 1 1.

(** A column of type 99. *)
Definition unknown_type_file : list byte :=
  modern_file 3
    [ series_column 2 0 millisecond64; typed_column 99 "I (pA)" [] ]
    [ (1, 0) ] 1 1.

(** A column of samples without points. *)
Definition empty_column_file : list byte :=
  modern_file 3
    [ series_column 0 0 millisecond64; typed_column 4 "I (pA)" [] ]
    [ (1, 0) ] 1 1.

(** The decoder and the file once the first column of [file] has been
    read. *)
Definition after_time_column (file : list byte) : columns * StructFile :=
  let start := mkStructFile BigEndian file 0 in
  match read_preamble start with
  | Ok ((_, ver, _), f0) =>
      match read_column 8 ver 0 no_columns f0 with
      | Ok after => after
      | Raise _ => (no_columns, f0)
      end
  | Raise _ => (no_columns, start)
  end.

(** Version 1: three times, 1 ms apart, and one column of three floats. *)
Definition float_file : list byte :=
  list_byte_of_string "AxGr" ++ be 2 1 ++ be 2 2
  ++ be 4 3 ++ pascal80 "Time (s)"
  ++ be 4 0 ++ be 4 millisecond32 ++ be 4 0x3b03126f
  ++ be 4 3 ++ pascal80 "Current (pA)" ++ be 4 0 ++ be 4 0 ++ be 4 0.

(** What is looked at in a decoded file: the segments, the id, gain and
    offset of each row, the sampling rates, and where the arrays of each
    segment begin. *)
Definition summary (r : result AxographRawIO)
    : result (list Z * list (Z * value * value) * list value * list (list nat)) :=
  let? self := r in
  Ok (nb_segment (header self),
      map (fun ch => (ch_id ch, ch_gain ch, ch_offset ch)) (signal_channels (header self)),
      map ch_sampling_rate (signal_channels (header self)),
      map (map mm_offset) (_raw_signals self)).

(** A decoder with a start time of 5 s and a sampling period of 1 ms. *)
Definition sample_decoder : AxographRawIO :=
  mk_AxographRawIO false (mk_header 1 [1] [] [] [])
    (PyFloat (decode_binary64 millisecond64)) (PyFloat (b64_of_Z 5))
    [[]] [[]; []] [None; Some []] [[]; []]
    (mk_info (str_of "axgx") 3 (PyFloat (b64_of_Z 5))
       (PyFloat (decode_binary64 millisecond64)) None).

(** A series in the second column. *)
Definition series_twice_file : list byte :=
  modern_file 3
    [ series_column 2 0 millisecond64; series_column 2 0 millisecond64 ]
    [ (1, 0) ] 1 1.

(** A time series whose increment is 0.0. *)
Definition zero_increment_file : list byte :=
  modern_file 3
    [ series_column 2 0 0; typed_column 4 "I (pA)" [1; 2] ]
    [ (1, 0) ] 1 1.

(** A first column of samples. *)
Definition samples_first_file : list byte :=
  modern_file 3 [ typed_column 4 "I (pA)" [1; 2] ] [ (1, 0) ] 1 1.

(** Two episodes of one channel, and a third column that belongs to no
    trace. *)
Definition partial_episodes_file : list byte :=
  modern_file 3
    [ series_column 2 0 millisecond64;
      typed_column 4 "I (pA)" [1; 2];
      typed_column 4 "I (pA)" [3; 4];
      typed_column 4 "I (pA)" [5; 6] ]
    [ (1, 0); (2, 0) ] 1 2.

(** One trace in one group, and two episodes declared. *)
Definition miscounted_episodes_file : list byte :=
  modern_file 3
    [ series_column 2 0 millisecond64; typed_column 4 "I (pA)" [1; 2] ]
    [ (1, 0) ] 1 2.

(** Version 3 with two events, at the samples 10 and 250, one epoch from
    0.5 s to 1 s, and a bold, italic, underlined font. *)
Definition annotated_file : list byte :=
  list_byte_of_string "axgx" ++ be 4 3 ++ be 4 2
  ++ series_column 2 0 millisecond64 ++ typed_column 4 "I (pA)" [1; 2]
  ++ text "" ++ text ""
  ++ be 4 1 ++ trace_header 1 0
  ++ be 4 1 ++ zeros 20
  ++ zeros 36
  ++ episode_flags 1 ++ episode_flags 0 ++ episode_flags 0
  ++ zeros 68
  ++ (text "" ++ be 2 120 ++ zeros 5 ++ [byte_of FONT_BOLD; byte_of 3])
  ++ zeros 84
  ++ zeros 108
  ++ be 4 2 ++ be 4 2 ++ be 4 10 ++ be 4 250
  ++ be 4 2 ++ text "on" ++ text "off"
  ++ zeros 28
  ++ be 4 1 ++ text "stim"
  ++ be 8 0x3FE0000000000000 ++ be 8 0x3FF0000000000000 ++ be 8 0.

(** * Properties *)

(** ** Reasoning about computations *)

Lemma rbind_ok {A B} (r : result A) (k : A -> result B) (b : B) :
  rbind r k = Ok b -> exists a, r = Ok a /\ k a = Ok b.
Proof. destruct r as [a|e]; simpl; intros H; [eauto | discriminate]. Qed.

Lemma bind_ok {A B} (m : M A) (k : A -> M B) f b f' :
  bind m k f = Ok (b, f') -> exists a f1, m f = Ok (a, f1) /\ k a f1 = Ok (b, f').
Proof.
  unfold bind. destruct (m f) as [[a f1]|e]; intros H; [eauto | discriminate].
Qed.

Lemma bind_eq {A B} (m : M A) (k : A -> M B) f a f1 :
  m f = Ok (a, f1) -> bind m k f = k a f1.
Proof. unfold bind. intros ->. reflexivity. Qed.

Lemma bind_raise {A B} (m : M A) (k : A -> M B) f e :
  m f = Raise e -> bind m k f = Raise e.
Proof. unfold bind. intros ->. reflexivity. Qed.

Lemma lift_ok {A} (r : result A) f a f' :
  lift r f = Ok (a, f') -> r = Ok a /\ f' = f.
Proof. unfold lift. destruct r; intros H; inversion H; auto. Qed.

Lemma ret_ok {A} (x : A) f a f' : ret x f = Ok (a, f') -> a = x /\ f' = f.
Proof. unfold ret. intros H; inversion H; auto. Qed.

Lemma py_assert_ok b a u : py_assert b a = Ok u -> b = true.
Proof. destruct b; simpl; [reflexivity | discriminate]. Qed.

(** Take a successful computation apart, one step at a time. *)
Ltac inv_step H :=
  match type of H with
  | bind _ _ _ = Ok _ =>
      let a := fresh "a" in let f := fresh "f" in
      let H1 := fresh "H" in
      apply bind_ok in H; destruct H as (a & f & H1 & H)
  | rbind _ _ = Ok _ =>
      let a := fresh "a" in let H1 := fresh "H" in
      apply rbind_ok in H; destruct H as (a & H1 & H)
  | lift _ _ = Ok _ =>
      let H1 := fresh "H" in
      apply lift_ok in H; destruct H as (H1 & H); subst
  | ret _ _ = Ok _ =>
      let H1 := fresh "H" in
      apply ret_ok in H; destruct H as (H1 & H); subst
  | raise _ _ = Ok _ => discriminate H
  | Raise _ = Ok _ => discriminate H
  | Ok _ = Ok _ => inversion H; clear H; subst
  end.

Ltac inv_run :=
  repeat match goal with
    | H : bind _ _ _ = Ok _ |- _ => inv_step H
    | H : rbind _ _ = Ok _ |- _ => inv_step H
    | H : lift _ _ = Ok _ |- _ => inv_step H
    | H : ret _ _ = Ok _ |- _ => inv_step H
    | H : raise _ _ = Ok _ |- _ => discriminate H
    | H : Raise _ = Ok _ |- _ => discriminate H
    | H : Ok _ = Ok _ |- _ => inv_step H
    | H : (_, _) = (_, _) |- _ => inversion H; clear H; subst
    | H : time_axis _ _ = time_axis _ _ |- _ => inversion H; clear H; subst
    | H : samples _ _ _ = samples _ _ _ |- _ => inversion H; clear H; subst
    | H : time_axis _ _ = samples _ _ _ |- _ => discriminate H
    | H : samples _ _ _ = time_axis _ _ |- _ => discriminate H
    | H : context [match ?x with pair _ _ => _ end] |- _ => is_var x; destruct x
    end.

Lemma remaining_advance f n : remaining (advance f n) = skipn n (remaining f).
Proof.
  unfold remaining, advance; simpl.
  rewrite skipn_skipn. f_equal. lia.
Qed.

Lemma read_and_unpack_l f :
  read_and_unpack "l" f =
  if (4 <=? length (remaining f))%nat
  then Ok ([PyInt (to_signed 32 (uint_of (byte_order f) (firstn 4 (remaining f))))],
           advance f 4)
  else Raise StructError.
Proof.
  unfold read_and_unpack, read, unpack, advance, sint_of.
  destruct (remaining f) as [|b0 [|b1 [|b2 [|b3 t]]]]; reflexivity.
Qed.

(** ** Length-prefixed text *)

(** C8 (as amended).  [read_string] first reads a 4-byte signed length; it
    fails when fewer than four bytes are left.  A length of zero or less
    gives the empty string and only the four bytes are consumed.  For a
    positive length the next bytes, at most that many, are read and decoded
    as UTF-16 in the byte order of the file: exactly [length] bytes when
    that many remain, all the remaining bytes otherwise. *)
Theorem read_string_spec (f : StructFile) :
  let len := to_signed 32 (uint_of (byte_order f) (firstn 4 (remaining f))) in
  let bs := firstn (Z.to_nat len) (skipn 4 (remaining f)) in
  read_string f =
    (if (length (remaining f) <? 4)%nat then Raise StructError
     else if 0 <? len then
       match utf16_decode (byte_order f) bs with
       | Some s => Ok (s, advance f (4 + length bs))
       | None => Raise UnicodeDecodeError
       end
     else Ok ([], advance f 4))
  /\ length bs = Nat.min (Z.to_nat len) (length (remaining f) - 4).
Proof.
  intros len bs. split.
  - unfold read_string, bind. rewrite read_and_unpack_l.
    destruct (Nat.ltb_spec (length (remaining f)) 4) as [Hlt|Hge].
    + destruct (Nat.leb_spec 4 (length (remaining f))); [lia | reflexivity].
    + destruct (Nat.leb_spec 4 (length (remaining f))); [| lia].
      fold len. destruct (0 <? len); [| reflexivity].
      unfold read. rewrite remaining_advance. fold bs.
      unfold lift, decode, utf_16_decoder. simpl.
      destruct (utf16_decode (byte_order f) bs); [| reflexivity].
      unfold advance. simpl. do 2 f_equal. f_equal. lia.
  - unfold bs. rewrite length_firstn, length_skipn. reflexivity.
Qed.

(** The claim of C8 as first stated does not hold at the end of a file: a
    length of 4 followed by two bytes yields the one character those two
    bytes encode, and the position moves by 6, not by 8. *)
Lemma read_string_short_read :
  let f := mkStructFile BigEndian [x00; x00; x00; x04; x00; x41] 0 in
  exists s f',
    read_string f = Ok (s, f')
    /\ to_signed 32 (uint_of (byte_order f) (firstn 4 (remaining f))) = 4
    /\ position f' <> (position f + 4 + 4)%nat.
Proof.
  eexists. eexists. split; [reflexivity |]. split; [reflexivity |].
  simpl. discriminate.
Qed.

(** ** Event and epoch times *)

Lemma np_map_ok (g : value -> result value) (h : spec_float -> value)
    (ts : list value) (xs : list spec_float) :
  (forall t x, to_float64 t = Some x -> g t = Ok (h x)) ->
  map to_float64 ts = map Some xs ->
  np_map g ts = Ok (map h xs).
Proof.
  intros Hg. revert xs.
  induction ts as [|t ts IH]; intros [|x xs] H; simpl in *; try discriminate.
  - reflexivity.
  - inversion H as [[Ht Hts]].
    rewrite (Hg _ _ Ht). simpl. rewrite (IH _ Hts). reflexivity.
Qed.

(** The cast to [float32] of an integer beyond [2^53] is rounded once:
    [2^60 + 2^36 + 1] lies above the midpoint of two binary32 numbers and
    goes up to [2^60 + 2^37] (through binary64 it would fall on the
    midpoint first and then go down to [2^60]). *)
Example astype_rounds_once :
  astype float32 (PyInt (2 ^ 60 + 2 ^ 36 + 1)) = Ok (NpFloat32 (b32_of_Z (2 ^ 60 + 2 ^ 37)))
  /\ b32_of_b64 (b64_of_Z (2 ^ 60 + 2 ^ 36 + 1)) = b32_of_Z (2 ^ 60).
Proof. split; vm_compute; reflexivity. Qed.

Lemma np_map_map {A} (g : value -> result value) (h : A -> value) (k : A -> value)
    (xs : list A) :
  (forall x, g (k x) = Ok (h x)) ->
  np_map g (map k xs) = Ok (map h xs).
Proof.
  intros Hg. induction xs as [|x xs IH]; simpl; [reflexivity |].
  rewrite Hg. simpl. rewrite IH. reflexivity.
Qed.

(** C6.  Raw event or epoch times and raw epoch durations rescale to the
    products of their elements with the sampling period, and to nothing
    else.  In [float64] every element is cast to binary64 and multiplied
    there.  In [float32] the elements of an array of integers ([zs]) and
    those of an array of floats ([ds]) are cast to binary32, each with one
    rounding, and multiplied there by the period rounded to binary32.  The
    result is determined by the sampling period alone, whatever the start
    time of the file. *)
Theorem rescale_is_multiplication (self : AxographRawIO) (ts : list value)
    (xs : list spec_float) (zs : list Z) (ds : list spec_float) (p : spec_float) :
  to_float64 (_sampling_period self) = Some p ->
  map to_float64 ts = map Some xs ->
  Forall (fun z => - 2 ^ 63 <= z < 2 ^ 63) zs ->
  _rescale_event_timestamp self ts float64
    = Ok (map (fun x => PyFloat (SFmul 53 1024 x p)) xs)
  /\ _rescale_epoch_duration self ts float64
    = Ok (map (fun x => PyFloat (SFmul 53 1024 x p)) xs)
  /\ _rescale_event_timestamp self (map PyInt zs) float32
    = Ok (map (fun z => NpFloat32 (SFmul 24 128 (b32_of_Z z) (b32_of_b64 p))) zs)
  /\ _rescale_epoch_duration self (map PyInt zs) float32
    = Ok (map (fun z => NpFloat32 (SFmul 24 128 (b32_of_Z z) (b32_of_b64 p))) zs)
  /\ _rescale_event_timestamp self (map PyFloat ds) float32
    = Ok (map (fun d => NpFloat32 (SFmul 24 128 (b32_of_b64 d) (b32_of_b64 p))) ds)
  /\ _rescale_epoch_duration self (map PyFloat ds) float32
    = Ok (map (fun d => NpFloat32 (SFmul 24 128 (b32_of_b64 d) (b32_of_b64 p))) ds)
  /\ (forall other dtype array,
        _sampling_period other = _sampling_period self ->
        _rescale_event_timestamp other array dtype
        = _rescale_event_timestamp self array dtype
        /\ _rescale_epoch_duration other array dtype
           = _rescale_epoch_duration self array dtype).
Proof.
  intros Hp Hts _.
  unfold _rescale_event_timestamp, _rescale_epoch_duration.
  repeat split.
  1-2: apply np_map_ok; [| assumption];
       intros t x Ht; unfold astype, np_mul; rewrite Ht; simpl; rewrite Hp; reflexivity.
  1-4: apply np_map_map; intros x; unfold astype, np_mul; simpl; rewrite Hp; reflexivity.
  all: intros; match goal with H : _sampling_period _ = _ |- _ => rewrite H end; reflexivity.
Qed.

(** ** The read position stays inside the file *)

Lemma preserves_ret {A} (x : A) : preserves (ret x).
Proof. intros f a f' H. inv_step H. auto. Qed.

Lemma preserves_raise {A} e : preserves (@raise A e).
Proof. intros f a f' H. discriminate. Qed.

Lemma preserves_lift {A} (r : result A) : preserves (lift r).
Proof. intros f a f' H. inv_step H. auto. Qed.

Lemma preserves_bind {A B} (m : M A) (k : A -> M B) :
  preserves m -> (forall a, preserves (k a)) -> preserves (bind m k).
Proof.
  intros Hm Hk f b f' H. inv_step H.
  destruct (Hm _ _ _ H0) as (R1 & O1 & I1).
  destruct (Hk _ _ _ _ H) as (R2 & O2 & I2).
  repeat split; [congruence | congruence | auto].
Qed.

Lemma preserves_read n : preserves (read n).
Proof.
  intros f a f' H. unfold read in H. inv_step H. simpl.
  repeat split. unfold inside, remaining; simpl. intros Hin.
  rewrite length_firstn, length_skipn. lia.
Qed.

Lemma preserves_read_all : preserves read_all.
Proof.
  intros f a f' H. unfold read_all in H. inv_step H. simpl.
  repeat split. unfold inside, remaining; simpl. intros Hin.
  rewrite length_skipn. lia.
Qed.

Lemma preserves_read_and_unpack fmt : preserves (read_and_unpack fmt).
Proof.
  intros f a f' H. unfold read_and_unpack in H.
  inv_step H. inv_step H.
  destruct a1 as [buffer f1]. inv_step H. inv_step H.
  eapply preserves_read; eassumption.
Qed.

Create HintDb pres.
#[local] Hint Resolve preserves_ret preserves_raise preserves_lift preserves_read
  preserves_read_all preserves_read_and_unpack : pres.

(** Split a computation along its binds and case distinctions. *)
Ltac pres :=
  repeat first
    [ solve [auto with pres]
    | apply preserves_bind; [| intros ?]
    | match goal with
      | |- preserves (match ?x with _ => _ end) => destruct x
      | |- preserves (let '(_, _) := ?x in _) => destruct x
      end ].

Lemma preserves_decode_here (codec : StructFile -> list byte -> option str) bs :
  preserves (fun f => lift (decode (codec f) bs) f).
Proof. intros f a f' H. inv_step H. auto. Qed.

Lemma preserves_read_string : preserves read_string.
Proof.
  unfold read_string. pres. apply (preserves_decode_here utf_16_decoder).
Qed.

Lemma preserves_read_bool : preserves read_bool.
Proof. unfold read_bool. pres. Qed.

#[local] Hint Resolve preserves_read_string preserves_read_bool : pres.

Lemma preserves_read_subfmts fmts : forall data, preserves (read_subfmts fmts data).
Proof. induction fmts as [|subfmt rest IH]; intros data; simpl; pres. Qed.

#[local] Hint Resolve preserves_read_subfmts : pres.

Lemma preserves_read_f fmt : preserves (read_f fmt).
Proof. unfold read_f, read_f_at. pres. Qed.

#[local] Hint Resolve preserves_read_f : pres.

Lemma preserves_read_int fmt : preserves (read_int fmt).
Proof. unfold read_int. pres. Qed.

Lemma preserves_read_int2 fmt : preserves (read_int2 fmt).
Proof. unfold read_int2. pres. Qed.

Lemma preserves_read_float fmt : preserves (read_float fmt).
Proof. unfold read_float. pres. Qed.

Lemma preserves_read_float2 fmt : preserves (read_float2 fmt).
Proof. unfold read_float2. pres. Qed.

Lemma preserves_read_bytes fmt : preserves (read_bytes fmt).
Proof. unfold read_bytes. pres. Qed.

Lemma preserves_read_str fmt : preserves (read_str fmt).
Proof. unfold read_str. pres. Qed.

#[local] Hint Resolve preserves_read_int preserves_read_int2 preserves_read_float
  preserves_read_float2 preserves_read_bytes preserves_read_str : pres.

Lemma map_array_ok long dtype n_points f a f' :
  map_array long dtype n_points f = Ok (a, f') ->
  (0 <= n_points)
  /\ a = mk_memmap (byte_order f, dtype) (position f) (Z.to_nat n_points)
  /\ f' = advance f (Z.to_nat n_points * itemsize long dtype)
  /\ (position f + Z.to_nat n_points * itemsize long dtype <= length (raw f))%nat.
Proof.
  unfold map_array, tell, seek_cur, np_memmap. simpl.
  destruct (Z.ltb_spec n_points 0); [discriminate |].
  destruct (Nat.leb_spec (position f + Z.to_nat n_points * itemsize long dtype)
              (length (raw f))); [| discriminate].
  simpl. intros H1. inv_step H1. auto.
Qed.

Lemma preserves_map_array long dtype n_points : preserves (map_array long dtype n_points).
Proof.
  intros f a f' H. apply map_array_ok in H. destruct H as (_ & _ & -> & Hle).
  unfold inside, advance. simpl. auto.
Qed.

#[local] Hint Resolve preserves_map_array : pres.

Lemma preserves_read_column_header format_ver : preserves (read_column_header format_ver).
Proof. unfold read_column_header. pres. Qed.

Lemma preserves_peek {A} (g : StructFile -> A) : preserves (fun f => Ok (g f, f)).
Proof. intros f a f' H. inv_step H. auto. Qed.

#[local] Hint Resolve preserves_read_column_header preserves_peek : pres.

Lemma preserves_store_column long i n_points name units dtype gain offset st :
  preserves (store_column long i n_points name units dtype gain offset st).
Proof. unfold store_column. pres. Qed.

Lemma preserves_read_series fmt : preserves (read_series fmt).
Proof. unfold read_series. pres. Qed.

Lemma preserves_read_time_array long n_points : preserves (read_time_array long n_points).
Proof. unfold read_time_array. pres. Qed.

#[local] Hint Resolve preserves_store_column preserves_read_series
  preserves_read_time_array : pres.

Lemma preserves_read_column_kind long format_ver i n_points col_type :
  preserves (read_column_kind long format_ver i n_points col_type).
Proof. unfold read_column_kind. pres. Qed.

#[local] Hint Resolve preserves_read_column_kind : pres.

Lemma preserves_read_column_data long format_ver i n_points col_type name units st :
  preserves (read_column_data long format_ver i n_points col_type name units st).
Proof. unfold read_column_data. pres. Qed.

#[local] Hint Resolve preserves_read_column_data : pres.

Lemma preserves_read_column long format_ver i st :
  preserves (read_column long format_ver i st).
Proof. unfold read_column. pres. Qed.

#[local] Hint Resolve preserves_read_column : pres.

Lemma preserves_read_columns long format_ver indices :
  forall st, preserves (read_columns long format_ver indices st).
Proof. induction indices as [|i rest IH]; intros st; simpl; pres. Qed.

Lemma preserves_read_preamble : preserves read_preamble.
Proof. unfold read_preamble. pres. Qed.

(** ** One column at a time *)

Lemma store_column_ok long i n_points name units dtype gain offset st f st' f' :
  store_column long i n_points name units dtype gain offset st f = Ok (st', f') ->
  exists array period rate,
    map_array long dtype n_points f = Ok (array, f')
    /\ sampling_period st = Some period
    /\ py_truediv (PyInt 1) period = Ok rate
    /\ st' = mk_columns (sigs_memmap st ++ [array])
               (sig_channels st
                ++ [mk_channel_info name i rate (byte_order f, dtype) units gain offset 0])
               (t_start st) (sampling_period st).
Proof.
  unfold store_column. intros H.
  inv_step H. inv_step H. cbv beta in H1. inv_step H1.
  destruct (sampling_period st) as [period|]; [| discriminate].
  inv_run.
  pose proof H0 as Hm. apply map_array_ok in Hm. destruct Hm as (_ & _ & -> & _).
  exists a, period, a0. simpl. auto.
Qed.

Lemma store_column_run long i n_points name units dtype gain offset st f array f'
    period rate :
  map_array long dtype n_points f = Ok (array, f') ->
  sampling_period st = Some period ->
  py_truediv (PyInt 1) period = Ok rate ->
  store_column long i n_points name units dtype gain offset st f
  = Ok (mk_columns (sigs_memmap st ++ [array])
          (sig_channels st
           ++ [mk_channel_info name i rate (byte_order f, dtype) units gain offset 0])
          (t_start st) (sampling_period st), f').
Proof.
  intros Hm Hp Hr. unfold store_column, bind.
  rewrite Hm, Hp. unfold lift. rewrite Hr. unfold ret.
  apply map_array_ok in Hm. destruct Hm as (_ & _ & -> & _). reflexivity.
Qed.

Lemma read_series_ok fmt f first_value increment f' :
  read_series fmt f = Ok ((first_value, increment), f') ->
  exists rate, py_truediv (PyInt 1) increment = Ok rate.
Proof. unfold read_series. intros H. inv_run. eauto. Qed.

Lemma read_time_array_ok long n_points f first_value increment f' :
  read_time_array long n_points f = Ok ((first_value, increment), f') ->
  exists rate, py_truediv (PyInt 1) increment = Ok rate.
Proof.
  unfold read_time_array. intros H. inv_step H. inv_step H.
  destruct (float32_elements a0 a) as [|x xs]; [discriminate |].
  inv_run. eauto.
Qed.

Lemma is_true col_type k : is_ col_type k = true -> col_type = Some k.
Proof.
  destruct col_type as [t|]; simpl; [| discriminate].
  intros H. apply Z.eqb_eq in H. congruence.
Qed.

(** The time axis comes from column 0, read as the version says, and its
    increment has an inverse (a Python [float] increment is not zero). *)
Lemma read_column_kind_time long format_ver i n_points col_type f first_value increment f' :
  read_column_kind long format_ver i n_points col_type f
  = Ok (time_axis first_value increment, f') ->
  i = 0
  /\ time_axis_read long format_ver n_points col_type f (first_value, increment) f'
  /\ exists rate, py_truediv (PyInt 1) increment = Ok rate.
Proof.
  unfold read_column_kind, time_axis_read. intros H.
  destruct (Z.eqb_spec format_ver 1) as [->|N1].
  { destruct (Z.eqb_spec i 0) as [->|]; [| inv_run].
    inv_step H. destruct a as [x y]. inv_run.
    pose proof H0 as Hr; apply read_time_array_ok in Hr.
    split; [reflexivity | split; [left; auto | exact Hr]]. }
  destruct (Z.eqb_spec format_ver 2) as [->|N2].
  { destruct (Z.eqb_spec i 0) as [->|]; [| inv_run].
    inv_step H. destruct a as [x y]. inv_run.
    pose proof H0 as Hr; apply read_series_ok in Hr.
    split; [reflexivity | split; [right; left; auto | exact Hr]]. }
  destruct (Z.leb_spec 3 format_ver) as [G3|]; [| discriminate].
  destruct (is_ col_type 9) eqn:E9.
  { inv_step H. destruct a as [x y].
    destruct (Z.eqb_spec i 0) as [->|]; [| discriminate].
    inv_run.
    pose proof H0 as Hr; apply read_series_ok in Hr. apply is_true in E9.
    split; [reflexivity | split; [right; right; auto | exact Hr]]. }
  destruct (is_ col_type 4); [inv_run |].
  destruct (is_ col_type 5); [inv_run |].
  destruct (is_ col_type 6); [inv_run |].
  destruct (is_ col_type 7); [inv_run |].
  destruct (is_ col_type 10); [| discriminate].
  inv_run.
Qed.

(** Column 0 of versions 1 and 2 is never a column of samples. *)
Lemma read_column_kind_samples long format_ver i n_points col_type f dtype gain offset f' :
  read_column_kind long format_ver i n_points col_type f
  = Ok (samples dtype gain offset, f') ->
  i <> 0 \/ 3 <= format_ver.
Proof.
  unfold read_column_kind. intros H.
  destruct (Z.eqb_spec i 0) as [->|]; [| left; assumption].
  simpl in H.
  destruct (format_ver =? 1); [inv_run |].
  destruct (format_ver =? 2); [inv_run |].
  destruct (Z.leb_spec 3 format_ver); [right; assumption | discriminate].
Qed.

Lemma read_column_data_ok long format_ver i n_points col_type name units st f st' f' :
  read_column_data long format_ver i n_points col_type name units st f = Ok (st', f') ->
  (exists first_value increment,
      read_column_kind long format_ver i n_points col_type f
      = Ok (time_axis first_value increment, f')
      /\ st' = set_time st first_value increment)
  \/ (exists dtype gain offset fk,
        read_column_kind long format_ver i n_points col_type f
        = Ok (samples dtype gain offset, fk)
        /\ store_column long i n_points name units dtype gain offset st fk = Ok (st', f')).
Proof.
  unfold read_column_data. intros H. inv_step H.
  destruct a as [first_value increment|dtype gain offset].
  - inv_step H. left. eauto.
  - right. eauto 8.
Qed.

(** With the sampling period still unbound, the only column that can be read
    is the time column: it binds the start time and the period, and appends
    nothing. *)
Lemma read_column_data_time long format_ver i n_points col_type name units st f st' f' :
  sampling_period st = None ->
  read_column_data long format_ver i n_points col_type name units st f = Ok (st', f') ->
  i = 0 /\
  exists first_value increment rate,
    time_axis_read long format_ver n_points col_type f (first_value, increment) f'
    /\ py_truediv (PyInt 1) increment = Ok rate
    /\ st' = set_time st first_value increment.
Proof.
  intros Hnone H. apply read_column_data_ok in H.
  destruct H as [(first_value & increment & Hk & ->)|(dtype & gain & offset & fk & _ & Hs)].
  - apply read_column_kind_time in Hk. destruct Hk as (-> & Ht & rate & Hr).
    split; [reflexivity |]. exists first_value, increment, rate. auto.
  - apply store_column_ok in Hs. destruct Hs as (? & ? & ? & _ & Hp & _). congruence.
Qed.

(** Any column but the first appends one array and one channel row, whose
    id is the index of the column, and leaves the time axis as it is. *)
Lemma read_column_data_signal long format_ver i n_points col_type name units st f st' f' :
  i <> 0 ->
  read_column_data long format_ver i n_points col_type name units st f = Ok (st', f') ->
  exists array ch,
    sigs_memmap st' = sigs_memmap st ++ [array]
    /\ sig_channels st' = sig_channels st ++ [ch]
    /\ mm_shape array = Z.to_nat n_points
    /\ ch_id ch = i
    /\ t_start st' = t_start st
    /\ sampling_period st' = sampling_period st.
Proof.
  intros Hi H. apply read_column_data_ok in H.
  destruct H as [(first_value & increment & Hk & ->)|(dtype & gain & offset & fk & _ & Hs)].
  - apply read_column_kind_time in Hk. destruct Hk as (-> & _). contradiction.
  - apply store_column_ok in Hs.
    destruct Hs as (array & period & rate & Hm & Hp & Hr & ->).
    apply map_array_ok in Hm. destruct Hm as (_ & -> & _).
    do 2 eexists. simpl. repeat split.
Qed.

Lemma read_column_ok long format_ver i st f st' f' :
  read_column long format_ver i st f = Ok (st', f') ->
  exists n_points col_type title fh,
    read_column_header format_ver f = Ok ((n_points, col_type, title), fh)
    /\ read_column_data long format_ver i n_points col_type
         (fst (name_and_units title)) (snd (name_and_units title)) st fh = Ok (st', f').
Proof.
  unfold read_column. intros H. inv_step H. destruct a as [[n_points col_type] title].
  destruct (name_and_units title) as [name units] eqn:E.
  exists n_points, col_type, title, f0. rewrite E. split; assumption.
Qed.

Lemma read_column_first long format_ver i st f st' f' :
  sampling_period st = None ->
  read_column long format_ver i st f = Ok (st', f') ->
  i = 0 /\
  exists n_points col_type title fh first_value increment rate,
    read_column_header format_ver f = Ok ((n_points, col_type, title), fh)
    /\ time_axis_read long format_ver n_points col_type fh (first_value, increment) f'
    /\ py_truediv (PyInt 1) increment = Ok rate
    /\ st' = set_time st first_value increment.
Proof.
  intros Hnone H. apply read_column_ok in H.
  destruct H as (n_points & col_type & title & fh & Hh & Hd).
  apply read_column_data_time in Hd; [| assumption].
  destruct Hd as (-> & first_value & increment & rate & Ht & Hr & ->).
  split; [reflexivity |]. eauto 12.
Qed.

Lemma read_column_signal long format_ver i st f st' f' :
  i <> 0 ->
  read_column long format_ver i st f = Ok (st', f') ->
  exists array ch,
    sigs_memmap st' = sigs_memmap st ++ [array]
    /\ sig_channels st' = sig_channels st ++ [ch]
    /\ ch_id ch = i
    /\ t_start st' = t_start st
    /\ sampling_period st' = sampling_period st.
Proof.
  intros Hi H. apply read_column_ok in H.
  destruct H as (n_points & col_type & title & fh & Hh & Hd).
  apply read_column_data_signal in Hd; [| assumption].
  destruct Hd as (array & ch & H1 & H2 & _ & H3 & H4 & H5). eauto 8.
Qed.

(** ** The loop over the columns *)

Lemma read_columns_app long format_ver done rest st f :
  read_columns long format_ver (done ++ rest) st f =
  match read_columns long format_ver done st f with
  | Ok (st', f') => read_columns long format_ver rest st' f'
  | Raise e => Raise e
  end.
Proof.
  revert st f. induction done as [|i done IH]; intros st f; simpl.
  - reflexivity.
  - unfold bind. destruct (read_column long format_ver i st f) as [[st1 f1]|e].
    + apply IH.
    + reflexivity.
Qed.

(** Columns other than the first: one array and one row each, ids in the
    order of the columns, the time axis untouched. *)
Lemma read_columns_signals long format_ver indices :
  forall st f st' f',
    ~ In 0 indices ->
    read_columns long format_ver indices st f = Ok (st', f') ->
    t_start st' = t_start st
    /\ sampling_period st' = sampling_period st
    /\ map ch_id (sig_channels st') = map ch_id (sig_channels st) ++ indices
    /\ length (sigs_memmap st') = (length (sigs_memmap st) + length indices)%nat
    /\ length (sig_channels st') = (length (sig_channels st) + length indices)%nat.
Proof.
  induction indices as [|i rest IH]; intros st f st' f' Hnot H; simpl in H.
  - inv_run. rewrite app_nil_r. simpl. auto with arith.
  - inv_step H.
    apply read_column_signal in H0; [| intros ->; apply Hnot; left; reflexivity].
    destruct H0 as (array & ch & Hs & Hc & Hid & Ht & Hp).
    apply IH in H; [| intros Hin; apply Hnot; right; assumption].
    destruct H as (Ht' & Hp' & Hids & Hls & Hlc).
    rewrite Ht', Hp', Hids, Hls, Hlc, Hs, Hc, Ht, Hp.
    rewrite map_app, !length_app. simpl. rewrite Hid, <- app_assoc. simpl.
    repeat split; lia.
Qed.

Lemma py_range_nonpos n : n <= 0 -> py_range n = [].
Proof.
  intros H. unfold py_range. destruct n; try reflexivity. lia.
Qed.

Lemma py_range_pos n :
  0 < n -> py_range n = 0 :: map Z.of_nat (seq 1 (Z.to_nat n - 1)).
Proof.
  intros H. unfold py_range.
  destruct (Z.to_nat n) as [|k] eqn:E; [lia |].
  simpl. rewrite Nat.sub_0_r. reflexivity.
Qed.

Lemma zero_not_in_seq k : ~ In 0 (map Z.of_nat (seq 1 k)).
Proof.
  intros H. apply in_map_iff in H. destruct H as (x & Hx & Hin).
  apply in_seq in Hin. lia.
Qed.

(** What a successful run of [read_file] went through. *)
Lemma read_file_ok long force f self f_end :
  read_file long force f = Ok (self, f_end) ->
  exists id ver cols_n f0 cols f1 ann,
    read_preamble f = Ok ((id, ver, cols_n), f0)
    /\ read_columns long ver (py_range cols_n) no_columns f0 = Ok (cols, f1)
    /\ (((ver = 1 \/ ver = 2) /\ read_legacy_end f1 = Ok (ann, f_end))
        \/ (3 <= ver
            /\ read_modern_sections ver cols_n (sampling_period cols) f1 = Ok (ann, f_end)))
    /\ sampling_period cols = Some (_sampling_period self)
    /\ t_start cols = Some (_t_start self)
    /\ force_single_segment self = force
    /\ nb_segment (header self) = [1]
    /\ signal_channels (header self) = sig_channels cols
    /\ _raw_signals self = [sigs_memmap cols]
    /\ format_ver (info self) = ver
    /\ modern (info self) = details ann.
Proof.
  unfold read_file. intros H. inv_run.
  unfold bound in *.
  destruct (sampling_period a) as [period|] eqn:Ep; [| discriminate].
  destruct (t_start a) as [start|] eqn:Et; [| discriminate].
  inv_run. simpl.
  exists s, z0, z, f0, a, f1, a0. rewrite Ep.
  repeat split; try assumption; try reflexivity.
  destruct (Z.eqb_spec z0 1); [left; auto |].
  destruct (Z.eqb_spec z0 2); [left; auto |]. simpl in H2.
  destruct (Z.leb_spec 3 z0); [right; auto | discriminate].
Qed.

Lemma heavy_lifting_ok long force file self :
  _do_the_heavy_lifting long force file = Ok self ->
  exists f_end, read_file long force (mkStructFile BigEndian file 0) = Ok (self, f_end).
Proof.
  unfold _do_the_heavy_lifting. intros H. inv_step H. destruct a as [s f_end].
  inv_step H. eauto.
Qed.

(** ** Reshaping into segments *)

Lemma reshape_first_row_ok {A} (n : Z) (table row : list A) :
  reshape_first_row n table = Ok row ->
  0 < n
  /\ row = firstn (length row) table
  /\ Z.of_nat (length table) = Z.of_nat (length row) * n.
Proof.
  unfold reshape_first_row. intros H.
  destruct (Z.leb_spec n 0); [discriminate |].
  destruct (Z.eqb_spec (Z.of_nat (length table) mod n) 0) as [Hmod|]; [| discriminate].
  inv_step H.
  assert (Hq : Z.of_nat (length table) = n * (Z.of_nat (length table) / n)).
  { apply Z.div_exact; lia. }
  assert (0 <= Z.of_nat (length table) / n) by (apply Z.div_pos; lia).
  assert (Hlen : length (firstn (Z.to_nat (Z.of_nat (length table) / n)) table)
                 = Z.to_nat (Z.of_nat (length table) / n)).
  { rewrite length_firstn. apply Nat.min_l. nia. }
  rewrite Hlen. repeat split; [assumption | nia].
Qed.

Lemma chunks_shift {A} (k : nat) (starts : list nat) (l : list A) :
  chunks k (map (fun s => s + k)%nat starts) l = chunks k starts (skipn k l).
Proof.
  unfold chunks. rewrite map_map. apply map_ext. intros s.
  rewrite skipn_skipn. reflexivity.
Qed.

(** Cutting a list of [n * k] elements every [k] elements gives [n] pieces
    of [k] elements each, which put end to end are the list. *)
Lemma chunks_exact {A} (k : nat) (n : nat) :
  (0 < k)%nat ->
  forall l : list A,
    length l = (n * k)%nat ->
    let pieces := chunks k (map (fun q => q * k)%nat (seq 0 n)) l in
    concat pieces = l
    /\ length pieces = n
    /\ Forall (fun piece => length piece = k) pieces.
Proof.
  intros Hk. induction n as [|n IH]; intros l Hlen; simpl.
  - destruct l; [auto | discriminate].
  - rewrite <- seq_shift, map_map.
    rewrite (map_ext (fun q => (S q * k)%nat) (fun q => (q * k + k)%nat))
      by (intros; lia).
    rewrite <- (map_map (fun q => (q * k)%nat) (fun s => (s + k)%nat)).
    fold (chunks k (map (fun s => (s + k)%nat) (map (fun q => (q * k)%nat) (seq 0 n))) l).
    rewrite chunks_shift.
    destruct (IH (skipn k l)) as (Hc & Hl & Hf).
    { rewrite length_skipn. simpl in Hlen. lia. }
    repeat split.
    + rewrite Hc. apply firstn_skipn.
    + simpl. rewrite Hl. reflexivity.
    + constructor; [| exact Hf].
      rewrite length_firstn. simpl in Hlen. lia.
Qed.

Lemma np_arange_exact (n k : nat) :
  (0 < k)%nat -> np_arange (n * k) k = Ok (map (fun q => q * k)%nat (seq 0 n)).
Proof.
  intros Hk. unfold np_arange. destruct k as [|k']; [lia |].
  do 3 f_equal.
  replace (n * S k' + S k' - 1)%nat with (k' + n * S k')%nat by lia.
  rewrite Nat.div_add by lia. rewrite Nat.div_small by lia. reflexivity.
Qed.

(** What a successful conversion did. *)
Lemma convert_ok (self self' : AxographRawIO) :
  _convert_to_multi_segment self = Ok self' ->
  exists m sigs others,
    modern (info self) = Some m
    /\ _raw_signals self = sigs :: others
    /\ 0 < n_episodes m
    /\ Z.of_nat (length (signal_channels (header self)))
       = Z.of_nat (length (signal_channels (header self'))) * n_episodes m
    /\ (0 < length (signal_channels (header self')))%nat
    /\ signal_channels (header self')
       = firstn (length (signal_channels (header self'))) (signal_channels (header self))
    /\ nb_segment (header self') = [n_episodes m]
    /\ (exists starts,
          np_arange (length sigs) (length (signal_channels (header self'))) = Ok starts
          /\ _raw_signals self'
             = chunks (length (signal_channels (header self'))) starts sigs)
    /\ _t_start self' = _t_start self
    /\ _sampling_period self' = _sampling_period self
    /\ info self' = info self
    /\ force_single_segment self' = force_single_segment self.
Proof.
  unfold _convert_to_multi_segment. intros H.
  destruct (modern (info self)) as [m|]; [| discriminate].
  simpl in H. inv_step H. rename a into table.
  destruct (_raw_signals self) as [|sigs others]; [discriminate |].
  simpl in H. inv_step H. rename a into starts. inv_step H. simpl.
  apply reshape_first_row_ok in H0. destruct H0 as (Hn & Hrow & Hlen).
  exists m, sigs, others. repeat split; try assumption.
  - unfold np_arange in H1. destruct (length table); [discriminate | lia].
  - exists starts. split; [assumption | reflexivity].
Qed.

(** ** [_parse_header] *)

Lemma firstn_seq_le k : forall start len, (k <= len)%nat -> firstn k (seq start len) = seq start k.
Proof.
  induction k as [|k IH]; intros start [|len] Hle; simpl; try reflexivity; try lia.
  f_equal. apply IH. lia.
Qed.

Lemma parse_header_cases long force file self :
  _parse_header long force file = Ok self ->
  exists self0,
    _do_the_heavy_lifting long force file = Ok self0
    /\ force_single_segment self0 = force
    /\ ((self = self0
         /\ (force = true \/ exists line, _safe_to_treat_as_episodic self0 = Ok (false, line)))
        \/ (force = false
            /\ (exists line, _safe_to_treat_as_episodic self0 = Ok (true, line))
            /\ _convert_to_multi_segment self0 = Ok self)).
Proof.
  unfold _parse_header. intros H. inv_step H. rename a into self0.
  exists self0. split; [assumption |].
  pose proof H0 as Hf. apply heavy_lifting_ok in Hf. destruct Hf as [f_end Hf].
  apply read_file_ok in Hf.
  destruct Hf as (id & ver & cols_n & f0 & cols & f1 & ann & _ & _ & _ & _ & _ & Hforce & _).
  split; [assumption |]. rewrite Hforce in H.
  destruct force; simpl in H.
  - inv_step H. left. auto.
  - inv_step H. destruct a as [[|] line].
    + right. eauto.
    + inv_step H. left. eauto.
Qed.

(** What the columns of a successfully read file look like: the first
    column gave the time axis, the others one array and one row each. *)
Lemma columns_of_read_file long ver cols_n f0 cols f1 period :
  read_columns long ver (py_range cols_n) no_columns f0 = Ok (cols, f1) ->
  sampling_period cols = Some period ->
  0 < cols_n
  /\ (exists n_points col_type title fh first_value increment fc rate,
        read_column_header ver f0 = Ok ((n_points, col_type, title), fh)
        /\ time_axis_read long ver n_points col_type fh (first_value, increment) fc
        /\ py_truediv (PyInt 1) increment = Ok rate
        /\ t_start cols = Some first_value
        /\ sampling_period cols = Some increment)
  /\ map ch_id (sig_channels cols) = map Z.of_nat (seq 1 (Z.to_nat cols_n - 1))
  /\ length (sigs_memmap cols) = (Z.to_nat cols_n - 1)%nat
  /\ length (sig_channels cols) = (Z.to_nat cols_n - 1)%nat.
Proof.
  intros H Hp.
  destruct (Z.ltb_spec 0 cols_n) as [Hpos|Hneg].
  2:{ rewrite py_range_nonpos in H by assumption. simpl in H. inv_run.
      simpl in Hp. discriminate. }
  split; [assumption |].
  rewrite py_range_pos in H by assumption. simpl in H. inv_step H.
  apply read_column_first in H0; [| reflexivity].
  destruct H0 as (_ & n_points & col_type & title & fh & first_value & increment & rate
                  & Hh & Ht & Hr & ->).
  apply read_columns_signals in H; [| apply zero_not_in_seq].
  destruct H as (Hts & Hsp & Hids & Hls & Hlc). simpl in *.
  rewrite length_map, length_seq in Hls, Hlc.
  repeat split; try assumption.
  exists n_points, col_type, title, fh, first_value, increment, f, rate.
  repeat split; assumption.
Qed.

Lemma read_and_unpack_ff f :
  read_and_unpack "ff" f =
  if (8 <=? length (remaining f))%nat
  then Ok ([PyFloat (widen (decode_binary32 (uint_of (byte_order f)
                                               (firstn 4 (remaining f)))));
            PyFloat (widen (decode_binary32 (uint_of (byte_order f)
                                               (firstn 4 (skipn 4 (remaining f))))))],
           advance f 8)
  else Raise StructError.
Proof.
  unfold read_and_unpack, read, unpack, advance.
  change (calcsize "ff") with (Ok 8%nat).
  change (parse_fmt None "ff") with (Some [(1%nat, Cf); (1%nat, Cf)]).
  cbv beta iota.
  change (calcsize_items [(1%nat, Cf); (1%nat, Cf)]) with 8%nat.
  unfold rbind. rewrite length_firstn.
  destruct (Nat.leb_spec 8 (length (remaining f))) as [Hle|Hgt].
  - rewrite Nat.min_l by exact Hle. rewrite Nat.eqb_refl.
    unfold decode_items, decode_repeat, decode_scalar.
    change (1 * code_size Cf)%nat with 4%nat. change (code_size Cf) with 4%nat.
    rewrite skipn_firstn_comm, !firstn_firstn.
    change (Nat.min 4 (8 - 4)) with 4%nat. change (Nat.min 4 8) with 4%nat.
    change (Nat.min 4 4) with 4%nat.
    reflexivity.
  - rewrite Nat.min_r by lia.
    destruct (Nat.eqb_spec (length (remaining f)) 8); [lia | reflexivity].
Qed.

Lemma read_and_unpack_dd f :
  read_and_unpack "dd" f =
  if (16 <=? length (remaining f))%nat
  then Ok ([PyFloat (decode_binary64 (uint_of (byte_order f) (firstn 8 (remaining f))));
            PyFloat (decode_binary64 (uint_of (byte_order f)
                                        (firstn 8 (skipn 8 (remaining f)))))],
           advance f 16)
  else Raise StructError.
Proof.
  unfold read_and_unpack, read, unpack, advance.
  change (calcsize "dd") with (Ok 16%nat).
  change (parse_fmt None "dd") with (Some [(1%nat, Cd); (1%nat, Cd)]).
  cbv beta iota.
  change (calcsize_items [(1%nat, Cd); (1%nat, Cd)]) with 16%nat.
  unfold rbind. rewrite length_firstn.
  destruct (Nat.leb_spec 16 (length (remaining f))) as [Hle|Hgt].
  - rewrite Nat.min_l by exact Hle. rewrite Nat.eqb_refl.
    unfold decode_items, decode_repeat, decode_scalar.
    change (1 * code_size Cd)%nat with 8%nat. change (code_size Cd) with 8%nat.
    rewrite skipn_firstn_comm, !firstn_firstn.
    change (Nat.min 8 (16 - 8)) with 8%nat. change (Nat.min 8 16) with 8%nat.
    change (Nat.min 8 8) with 8%nat.
    reflexivity.
  - rewrite Nat.min_r by lia.
    destruct (Nat.eqb_spec (length (remaining f)) 16); [lia | reflexivity].
Qed.

Lemma read_float2_ff f first_value increment f' :
  read_float2 "ff" f = Ok ((first_value, increment), f') ->
  first_value
  = PyFloat (widen (decode_binary32 (uint_of (byte_order f) (firstn 4 (remaining f)))))
  /\ increment
     = PyFloat (widen (decode_binary32
                         (uint_of (byte_order f) (firstn 4 (skipn 4 (remaining f))))))
  /\ f' = advance f 8.
Proof.
  intros H. unfold read_float2, read_f, read_f_at, bind in H.
  cbn -[read_and_unpack] in H. unfold bind in H.
  rewrite read_and_unpack_ff in H.
  destruct (8 <=? length (remaining f))%nat; [| discriminate H].
  cbv beta iota in H. unfold ret in H. cbv beta iota in H.
  remember (widen (decode_binary32 (uint_of (byte_order f) (firstn 4 (remaining f)))))
    as a eqn:Ea.
  remember (widen (decode_binary32
                     (uint_of (byte_order f) (firstn 4 (skipn 4 (remaining f))))))
    as b eqn:Eb.
  clear Ea Eb. injection H as H1 H2 H3. auto.
Qed.

Lemma read_float2_dd f first_value increment f' :
  read_float2 "dd" f = Ok ((first_value, increment), f') ->
  first_value = PyFloat (decode_binary64 (uint_of (byte_order f) (firstn 8 (remaining f))))
  /\ increment
     = PyFloat (decode_binary64 (uint_of (byte_order f) (firstn 8 (skipn 8 (remaining f)))))
  /\ f' = advance f 16.
Proof.
  intros H. unfold read_float2, read_f, read_f_at, bind in H.
  cbn -[read_and_unpack] in H. unfold bind in H.
  rewrite read_and_unpack_dd in H.
  destruct (16 <=? length (remaining f))%nat; [| discriminate H].
  cbv beta iota in H. unfold ret in H. cbv beta iota in H.
  remember (decode_binary64 (uint_of (byte_order f) (firstn 8 (remaining f)))) as a eqn:Ea.
  remember (decode_binary64 (uint_of (byte_order f) (firstn 8 (skipn 8 (remaining f)))))
    as b eqn:Eb.
  clear Ea Eb. injection H as H1 H2 H3. auto.
Qed.

(** What the three readers of the time axis return, in terms of the bytes
    they were given. *)
Lemma time_axis_read_values long format_ver n_points col_type fh first_value increment f' :
  byte_order fh = BigEndian ->
  time_axis_read long format_ver n_points col_type fh (first_value, increment) f' ->
  time_axis_values format_ver n_points col_type fh first_value increment.
Proof.
  intros Ho [(Hv & H)|[(Hv & H)|(Hv & Hc & H)]]; unfold time_axis_values.
  - left. split; [exact Hv |].
    unfold read_time_array, bind in H.
    destruct (map_array long Nf n_points fh) as [[array fa]|e] eqn:Em; [| discriminate H].
    apply map_array_ok in Em. destruct Em as (_ & Ha & Hf & _).
    rewrite Ho in Ha. subst array fa. cbv beta iota in H.
    change (raw (advance fh (Z.to_nat n_points * itemsize long Nf))) with (raw fh) in H.
    destruct (float32_elements (raw fh)
                (mk_memmap (BigEndian, Nf) (position fh) (Z.to_nat n_points)))
      as [|first rest]; [discriminate H |].
    unfold lift in H.
    destruct (py_truediv (PyInt 1) (NpFloat32 (np_median (np_diff (first :: rest)))));
      [| discriminate H].
    unfold ret in H.
    remember (np_median (np_diff (first :: rest))) as med eqn:Emed.
    injection H as H1 H2 H3. exists first, rest. subst med. auto.
  - right. left. split; [exact Hv |].
    unfold read_series in H. unfold bind at 1 in H.
    destruct (read_float2 "ff" fh) as [[[x y] f0]|e] eqn:E; [| discriminate H].
    apply read_float2_ff in E. destruct E as (Hx & Hy & _).
    rewrite Ho in Hx, Hy.
    remember (widen (decode_binary32 (uint_of BigEndian (firstn 4 (remaining fh)))))
      as a eqn:Ea.
    remember (widen (decode_binary32
                       (uint_of BigEndian (firstn 4 (skipn 4 (remaining fh))))))
      as b eqn:Eb.
    clear Ea Eb. subst x y. cbv beta iota in H. unfold bind, lift in H.
    destruct (py_truediv (PyInt 1) (PyFloat b)); [| discriminate H].
    unfold ret in H. injection H as H1 H2 H3. auto.
  - right. right. split; [exact Hv |]. split; [exact Hc |].
    unfold read_series in H. unfold bind at 1 in H.
    destruct (read_float2 "dd" fh) as [[[x y] f0]|e] eqn:E; [| discriminate H].
    apply read_float2_dd in E. destruct E as (Hx & Hy & _).
    rewrite Ho in Hx, Hy.
    remember (decode_binary64 (uint_of BigEndian (firstn 8 (remaining fh)))) as a eqn:Ea.
    remember (decode_binary64 (uint_of BigEndian (firstn 8 (skipn 8 (remaining fh)))))
      as b eqn:Eb.
    clear Ea Eb. subst x y. cbv beta iota in H. unfold bind, lift in H.
    destruct (py_truediv (PyInt 1) (PyFloat b)); [| discriminate H].
    unfold ret in H. injection H as H1 H2 H3. auto.
Qed.

(** C1.  In every file that parses, whatever its version, the first value
    and the increment stored in column 0 (the first element and the median
    step of the float array of version 1, the two numbers of the series of
    version 2 or of type 9) are the start time and the sampling period of
    the file, and column 0 has no row in the signal-channel table: the rows
    are those of columns 1, 2, ... in order, all of them ([n_cols - 1]
    rows) for a single segment, the first [(n_cols - 1) / n] for [n]
    segments. *)
Theorem column_zero_is_time_axis long force file self :
  _parse_header long force file = Ok self ->
  exists id ver cols_n f0 n_points col_type title fh,
    read_preamble (mkStructFile BigEndian file 0) = Ok ((id, ver, cols_n), f0)
    /\ 0 < cols_n
    /\ read_column_header ver f0 = Ok ((n_points, col_type, title), fh)
    /\ time_axis_values ver n_points col_type fh (_t_start self) (_sampling_period self)
    /\ Forall (fun ch => 1 <= ch_id ch < cols_n) (signal_channels (header self))
    /\ exists rows segments,
         map ch_id (signal_channels (header self)) = map Z.of_nat (seq 1 rows)
         /\ nb_segment (header self) = [segments]
         /\ Z.of_nat rows * segments = cols_n - 1.
Proof.
  intros H. apply parse_header_cases in H.
  destruct H as (self0 & Hheavy & _ & Hcases).
  apply heavy_lifting_ok in Hheavy. destruct Hheavy as [f_end Hfile].
  apply read_file_ok in Hfile.
  destruct Hfile as (id & ver & cols_n & f0 & cols & fcols & ann & Hpre & Hcols & _
                     & Hperiod & Hstart & _ & Hseg & Htable & Hraw & _ & _).
  destruct (columns_of_read_file _ _ _ _ Hcols Hperiod)
    as (Hpos & (n_points & col_type & title & fh & first_value & increment & fc & rate
                & Hh & Ht & _ & Hts & Hsp) & Hids & _ & Hlen).
  assert (Hrows : exists rows segments,
             map ch_id (signal_channels (header self)) = map Z.of_nat (seq 1 rows)
             /\ nb_segment (header self) = [segments]
             /\ Z.of_nat rows * segments = cols_n - 1
             /\ (rows <= Z.to_nat cols_n - 1)%nat).
  { destruct Hcases as [(-> & _)|(_ & _ & Hconv)].
    - exists (Z.to_nat cols_n - 1)%nat, 1. rewrite Htable, Hseg, Hids.
      repeat split; lia.
    - apply convert_ok in Hconv.
      destruct Hconv as (m & sigs & others & _ & _ & Hn & Hmul & _ & Hfirst & Hnb & _).
      rewrite Htable, Hlen in Hmul.
      exists (length (signal_channels (header self))), (n_episodes m).
      assert (Hle : (length (signal_channels (header self)) <= Z.to_nat cols_n - 1)%nat)
        by nia.
      repeat split; [| assumption | lia | assumption].
      rewrite Hfirst at 1. rewrite Htable, <- firstn_map, Hids, firstn_map.
      rewrite firstn_seq_le by assumption. reflexivity. }
  destruct Hrows as (rows & segments & Hmap & Hnb & Hmul & Hle).
  exists id, ver, cols_n, f0, n_points, col_type, title, fh.
  assert (Hself_time : _t_start self = first_value /\ _sampling_period self = increment).
  { destruct Hcases as [(-> & _)|(_ & _ & Hconv)].
    - split; congruence.
    - apply convert_ok in Hconv.
      destruct Hconv as (m & sigs & others & _ & _ & _ & _ & _ & _ & _ & _ & Et & Ep & _).
      split; congruence. }
  destruct Hself_time as [Et Ep].
  assert (Horder : byte_order fh = BigEndian).
  { destruct (preserves_read_preamble _ Hpre) as (_ & O0 & _).
    destruct (preserves_read_column_header _ _ Hh) as (_ & O1 & _).
    rewrite O1, O0. reflexivity. }
  split; [assumption |]. split; [assumption |]. split; [assumption |].
  split; [rewrite Et, Ep; exact (time_axis_read_values Horder Ht) |].
  split.
  - apply Forall_forall. intros ch Hin.
    assert (Hid : In (ch_id ch) (map Z.of_nat (seq 1 rows))).
    { rewrite <- Hmap. apply in_map. assumption. }
    apply in_map_iff in Hid. destruct Hid as (q & Hq & Hin').
    apply in_seq in Hin'. lia.
  - exists rows, segments. auto.
Qed.

(** C10.  With [force_single_segment=True] the episodic heuristic is not
    evaluated: [_parse_header] is [_do_the_heavy_lifting] and nothing more,
    so it succeeds exactly when the file decodes, and the header then has
    one segment, holding every array. *)
Theorem forced_single_segment long file :
  _parse_header long true file = _do_the_heavy_lifting long true file
  /\ (forall self,
        _parse_header long true file = Ok self ->
        force_single_segment self = true
        /\ nb_segment (header self) = [1]
        /\ exists sigs,
             _raw_signals self = [sigs]
             /\ length sigs = length (signal_channels (header self))).
Proof.
  assert (Heq : _parse_header long true file = _do_the_heavy_lifting long true file).
  { unfold _parse_header.
    destruct (_do_the_heavy_lifting long true file) as [self0|e] eqn:E; [| reflexivity].
    simpl. apply heavy_lifting_ok in E. destruct E as [f_end E].
    apply read_file_ok in E.
    destruct E as (id & ver & cols_n & f0 & cols & f1 & ann & _ & _ & _ & _ & _ & -> & _).
    reflexivity. }
  split; [exact Heq |].
  intros self H. rewrite Heq in H.
  apply heavy_lifting_ok in H. destruct H as [f_end H].
  apply read_file_ok in H.
  destruct H as (id & ver & cols_n & f0 & cols & f1 & ann & _ & Hcols & _ & Hp & _ & Hf
                 & Hseg & Htable & Hraw & _).
  destruct (columns_of_read_file _ _ _ _ Hcols Hp) as (_ & _ & _ & Hls & Hlc).
  repeat split; try assumption.
  exists (sigs_memmap cols). rewrite Htable. split; [assumption | congruence].
Qed.

(** ** Failures *)

Lemma read_file_columns_raise long force f id ver cols_n f0 e :
  read_preamble f = Ok ((id, ver, cols_n), f0) ->
  read_columns long ver (py_range cols_n) no_columns f0 = Raise e ->
  read_file long force f = Raise e.
Proof.
  intros Hpre Hcols. unfold read_file, bind. rewrite Hpre, Hcols. reflexivity.
Qed.

(** C2 (as amended).  In a file of the legacy era (format version 1 or 2),
    bytes left after the columns are fatal: the decoder asserts that the
    rest of the file is empty, so decoding stops with an assertion error and
    no header is produced. *)
Theorem legacy_trailing_bytes_are_fatal long force file id ver cols_n f0 cols f1 :
  read_preamble (mkStructFile BigEndian file 0) = Ok ((id, ver, cols_n), f0) ->
  ver = 1 \/ ver = 2 ->
  read_columns long ver (py_range cols_n) no_columns f0 = Ok (cols, f1) ->
  remaining f1 <> [] ->
  _do_the_heavy_lifting long force file = Raise (AssertionError rest_of_the_file_not_empty)
  /\ _parse_header long force file = Raise (AssertionError rest_of_the_file_not_empty).
Proof.
  intros Hpre Hver Hcols Hrest.
  assert (Hheavy : _do_the_heavy_lifting long force file
                   = Raise (AssertionError rest_of_the_file_not_empty)).
  { unfold _do_the_heavy_lifting, read_file, bind. rewrite Hpre, Hcols.
    assert (Hv : (ver =? 1) || (ver =? 2) = true) by (destruct Hver; subst; reflexivity).
    rewrite Hv. unfold read_legacy_end, bind, read_all.
    destruct (remaining f1); [contradiction | reflexivity]. }
  split; [exact Hheavy |].
  unfold _parse_header. rewrite Hheavy. reflexivity.
Qed.

Lemma read_column_header_typed format_ver f n_points t title fh :
  read_column_header format_ver f = Ok ((n_points, Some t, title), fh) ->
  3 <= format_ver.
Proof.
  unfold read_column_header. intros H. inv_step H. inv_step H.
  destruct ((format_ver =? 1) || (format_ver =? 2)).
  - inv_run.
  - destruct (Z.leb_spec 3 format_ver); [assumption | discriminate].
Qed.

(** C5.  From version 3 on, when the decoder reaches a column whose type
    is none of 9, 4, 5, 6, 7 and 10, reading that column raises the
    unsupported-column-type error before anything is appended for it, and
    so does the construction of the header: no header, hence no channel
    table, is produced. *)
Theorem unknown_column_type_is_fatal long force file id ver cols_n f0
    done i rest st f1 n_points t title fh :
  read_preamble (mkStructFile BigEndian file 0) = Ok ((id, ver, cols_n), f0) ->
  py_range cols_n = done ++ i :: rest ->
  read_columns long ver done no_columns f0 = Ok (st, f1) ->
  read_column_header ver f1 = Ok ((n_points, Some t, title), fh) ->
  ~ In t [9; 4; 5; 6; 7; 10] ->
  3 <= ver
  /\ read_column long ver i st f1
     = Raise (NotImplementedError (unimplemented_column_type (Some t)))
  /\ _do_the_heavy_lifting long force file
     = Raise (NotImplementedError (unimplemented_column_type (Some t)))
  /\ _parse_header long force file
     = Raise (NotImplementedError (unimplemented_column_type (Some t))).
Proof.
  intros Hpre Hrange Hdone Hh Hnot.
  pose proof (read_column_header_typed _ _ Hh) as Hver.
  assert (Hcol : read_column long ver i st f1
                 = Raise (NotImplementedError (unimplemented_column_type (Some t)))).
  { unfold read_column, bind. rewrite Hh.
    destruct (name_and_units title) as [name units].
    unfold read_column_data, read_column_kind, bind.
    destruct (Z.eqb_spec ver 1); [lia |].
    destruct (Z.eqb_spec ver 2); [lia |].
    destruct (Z.leb_spec 3 ver); [| lia].
    simpl in Hnot. unfold is_.
    repeat match goal with
           | |- context [t =? ?k] => destruct (Z.eqb_spec t k); [exfalso; lia |]
           end.
    reflexivity. }
  assert (Hheavy : _do_the_heavy_lifting long force file
                   = Raise (NotImplementedError (unimplemented_column_type (Some t)))).
  { unfold _do_the_heavy_lifting.
    erewrite read_file_columns_raise; [reflexivity | eassumption |].
    rewrite Hrange, read_columns_app, Hdone. simpl. unfold bind. rewrite Hcol.
    reflexivity. }
  repeat split; try assumption.
  unfold _parse_header. rewrite Hheavy. reflexivity.
Qed.

(** ** The episodic heuristic *)

Lemma insert_unique_In x l a : In a (insert_unique x l) <-> a = x \/ In a l.
Proof.
  induction l as [|y t IH]; simpl.
  - intuition.
  - destruct (Z.ltb_spec x y); [simpl; intuition |].
    destruct (Z.eqb_spec x y); simpl; [subst; intuition |].
    rewrite IH. intuition.
Qed.

Lemma np_unique_In l a : In a (np_unique l) <-> In a l.
Proof.
  induction l as [|x t IH]; simpl; [tauto |].
  rewrite insert_unique_In, IH. intuition.
Qed.

Lemma np_unique_singleton l a b :
  length (np_unique l) = 1%nat -> In a l -> In b l -> a = b.
Proof.
  intros Hlen Ha Hb. apply np_unique_In in Ha, Hb.
  destruct (np_unique l) as [|v [|w t]]; try discriminate.
  simpl in Ha, Hb. intuition congruence.
Qed.

Lemma read_legacy_end_ok f ann f' :
  read_legacy_end f = Ok (ann, f') -> details ann = None /\ remaining f = [].
Proof.
  unfold read_legacy_end, read_all. intros H. inv_step H. inv_step H0.
  inv_step H. inv_step H0. inv_step H. apply py_assert_ok in H1.
  simpl. split; [reflexivity |].
  destruct (remaining f); [reflexivity | discriminate].
Qed.

(** A file that carries the sections of version 3 is of version 3 or
    later, and its single segment holds the arrays of all its rows. *)
Lemma heavy_lifting_layout long force file self :
  _do_the_heavy_lifting long force file = Ok self ->
  force_single_segment self = force
  /\ nb_segment (header self) = [1]
  /\ (exists sigs,
        _raw_signals self = [sigs]
        /\ length sigs = length (signal_channels (header self)))
  /\ map ch_id (signal_channels (header self))
     = map Z.of_nat (seq 1 (length (signal_channels (header self))))
  /\ (forall m, modern (info self) = Some m -> 3 <= format_ver (info self)).
Proof.
  intros H. apply heavy_lifting_ok in H. destruct H as [f_end H].
  apply read_file_ok in H.
  destruct H as (id & ver & cols_n & f0 & cols & f1 & ann & _ & Hcols & Htail & Hp & _ & Hf
                 & Hseg & Htable & Hraw & Hver & Hmod).
  destruct (columns_of_read_file _ _ _ _ Hcols Hp) as (_ & _ & Hids & Hls & Hlc).
  repeat split; try assumption.
  - exists (sigs_memmap cols). rewrite Htable. split; [assumption | congruence].
  - rewrite Htable, Hids, Hlc. reflexivity.
  - intros m Hm. rewrite Hver.
    destruct Htail as [(_ & Hend)|(Hge & _)]; [| assumption].
    apply read_legacy_end_ok in Hend. destruct Hend as [Hnone _]. congruence.
Qed.

Section Dict.
Context {K V : Type} (eqb : K -> K -> bool).
Hypothesis eqb_eq : forall a b, eqb a b = true <-> a = b.

Lemma dict_get_set_same k v (d : dict K V) : dict_get eqb k (dict_set eqb k v d) = Ok v.
Proof.
  assert (Hrefl : eqb k k = true) by (apply eqb_eq; reflexivity).
  induction d as [|[k' v'] t IH]; simpl.
  - rewrite Hrefl. reflexivity.
  - destruct (eqb k k') eqn:E; simpl.
    + rewrite Hrefl. reflexivity.
    + rewrite E. exact IH.
Qed.

Lemma dict_get_set_other s k v (d : dict K V) :
  s <> k -> dict_get eqb s (dict_set eqb k v d) = dict_get eqb s d.
Proof.
  intros Hne.
  assert (Hsk : eqb s k = false).
  { destruct (eqb s k) eqn:E; [| reflexivity]. apply eqb_eq in E. contradiction. }
  induction d as [|[k' v'] t IH]; simpl.
  - rewrite Hsk. reflexivity.
  - destruct (eqb k k') eqn:E; simpl.
    + apply eqb_eq in E. subst k'. rewrite Hsk. reflexivity.
    + destruct (eqb s k'); [reflexivity | exact IH].
Qed.

Lemma dict_get_In k v (d : dict K V) : dict_get eqb k d = Ok v -> In (k, v) d.
Proof.
  induction d as [|[k' v'] t IH]; simpl; [discriminate |].
  destruct (eqb k k') eqn:E.
  - intros H. inversion H. apply eqb_eq in E. subst. left. reflexivity.
  - intros H. right. auto.
Qed.

Lemma dict_set_In k v (d : dict K V) k' v' :
  In (k', v') (dict_set eqb k v d) -> (k' = k /\ v' = v) \/ In (k', v') d.
Proof.
  induction d as [|[k0 v0] t IH]; simpl.
  - intros [H|[]]. inversion H. auto.
  - destruct (eqb k k0); simpl.
    + intros [H|H]; [inversion H; auto | auto].
    + intros [H|H]; [auto | destruct (IH H); auto].
Qed.
End Dict.

(** ** The trace headers of a decoded file *)

Lemma read_f_l f o f' : read_f "l" f = Ok (o, f') -> exists z, o = Scalar (PyInt z).
Proof.
  unfold read_f, read_f_at, bind, ret. simpl. unfold bind.
  rewrite read_and_unpack_l.
  destruct (4 <=? length (remaining f))%nat; [| discriminate].
  simpl. intros H. inversion H. eauto.
Qed.

Lemma read_description_int key description :
  (forall fmt, In (key, fmt) description -> fmt = "l") ->
  forall info f info' f',
    read_description description info f = Ok (info', f') ->
    In key (map fst description) \/ (exists z, get_int key info = Ok z) ->
    exists z, get_int key info' = Ok z.
Proof.
  induction description as [|[k fmt] rest IH]; intros Hfmt info f info' f' H Hor; simpl in H.
  - inv_run. destruct Hor as [[]|Hz]. exact Hz.
  - inv_step H. eapply IH; [| exact H |].
    + intros fmt' Hin. apply Hfmt. right. exact Hin.
    + destruct (string_dec key k) as [->|Hne].
      * right. rewrite (Hfmt fmt (or_introl eq_refl)) in H0.
        apply read_f_l in H0. destruct H0 as [z ->].
        exists z. unfold get_int.
        rewrite (@dict_get_set_same _ _ String.eqb String.eqb_eq). reflexivity.
      * destruct Hor as [[Hk|Hin]|Hz].
        -- simpl in Hk. congruence.
        -- left. exact Hin.
        -- right. destruct Hz as [z Hz]. exists z. unfold get_int in *.
           rewrite (@dict_get_set_other _ _ String.eqb String.eqb_eq) by assumption.
           exact Hz.
Qed.

Lemma trace_description_int key version description :
  trace_description version = Ok description ->
  In key ["group_id_for_this_trace"; "y_index"] ->
  (forall fmt, In (key, fmt) description -> fmt = "l")
  /\ In key (map fst description).
Proof.
  unfold trace_description. intros H Hkey.
  destruct (version =? 1); [| destruct (version =? 2); [| discriminate]];
    inversion H; subst description; clear H;
    simpl in Hkey; destruct Hkey as [<-|[<-|[]]];
    (split; [| simpl; tauto]);
    intros fmt Hin; simpl in Hin;
    repeat match goal with
           | H : _ \/ _ |- _ => destruct H as [H|H]
           end;
    try contradiction; try discriminate; inversion Hin; reflexivity.
Qed.

Lemma read_trace_headers_ok format_ver indices :
  forall traces ids f traces' ids' f',
    read_trace_headers format_ver indices traces ids f = Ok ((traces', ids'), f') ->
    Forall (fun entry => trace_ok (snd entry)) traces ->
    Forall (fun entry => trace_ok (snd entry)) traces'.
Proof.
  induction indices as [|i rest IH]; intros traces ids f traces' ids' f' H Hall; simpl in H.
  - inv_run. exact Hall.
  - inv_step H. inv_step H. inv_step H1. inv_step H. inv_step H. inv_step H3.
    eapply IH; [exact H |].
    apply Forall_forall. intros [k h] Hin.
    apply dict_set_In in Hin. destruct Hin as [[_ ->]|Hin].
    + simpl. split; [eauto |].
      destruct (@trace_description_int "y_index" _ _ H2) as [Hfmt Hkey]; [simpl; auto |].
      eapply read_description_int; [exact Hfmt | exact H1 | left; exact Hkey].
    + rewrite Forall_forall in Hall. exact (Hall _ Hin).
Qed.

Lemma columns_of_group_total group_id traces :
  Forall (fun entry => trace_ok (snd entry)) traces ->
  exists cols,
    columns_of_group group_id traces = Ok cols
    /\ length cols = traces_of_group group_id traces.
Proof.
  induction traces as [|[k h] rest IH]; intros Hall; simpl.
  - exists []. auto.
  - inversion Hall as [|? ? [[g Hg] [y Hy]] Hrest]; subst. simpl in *.
    destruct (IH Hrest) as (cols & Hcols & Hlen).
    rewrite Hg, Hcols. simpl.
    destruct (g =? group_id).
    + rewrite Hy. simpl. exists (y :: cols). simpl. auto.
    + exists cols. auto.
Qed.

Lemma group_columns_total traces :
  Forall (fun entry => trace_ok (snd entry)) traces ->
  forall groups acc,
    (forall g cols, dict_get Z.eqb g acc = Ok cols ->
                    length cols = traces_of_group g traces) ->
    exists by_group,
      group_columns groups traces acc = Ok by_group
      /\ (forall g cols, dict_get Z.eqb g by_group = Ok cols ->
                         length cols = traces_of_group g traces)
      /\ (forall g, In g (map fst groups) -> exists cols, dict_get Z.eqb g by_group = Ok cols).
Proof.
  intros Hall. induction groups as [|[group_id h] rest IH]; intros acc Hacc; simpl.
  - exists acc. repeat split; [assumption | intros g []].
  - destruct (@columns_of_group_total group_id traces Hall) as (cols & Hcols & Hlen).
    rewrite Hcols. simpl.
    destruct (IH (dict_set Z.eqb group_id cols acc)) as (by_group & Hg & Hlens & Hkeys).
    { intros g c Hget. destruct (Z.eq_dec g group_id) as [->|Hne].
      - rewrite (@dict_get_set_same _ _ Z.eqb Z.eqb_eq) in Hget. inversion Hget. subst. exact Hlen.
      - rewrite (@dict_get_set_other _ _ Z.eqb Z.eqb_eq) in Hget by assumption. eauto. }
    exists by_group. repeat split; try assumption.
    intros g [<-|Hin]; [| auto].
    clear - Hg Hall. 
    (* the key just set stays in the dictionary *)
    assert (Hkeep : forall groups acc by_group,
               group_columns groups traces acc = Ok by_group ->
               forall g, (exists c, dict_get Z.eqb g acc = Ok c) ->
                         exists c, dict_get Z.eqb g by_group = Ok c).
    { induction groups as [|[k hk] t IHt]; intros acc0 bg H g0 Hex; simpl in H.
      - inversion H. subst. exact Hex.
      - destruct (columns_of_group k traces) as [ck|] eqn:Ek; [| discriminate].
        simpl in H. eapply IHt; [exact H |].
        destruct (Z.eq_dec g0 k) as [->|Hne].
        + rewrite (@dict_get_set_same _ _ Z.eqb Z.eqb_eq). eauto.
        + rewrite (@dict_get_set_other _ _ Z.eqb Z.eqb_eq) by assumption. exact Hex. }
    eapply Hkeep; [exact Hg |].
    rewrite (@dict_get_set_same _ _ Z.eqb Z.eqb_eq). eauto.
Qed.

Lemma read_modern_sections_traces format_ver cols period f ann f' :
  read_modern_sections format_ver cols period f = Ok (ann, f') ->
  exists m,
    details ann = Some m
    /\ Forall (fun entry => trace_ok (snd entry)) (trace_header_info_list m).
Proof.
  unfold read_modern_sections. intros H.
  inv_step H. inv_step H. inv_step H. inv_step H.
  destruct a2 as [traces ids].
  apply read_trace_headers_ok in H3; [| constructor].
  inv_run. eexists. split; [reflexivity |]. exact H3.
Qed.

Lemma heavy_lifting_traces long force file self m :
  _do_the_heavy_lifting long force file = Ok self ->
  modern (info self) = Some m ->
  Forall (fun entry => trace_ok (snd entry)) (trace_header_info_list m).
Proof.
  intros H Hm. apply heavy_lifting_ok in H. destruct H as [f_end H].
  apply read_file_ok in H.
  destruct H as (id & ver & cols_n & f0 & cols & f1 & ann & _ & _ & Htail & _ & _ & _
                 & _ & _ & _ & _ & Hmod).
  rewrite Hmod in Hm.
  destruct Htail as [(_ & Hend)|(_ & Hsec)].
  - apply read_legacy_end_ok in Hend. destruct Hend as [Hnone _]. congruence.
  - apply read_modern_sections_traces in Hsec. destruct Hsec as (m' & Hd & Hall).
    congruence.
Qed.

(** C4.  When two groups of a decoded file hold differing numbers of
    traces, the heuristic answers no at its second check (the remaining
    checks are not evaluated) and [_parse_header] leaves what was decoded
    as it is: one segment with every channel, in the order of the columns. *)
Theorem differing_trace_counts_reject long force file self m g1 g2 :
  _do_the_heavy_lifting long force file = Ok self ->
  modern (info self) = Some m ->
  In g1 (map fst (group_header_info_list m)) ->
  In g2 (map fst (group_header_info_list m)) ->
  traces_of_group g1 (trace_header_info_list m)
  <> traces_of_group g2 (trace_header_info_list m) ->
  _safe_to_treat_as_episodic self
  = Ok (false, "Cannot treat as episodic because groups differ in number of traces")
  /\ _parse_header long force file = Ok self
  /\ nb_segment (header self) = [1]
  /\ (exists sigs,
        _raw_signals self = [sigs]
        /\ length sigs = length (signal_channels (header self)))
  /\ map ch_id (signal_channels (header self))
     = map Z.of_nat (seq 1 (length (signal_channels (header self)))).
Proof.
  intros Hheavy Hm H1 H2 Hneq.
  destruct (heavy_lifting_layout _ _ _ Hheavy) as (Hforce & Hseg & Hraw & Hids & Hver).
  specialize (Hver _ Hm).
  pose proof (heavy_lifting_traces _ _ _ Hheavy Hm) as Htraces.
  destruct (@group_columns_total _ Htraces (group_header_info_list m) [])
    as (by_group & Hgroups & Hlens & Hkeys); [intros g cols Hget; discriminate |].
  destruct (Hkeys _ H1) as [cols1 Hc1]. destruct (Hkeys _ H2) as [cols2 Hc2].
  assert (Hsafe : _safe_to_treat_as_episodic self
                  = Ok (false, "Cannot treat as episodic because groups differ in number of traces")).
  { unfold _safe_to_treat_as_episodic.
    destruct (Z.ltb_spec (format_ver (info self)) 3); [lia |].
    rewrite Hm. simpl. rewrite Hgroups. simpl.
    destruct (Nat.eqb_spec
                (length (np_unique
                           (map snd (map (fun '(k, v) => (k, Z.of_nat (length v))) by_group))))
                1) as [Hone|]; [| reflexivity].
    exfalso. apply Hneq.
    rewrite <- (Hlens _ _ Hc1), <- (Hlens _ _ Hc2). apply Nat2Z.inj.
    eapply np_unique_singleton; [exact Hone | |].
    - rewrite map_map. apply in_map_iff. exists (g1, cols1).
      split; [reflexivity | eapply dict_get_In; [apply Z.eqb_eq | exact Hc1]].
    - rewrite map_map. apply in_map_iff. exists (g2, cols2).
      split; [reflexivity | eapply dict_get_In; [apply Z.eqb_eq | exact Hc2]]. }
  repeat split; try assumption.
  unfold _parse_header. rewrite Hheavy. simpl. rewrite Hsafe.
  destruct (negb (force_single_segment self)); reflexivity.
Qed.

(** X28.  When the heuristic accepts a file and the conversion goes
    through, the header has [n_episodes] segments; the signal-channel
    table is cut down to its first [rows] rows, where [rows * n_episodes]
    is the number of rows decoded (the rows of the later episodes are
    dropped); the flat list of arrays is cut into [n_episodes] runs of
    [rows] contiguous arrays, one run per segment; and the runs put end to
    end are the flat list, so no array is lost or duplicated. *)
Theorem episodic_conversion long file self0 line self :
  _do_the_heavy_lifting long false file = Ok self0 ->
  _safe_to_treat_as_episodic self0 = Ok (true, line) ->
  _parse_header long false file = Ok self ->
  exists m sigs rows,
    modern (info self0) = Some m
    /\ _raw_signals self0 = [sigs]
    /\ nb_segment (header self) = [n_episodes m]
    /\ 0 < n_episodes m
    /\ (0 < rows)%nat
    /\ Z.of_nat (length (signal_channels (header self0))) = Z.of_nat rows * n_episodes m
    /\ signal_channels (header self) = firstn rows (signal_channels (header self0))
    /\ _raw_signals self
       = chunks rows (map (fun q => q * rows)%nat (seq 0 (Z.to_nat (n_episodes m)))) sigs
    /\ Z.of_nat (length (_raw_signals self)) = n_episodes m
    /\ Forall (fun segment => length segment = rows) (_raw_signals self)
    /\ concat (_raw_signals self) = sigs.
Proof.
  intros Hheavy Hsafe Hparse.
  destruct (heavy_lifting_layout _ _ _ Hheavy) as (Hforce & _ & (sigs & Hraw & Hlen) & _).
  unfold _parse_header in Hparse. rewrite Hheavy in Hparse. simpl in Hparse.
  rewrite Hforce, Hsafe in Hparse. simpl in Hparse.
  apply convert_ok in Hparse.
  destruct Hparse as (m & sigs' & others & Hm & Hraw' & Hpos & Hmul & Hrows & Hfirst & Hnb
                      & (starts & Hstarts & Hsegs) & _).
  rewrite Hraw in Hraw'. inversion Hraw'; subst sigs' others.
  set (rows := length (signal_channels (header self))) in *.
  assert (Hsigs : length sigs = (Z.to_nat (n_episodes m) * rows)%nat) by nia.
  rewrite Hsigs, np_arange_exact in Hstarts by assumption. inv_step Hstarts.
  destruct (chunks_exact (Z.to_nat (n_episodes m)) Hrows sigs Hsigs) as (Hc & Hl & Hf).
  exists m, sigs, rows. rewrite Hsegs.
  repeat split; try assumption.
  rewrite Hl. lia.
Qed.

(** ** Gain and offset *)

Lemma digits_shift52 m :
  Zpos (digits2_pos
          (m~0~0~0~0~0~0~0~0~0~0~0~0~0~0~0~0~0~0~0~0~0~0~0~0~0~0
            ~0~0~0~0~0~0~0~0~0~0~0~0~0~0~0~0~0~0~0~0~0~0~0~0~0~0))
  = Zpos (digits2_pos m) + 52.
Proof. cbn [digits2_pos]. lia. Qed.

(** Multiplying a binary64 number by 1.0 is exact. *)
Lemma SFmul_one x :
  valid_binary 53 1024 x = true -> SFmul 53 1024 x (b64_of_Z 1) = x.
Proof.
  change (b64_of_Z 1) with (S754_finite false 4503599627370496 (-52)).
  destruct x as [s|s| |s m e]; simpl; intros H.
  - destruct s; reflexivity.
  - destruct s; reflexivity.
  - reflexivity.
  - unfold bounded, canonical_mantissa in H.
    apply andb_prop in H. destruct H as [Hc He].
    apply Z.eqb_eq in Hc. apply Z.leb_le in He.
    rewrite xorb_false_r, Pos.mul_comm. cbn [Pos.mul].
    unfold binary_round_aux, shr_fexp. unfold Zdigits2 at 1.
    rewrite digits_shift52.
    replace (Z.pos (digits2_pos m) + 52 + (e + -52)) with (Z.pos (digits2_pos m) + e) by lia.
    rewrite Hc.
    replace (e - (e + -52)) with 52 by lia.
    unfold shr, shr_record_of_loc. cbn [iter_pos shr_1 orb].
    cbn [loc_of_shr_record shr_m round_nearest_even].
    replace (e + -52 + 52) with e by lia.
    unfold Zdigits2. rewrite Hc. rewrite Z.sub_diag. cbn [shr_m].
    destruct (Z.leb_spec e (1024 - 53)); [reflexivity | lia].
Qed.

(** With gain 1 and offset 0 the rescale step gives the sample back (a
    zero comes back as the positive zero). *)
Lemma rescale_unit_gain x :
  valid_binary 53 1024 x = true ->
  rescale_signal_raw_to_float x (PyInt 1) (PyInt 0)
  = Ok (if is_zero x then S754_zero false else x).
Proof.
  intros Hv. unfold rescale_signal_raw_to_float, to_float64.
  rewrite (SFmul_one x Hv).
  change (b64_of_Z 0) with (S754_zero false).
  destruct x as [[|]|[|]| |s m e]; reflexivity.
Qed.

Lemma read_column_kind_scaling long format_ver i n_points col_type f dtype gain offset f' :
  read_column_kind long format_ver i n_points col_type f
  = Ok (samples dtype gain offset, f') ->
  (unscaled_kind format_ver col_type -> gain = PyInt 1 /\ offset = PyInt 0)
  /\ (format_ver = 2 -> offset = PyInt 0 /\ read_float "f" f = Ok (gain, f'))
  /\ (3 <= format_ver -> col_type = Some 10 ->
      read_float2 "dd" f = Ok ((gain, offset), f')).
Proof.
  unfold read_column_kind, unscaled_kind. intros H.
  destruct (Z.eqb_spec format_ver 1) as [->|N1].
  { destruct (i =? 0); inv_run.
    repeat split; intros; try reflexivity; lia. }
  destruct (Z.eqb_spec format_ver 2) as [->|N2].
  { destruct (i =? 0); inv_run.
    repeat split; intros; try assumption; try reflexivity; try lia.
    all: match goal with H : _ \/ _ |- _ => destruct H as [|[]]; lia end. }
  destruct (Z.leb_spec 3 format_ver) as [G3|]; [| discriminate].
  destruct (is_ col_type 9) eqn:E9.
  { inv_step H. destruct a as [x y]. destruct (i =? 0); inv_run. }
  assert (Hunit : gain = PyInt 1 -> offset = PyInt 0 ->
                  forall k, is_ col_type k = true -> k <> 10 ->
                  (format_ver = 1 \/ 3 <= format_ver
                                     /\ In col_type [Some 4; Some 5; Some 6; Some 7] ->
                   gain = PyInt 1 /\ offset = PyInt 0)
                  /\ (format_ver = 2 -> offset = PyInt 0 /\ read_float "f" f = Ok (gain, f'))
                  /\ (3 <= format_ver -> col_type = Some 10 ->
                      read_float2 "dd" f = Ok (gain, offset, f'))).
  { intros -> -> k Hk Hk10. apply is_true in Hk.
    repeat split; intros; try lia. congruence. }
  destruct (is_ col_type 4) eqn:E4; [inv_run; eapply Hunit; eauto; lia |].
  destruct (is_ col_type 5) eqn:E5; [inv_run; eapply Hunit; eauto; lia |].
  destruct (is_ col_type 6) eqn:E6; [inv_run; eapply Hunit; eauto; lia |].
  destruct (is_ col_type 7) eqn:E7; [inv_run; eapply Hunit; eauto; lia |].
  destruct (is_ col_type 10) eqn:E10; [| discriminate].
  inv_run. apply is_true in E10. subst col_type.
  repeat split; intros; try lia; try assumption.
  all: match goal with
       | H : _ \/ _ |- _ =>
           destruct H as [|[_ Hin]]; [lia | simpl in Hin; intuition discriminate]
       end.
Qed.

(** C7.  The row appended for a signal column (any column but the time
    column) of a kind that declares no scaling has gain 1 and offset 0, and
    rescaling a sample with them gives the sample back; a gain read from
    the file is only found for the scaled shorts of version 2 (with offset
    0), a gain and an offset read from the file only for type 10. *)
Theorem unscaled_kinds_have_unit_gain long format_ver i st f st' f'
    n_points col_type title fh :
  i <> 0 ->
  read_column_header format_ver f = Ok ((n_points, col_type, title), fh) ->
  read_column long format_ver i st f = Ok (st', f') ->
  exists ch,
    sig_channels st' = sig_channels st ++ [ch]
    /\ (unscaled_kind format_ver col_type ->
        ch_gain ch = PyInt 1 /\ ch_offset ch = PyInt 0
        /\ forall x, valid_binary 53 1024 x = true ->
             rescale_signal_raw_to_float x (ch_gain ch) (ch_offset ch)
             = Ok (if is_zero x then S754_zero false else x))
    /\ (format_ver = 2 ->
        ch_offset ch = PyInt 0 /\ exists fg, read_float "f" fh = Ok (ch_gain ch, fg))
    /\ (3 <= format_ver -> col_type = Some 10 ->
        exists fg, read_float2 "dd" fh = Ok ((ch_gain ch, ch_offset ch), fg)).
Proof.
  intros Hi Hh H. apply read_column_ok in H.
  destruct H as (n_points' & col_type' & title' & fh' & Hh' & Hd).
  rewrite Hh in Hh'. inversion Hh'; subst n_points' col_type' title' fh'. clear Hh'.
  apply read_column_data_ok in Hd.
  destruct Hd as [(first_value & increment & Hk & _)|(dtype & gain & offset & fk & Hk & Hs)].
  { apply read_column_kind_time in Hk. destruct Hk as (-> & _). contradiction. }
  apply read_column_kind_scaling in Hk. destruct Hk as (Hunit & Hv2 & Hv10).
  apply store_column_ok in Hs. destruct Hs as (array & period & rate & _ & _ & _ & ->).
  eexists. simpl. split; [reflexivity |]. repeat split.
  - apply Hunit. assumption.
  - apply Hunit. assumption.
  - intros x Hx. destruct (Hunit H) as [-> ->]. apply rescale_unit_gain. assumption.
  - apply Hv2. assumption.
  - exists fk. apply Hv2. assumption.
  - intros Hge Hten. exists fk. apply Hv10; assumption.
Qed.

(** ** Columns without points *)

Lemma read_column_time_bound long format_ver i st f st' f' :
  read_column long format_ver i st f = Ok (st', f') -> time_bound st'.
Proof.
  intros H. apply read_column_ok in H.
  destruct H as (n_points & col_type & title & fh & _ & Hd).
  apply read_column_data_ok in Hd.
  destruct Hd as [(first_value & increment & Hk & ->)|(dtype & gain & offset & fk & _ & Hs)].
  - apply read_column_kind_time in Hk. destruct Hk as (_ & _ & rate & Hr).
    exists increment, rate. simpl. auto.
  - apply store_column_ok in Hs. destruct Hs as (array & period & rate & _ & Hp & Hr & ->).
    exists period, rate. simpl. auto.
Qed.

Lemma read_columns_time_bound long format_ver indices :
  forall st f st' f',
    read_columns long format_ver indices st f = Ok (st', f') ->
    indices <> [] \/ time_bound st ->
    time_bound st'.
Proof.
  induction indices as [|i rest IH]; intros st f st' f' H Hor; simpl in H.
  - inv_run. destruct Hor as [Hne|Hb]; [contradiction | assumption].
  - inv_step H. apply (IH _ _ _ _ H). right.
    eapply read_column_time_bound. eassumption.
Qed.

Lemma advance_0 f : advance f 0 = f.
Proof. destruct f. unfold advance. simpl. rewrite Nat.add_0_r. reflexivity. Qed.

(** C9 (as amended).  A column of samples (any column but the time column)
    whose point count is 0 is read without error: once the earlier columns,
    the header of the column and its scaling fields have been read, the
    mapping of its samples succeeds, the array it appends is empty, and the
    position in the file does not move.  The time column of version 2 and
    later is a series, read the same whatever its point count.  (The time
    column of version 1 is a stored array, whose first value is needed.) *)
Theorem empty_column_is_legal long file id ver cols_n f0 done i rest st f1
    col_type title fh dtype gain offset fk :
  read_preamble (mkStructFile BigEndian file 0) = Ok ((id, ver, cols_n), f0) ->
  py_range cols_n = done ++ i :: rest ->
  done <> [] ->
  read_columns long ver done no_columns f0 = Ok (st, f1) ->
  read_column_header ver f1 = Ok ((0, col_type, title), fh) ->
  read_column_kind long ver i 0 col_type fh = Ok (samples dtype gain offset, fk) ->
  exists st' array ch,
    read_column long ver i st f1 = Ok (st', fk)
    /\ sigs_memmap st' = sigs_memmap st ++ [array]
    /\ sig_channels st' = sig_channels st ++ [ch]
    /\ array = mk_memmap (BigEndian, dtype) (position fk) 0
    /\ mm_len array = 0%nat
    /\ nbytes long array = 0%nat
    /\ ch_id ch = i
    /\ (ver <> 1 ->
        forall n_points time_type,
          read_column_kind long ver 0 n_points time_type
          = read_column_kind long ver 0 0 time_type).
Proof.
  intros Hpre Hrange Hne Hdone Hh Hk.
  assert (Hinit : inside (mkStructFile BigEndian file 0)) by (unfold inside; simpl; lia).
  destruct (preserves_read_preamble _ Hpre) as (R0 & O0 & I0).
  destruct (preserves_read_columns _ _ _ _ _ Hdone) as (R1 & O1 & I1).
  destruct (preserves_read_column_header _ _ Hh) as (R2 & O2 & I2).
  destruct (preserves_read_column_kind _ _ _ _ _ _ Hk) as (R3 & O3 & I3).
  assert (Hin : inside fk) by auto.
  assert (Hord : byte_order fk = BigEndian) by (simpl in *; congruence).
  assert (Hb : time_bound st)
    by (eapply read_columns_time_bound; [exact Hdone | left; exact Hne]).
  destruct Hb as (period & rate & Hp & Hr).
  assert (Hmap : map_array long dtype 0 fk
                 = Ok (mk_memmap (BigEndian, dtype) (position fk) 0, fk)).
  { unfold map_array, tell, np_memmap, seek_cur, nbytes. simpl.
    unfold inside in Hin.
    destruct (Nat.leb_spec (position fk + 0) (length (raw fk))); [| lia].
    simpl. fold (advance fk 0). rewrite advance_0, Hord. reflexivity. }
  destruct (name_and_units title) as [name units] eqn:En.
  eexists. eexists. eexists. split.
  - unfold read_column, bind. rewrite Hh, En.
    unfold read_column_data, bind. rewrite Hk.
    eapply store_column_run; eassumption.
  - simpl. repeat split.
    intros Hver n_points time_type. unfold read_column_kind.
    destruct (Z.eqb_spec ver 1); [contradiction | reflexivity].
Qed.

(** * The decoder on the sample files *)

(** Version 1, a time array and one array of floats: one segment, one
    channel, gain 1 and offset 0. *)
Example float_file_decodes :
  summary (_parse_header 8 false float_file)
  = Ok ([1], [(1, PyInt 1, PyInt 0)],
        [NpFloat32 (S754_finite false 16383999 (-14))], [[188%nat]]).
Proof. vm_compute. reflexivity. Qed.

(** Version 4, a series of 1 ms and shorts scaled by 2.5 and offset by
    -100: the sampling rate is 1000 Hz exactly, and the raw sample 40
    rescales to 0. *)
Example scaled_file_decodes :
  summary (_parse_header 8 false scaled_file)
  = Ok ([1],
        [(1, PyFloat (decode_binary64 0x4004000000000000),
          PyFloat (decode_binary64 0xC059000000000000))],
        [PyFloat (b64_of_Z 1000)], [[96%nat]])
  /\ rescale_signal_raw_to_float (b64_of_Z 40)
       (PyFloat (decode_binary64 0x4004000000000000))
       (PyFloat (decode_binary64 0xC059000000000000))
     = Ok (S754_zero false).
Proof. split; vm_compute; reflexivity. Qed.

(** Two groups of three traces, three episodes: three segments of the same
    two channels. *)
Example three_episodes_file_decodes :
  summary (_parse_header 8 false three_episodes_file)
  = Ok ([3], [(1, PyInt 1, PyInt 0); (2, PyInt 1, PyInt 0)],
        [PyFloat (b64_of_Z 1000); PyFloat (b64_of_Z 1000)],
        [[80; 108]; [136; 164]; [192; 220]]%nat).
Proof. vm_compute. reflexivity. Qed.

(** Event indices become times relative to the start of the recording:
    with a start time of 5 s and a period of 1 ms, the indices 0 and 1000
    rescale to 0 s and 1 s. *)
Example event_times_are_relative :
  _rescale_event_timestamp sample_decoder [PyInt 0; PyInt 1000] float64
  = Ok [PyFloat (b64_of_Z 0); PyFloat (b64_of_Z 1)].
Proof. vm_compute. reflexivity. Qed.

(** * The statements on the sample files *)

(** The time axis and the rows of [legacy_file]. *)
Lemma column_zero_is_time_axis_witness :
  exists self,
    _parse_header 8 false legacy_file = Ok self
    /\ _t_start self = PyFloat (widen (decode_binary32 0))
    /\ _sampling_period self = PyFloat (widen (decode_binary32 millisecond32))
    /\ exists rows segments,
         map ch_id (signal_channels (header self)) = map Z.of_nat (seq 1 rows)
         /\ nb_segment (header self) = [segments]
         /\ Z.of_nat rows * segments = 2 - 1.
Proof.
  destruct (_parse_header 8 false legacy_file) as [self|e] eqn:E.
  2:{ vm_compute in E. discriminate E. }
  exists self. split; [reflexivity |].
  destruct (column_zero_is_time_axis 8 false legacy_file E)
    as (id & ver & cols_n & f0 & n_points & col_type & title & fh & Hpre & _ & Hh & Ht & _
        & rows & segments & H1 & H2 & H3).
  vm_compute in Hpre. inversion Hpre; subst id ver cols_n f0. clear Hpre.
  vm_compute in Hh. inversion Hh; subst n_points col_type title fh. clear Hh.
  destruct Ht as [(Hv & _)|[(_ & Hs & Hp)|(Hv & _)]];
    [discriminate Hv | | exfalso; apply Hv; reflexivity].
  split; [rewrite Hs; vm_compute; reflexivity |].
  split; [rewrite Hp; vm_compute; reflexivity |].
  exists rows, segments. auto.
Defined.

(** One more byte after the columns of [legacy_file]: the claim of C2 as
    first stated (decoding goes on and a header is produced) fails. *)
Lemma legacy_trailing_byte_stops_decoding :
  exists id f0 cols f1,
    read_preamble (mkStructFile BigEndian (legacy_file ++ [x00]) 0) = Ok ((id, 2, 2), f0)
    /\ read_columns 8 2 (py_range 2) no_columns f0 = Ok (cols, f1)
    /\ remaining f1 = [x00]
    /\ _parse_header 8 false (legacy_file ++ [x00])
       = Raise (AssertionError rest_of_the_file_not_empty).
Proof.
  do 4 eexists.
  split; [vm_compute; reflexivity |].
  split; [vm_compute; reflexivity |].
  split; vm_compute; reflexivity.
Qed.

Lemma legacy_trailing_bytes_are_fatal_witness :
  exists id f0 cols f1,
    read_preamble (mkStructFile BigEndian (legacy_file ++ [x00]) 0) = Ok ((id, 2, 2), f0)
    /\ (2 = 1 \/ 2 = 2)
    /\ read_columns 8 2 (py_range 2) no_columns f0 = Ok (cols, f1)
    /\ remaining f1 <> []
    /\ _do_the_heavy_lifting 8 true (legacy_file ++ [x00])
       = Raise (AssertionError rest_of_the_file_not_empty)
    /\ _parse_header 8 true (legacy_file ++ [x00])
       = Raise (AssertionError rest_of_the_file_not_empty).
Proof.
  do 4 eexists.
  split; [vm_compute; reflexivity |].
  split; [right; reflexivity |].
  split; [vm_compute; reflexivity |].
  split; [vm_compute; discriminate |].
  eapply legacy_trailing_bytes_are_fatal.
  - vm_compute. reflexivity.
  - right. reflexivity.
  - vm_compute. reflexivity.
  - vm_compute. discriminate.
Defined.

(** C3.  The conversion does not always leave one row per group.
    [channel_major_file] has two groups of two traces, the columns of a
    group next to each other, and two episodes.  The heuristic accepts it,
    and the conversion keeps the rows of columns 1 and 2: both are traces
    of group 0 and they agree in everything but their ids, so a repeated
    header is kept, and group 1 (columns 3 and 4) has no row. *)
Theorem conversion_keeps_a_repeated_header :
  exists self0 self m row1 row2,
    _do_the_heavy_lifting 8 false channel_major_file = Ok self0
    /\ _safe_to_treat_as_episodic self0 = Ok (true, "Can treat as episodic")
    /\ _parse_header 8 false channel_major_file = Ok self
    /\ modern (info self) = Some m
    /\ n_episodes m = 2
    /\ map fst (group_header_info_list m) = [0; 1]
    /\ columns_of_group 0 (trace_header_info_list m) = Ok [1; 2]
    /\ columns_of_group 1 (trace_header_info_list m) = Ok [3; 4]
    /\ nb_segment (header self) = [2]
    /\ signal_channels (header self) = [row1; row2]
    /\ ch_id row1 = 1
    /\ ch_id row2 = 2
    /\ same_signal_parameters row1 row2 = true
    /\ ch_name row1 = str_of "I"
    /\ map ch_name (signal_channels (header self0))
       = [str_of "I"; str_of "I"; str_of "V"; str_of "V"].
Proof.
  do 5 eexists; repeat (split; [vm_compute; reflexivity |]);
    vm_compute; reflexivity.
Qed.

Lemma episodic_conversion_witness :
  exists self0 line self,
    _do_the_heavy_lifting 8 false episodic_file = Ok self0
    /\ _safe_to_treat_as_episodic self0 = Ok (true, line)
    /\ _parse_header 8 false episodic_file = Ok self
    /\ exists m sigs rows,
         modern (info self0) = Some m
         /\ nb_segment (header self) = [n_episodes m]
         /\ signal_channels (header self) = firstn rows (signal_channels (header self0))
         /\ Z.of_nat (length (_raw_signals self)) = n_episodes m
         /\ Forall (fun segment => length segment = rows) (_raw_signals self)
         /\ concat (_raw_signals self) = sigs.
Proof.
  do 3 eexists.
  split; [vm_compute; reflexivity |].
  split; [vm_compute; reflexivity |].
  split; [vm_compute; reflexivity |].
  edestruct (episodic_conversion 8 episodic_file)
    as (m & sigs & rows & Hm & _ & Hnb & _ & _ & _ & Hrows & _ & Hlen & Hall & Hcat);
    [vm_compute; reflexivity | vm_compute; reflexivity | vm_compute; reflexivity |].
  exists m, sigs, rows. auto 8.
Defined.

Lemma differing_trace_counts_reject_witness :
  exists self m,
    _do_the_heavy_lifting 8 false uneven_groups_file = Ok self
    /\ modern (info self) = Some m
    /\ In 0 (map fst (group_header_info_list m))
    /\ In 1 (map fst (group_header_info_list m))
    /\ traces_of_group 0 (trace_header_info_list m)
       <> traces_of_group 1 (trace_header_info_list m)
    /\ _safe_to_treat_as_episodic self
       = Ok (false, "Cannot treat as episodic because groups differ in number of traces")
    /\ _parse_header 8 false uneven_groups_file = Ok self
    /\ nb_segment (header self) = [1].
Proof.
  do 2 eexists.
  split; [vm_compute; reflexivity |].
  split; [vm_compute; reflexivity |].
  split; [vm_compute; left; reflexivity |].
  split; [vm_compute; right; left; reflexivity |].
  split; [vm_compute; discriminate |].
  edestruct (differing_trace_counts_reject 8 false uneven_groups_file)
    with (g1 := 0) (g2 := 1)
    as (Hsafe & Hparse & Hseg & _);
    [vm_compute; reflexivity | vm_compute; reflexivity | vm_compute; left; reflexivity
    | vm_compute; right; left; reflexivity | vm_compute; discriminate |].
  auto.
Defined.

Lemma unknown_column_type_is_fatal_witness :
  exists id f0 st f1 n_points title fh,
    read_preamble (mkStructFile BigEndian unknown_type_file 0) = Ok ((id, 3, 2), f0)
    /\ py_range 2 = [0] ++ 1 :: []
    /\ read_columns 8 3 [0] no_columns f0 = Ok (st, f1)
    /\ read_column_header 3 f1 = Ok ((n_points, Some 99, title), fh)
    /\ ~ In 99 [9; 4; 5; 6; 7; 10]
    /\ read_column 8 3 1 st f1
       = Raise (NotImplementedError (unimplemented_column_type (Some 99)))
    /\ _parse_header 8 false unknown_type_file
       = Raise (NotImplementedError (unimplemented_column_type (Some 99))).
Proof.
  do 7 eexists.
  split; [vm_compute; reflexivity |].
  split; [reflexivity |].
  split; [vm_compute; reflexivity |].
  split; [vm_compute; reflexivity |].
  split; [simpl; lia |].
  edestruct (unknown_column_type_is_fatal 8 false unknown_type_file)
    with (done := [0]) (i := 1) (rest := @nil Z)
    as (_ & Hcol & _ & Hparse);
    [vm_compute; reflexivity | reflexivity | vm_compute; reflexivity
    | vm_compute; reflexivity | simpl; lia |].
  split; [exact Hcol | exact Hparse].
Defined.

Lemma rescale_is_multiplication_witness :
  let p := decode_binary64 millisecond64 in
  _rescale_event_timestamp sample_decoder [PyInt 0; PyInt 1000] float64
  = Ok [PyFloat (SFmul 53 1024 (b64_of_Z 0) p); PyFloat (SFmul 53 1024 (b64_of_Z 1000) p)]
  /\ _rescale_epoch_duration sample_decoder [PyInt 0; PyInt 1000] float32
     = Ok [NpFloat32 (SFmul 24 128 (b32_of_Z 0) (b32_of_b64 p));
           NpFloat32 (SFmul 24 128 (b32_of_Z 1000) (b32_of_b64 p))]
  /\ _rescale_epoch_duration sample_decoder [PyFloat (b64_of_Z 500)] float32
     = Ok [NpFloat32 (SFmul 24 128 (b32_of_b64 (b64_of_Z 500)) (b32_of_b64 p))].
Proof.
  intros p.
  assert (Hp : to_float64 (_sampling_period sample_decoder) = Some p) by reflexivity.
  assert (Hts : map to_float64 [PyInt 0; PyInt 1000] = map Some [b64_of_Z 0; b64_of_Z 1000])
    by reflexivity.
  assert (Hzs : Forall (fun z => - 2 ^ 63 <= z < 2 ^ 63) [0; 1000])
    by (repeat constructor; lia).
  destruct (@rescale_is_multiplication sample_decoder [PyInt 0; PyInt 1000]
              [b64_of_Z 0; b64_of_Z 1000] [0; 1000] [b64_of_Z 500] p Hp Hts Hzs)
    as (H1 & _ & _ & H4 & _ & H6 & _).
  split; [exact H1 |]. split; [exact H4 | exact H6].
Defined.

Lemma unscaled_kinds_have_unit_gain_witness :
  let st := fst (after_time_column episodic_file) in
  let f := snd (after_time_column episodic_file) in
  exists n_points title fh st' f',
    1 <> 0
    /\ read_column_header 3 f = Ok ((n_points, Some 4, title), fh)
    /\ read_column 8 3 1 st f = Ok (st', f')
    /\ exists ch,
         sig_channels st' = sig_channels st ++ [ch]
         /\ ch_gain ch = PyInt 1 /\ ch_offset ch = PyInt 0.
Proof.
  intros st f. do 5 eexists.
  split; [discriminate |].
  split; [vm_compute; reflexivity |].
  split; [vm_compute; reflexivity |].
  edestruct unscaled_kinds_have_unit_gain
    with (long := 8%nat) (format_ver := 3) (i := 1) (st := st) (f := f)
    as (ch & Hrows & Hunit & _);
    [discriminate | vm_compute; reflexivity | vm_compute; reflexivity |].
  exists ch. split; [exact Hrows |].
  destruct Hunit as (Hg & Ho & _); [| auto].
  right. split; [lia | simpl; auto].
Defined.

(** The claim of C9 as first stated (a column of no points is read without
    error) fails for the time column of version 1, whose first value is the
    start time: reading it raises [IndexError]. *)
Lemma empty_time_array_stops_decoding :
  exists id f0 title fh,
    read_preamble (mkStructFile BigEndian legacy_file_without_times 0) = Ok ((id, 1, 1), f0)
    /\ read_column_header 1 f0 = Ok ((0, None, title), fh)
    /\ read_column 8 1 0 no_columns f0 = Raise IndexError
    /\ _parse_header 8 false legacy_file_without_times = Raise IndexError.
Proof.
  do 4 eexists.
  split; [vm_compute; reflexivity |].
  split; [vm_compute; reflexivity |].
  split; vm_compute; reflexivity.
Qed.

Lemma empty_column_is_legal_witness :
  exists id f0 st f1 title fh gain offset fk,
    read_preamble (mkStructFile BigEndian empty_column_file 0) = Ok ((id, 3, 2), f0)
    /\ py_range 2 = [0] ++ 1 :: []
    /\ [0] <> []
    /\ read_columns 8 3 [0] no_columns f0 = Ok (st, f1)
    /\ read_column_header 3 f1 = Ok ((0, Some 4, title), fh)
    /\ read_column_kind 8 3 1 0 (Some 4) fh = Ok (samples Nh gain offset, fk)
    /\ exists st' array ch,
         read_column 8 3 1 st f1 = Ok (st', fk)
         /\ sigs_memmap st' = sigs_memmap st ++ [array]
         /\ sig_channels st' = sig_channels st ++ [ch]
         /\ mm_len array = 0%nat.
Proof.
  do 9 eexists.
  split; [vm_compute; reflexivity |].
  split; [reflexivity |].
  split; [discriminate |].
  split; [vm_compute; reflexivity |].
  split; [vm_compute; reflexivity |].
  split; [vm_compute; reflexivity |].
  edestruct (empty_column_is_legal 8 empty_column_file)
    with (done := [0]) (i := 1) (rest := @nil Z)
    as (st' & array & ch & Hcol & Hsigs & Hrows & _ & Hlen & _ & _ & _);
    [vm_compute; reflexivity | reflexivity | discriminate | vm_compute; reflexivity
    | vm_compute; reflexivity | vm_compute; reflexivity |].
  exists st', array, ch. auto.
Defined.

Lemma forced_single_segment_witness :
  exists self,
    _parse_header 8 true episodic_file = Ok self
    /\ _parse_header 8 true episodic_file = _do_the_heavy_lifting 8 true episodic_file
    /\ force_single_segment self = true
    /\ nb_segment (header self) = [1].
Proof.
  destruct (_parse_header 8 true episodic_file) as [self|e] eqn:E.
  2:{ vm_compute in E. discriminate E. }
  exists self. split; [reflexivity |].
  destruct (forced_single_segment 8 episodic_file) as (Heq & Hall).
  rewrite E in Heq, Hall.
  destruct (Hall self eq_refl) as (Hf & Hseg & _).
  auto.
Defined.

(** * Further properties of the decoder *)

(** ** Reading fields *)



Lemma byte_N_zero b : byte_N b = 0%N -> b = x00.
Proof.
  unfold byte_N. intros H.
  pose proof (Byte.of_to_N b) as E. rewrite H in E. simpl in E. congruence.
Qed.

Lemma byte_N_bound b : 0 <= Z.of_N (byte_N b) < 256.
Proof.
  unfold byte_N. pose proof (Byte.to_N_bounded b). lia.
Qed.

(** X2.  [read_bool] consumes four bytes and answers [False] exactly when
    all four are zero: any other value, not only 1, is [True].  With fewer
    than four bytes left it raises [struct.error]. *)
Theorem read_bool_spec (f : StructFile) :
  match remaining f with
  | b0 :: b1 :: b2 :: b3 :: _ =>
      read_bool f = Ok (negb (forallb (Byte.eqb x00) [b0; b1; b2; b3]), advance f 4)
  | _ => read_bool f = Raise StructError
  end.
Proof.
  unfold read_bool, bind. rewrite read_and_unpack_l.
  destruct (remaining f) as [|b0 [|b1 [|b2 [|b3 t]]]]; try reflexivity.
  cbn [length Nat.leb firstn]. unfold ret. do 2 f_equal.
  assert (Hu : forall o, (to_signed 32 (uint_of o [b0; b1; b2; b3]) =? 0)
                         = forallb (Byte.eqb x00) [b0; b1; b2; b3]).
  { intros o.
    pose proof (byte_N_bound b0). pose proof (byte_N_bound b1).
    pose proof (byte_N_bound b2). pose proof (byte_N_bound b3).
    destruct (forallb (Byte.eqb x00) [b0; b1; b2; b3]) eqn:E.
    - simpl in E. rewrite !andb_true_iff in E. destruct E as (E0 & E1 & E2 & E3 & _).
      apply Byte.byte_dec_bl in E0, E1, E2, E3. subst. destruct o; reflexivity.
    - apply Z.eqb_neq. intros Hz.
      assert (Hall : Z.of_N (byte_N b0) = 0 /\ Z.of_N (byte_N b1) = 0
                     /\ Z.of_N (byte_N b2) = 0 /\ Z.of_N (byte_N b3) = 0).
      { unfold to_signed in Hz. destruct o; simpl in Hz;
          match type of Hz with (if ?c then _ else _) = _ => destruct c eqn:Ec end;
          try (apply Z.ltb_lt in Ec); try (apply Z.ltb_ge in Ec); lia. }
      destruct Hall as (H0' & H1' & H2' & H3').
      assert (b0 = x00) by (apply byte_N_zero; lia).
      assert (b1 = x00) by (apply byte_N_zero; lia).
      assert (b2 = x00) by (apply byte_N_zero; lia).
      assert (b3 = x00) by (apply byte_N_zero; lia).
      subst. simpl in E. discriminate. }
  rewrite Hu. reflexivity.
Qed.

Lemma append_assoc_s (a b c : string) : ((a ++ b) ++ c = a ++ (b ++ c))%string.
Proof. induction a as [|x a IH]; simpl; [reflexivity | rewrite IH; reflexivity]. Qed.

Lemma replace_app c by_ a b :
  replace c by_ (a ++ b)%string = (replace c by_ a ++ replace c by_ b)%string.
Proof.
  induction a as [|x a IH]; simpl; [reflexivity |].
  destruct (Ascii.eqb x c); simpl; rewrite IH; [| reflexivity].
  rewrite append_assoc_s. reflexivity.
Qed.

Lemma replace_absent c by_ s :
  forallb (fun a => negb (Ascii.eqb a c)) (list_ascii_of_string s) = true ->
  replace c by_ s = s.
Proof.
  induction s as [|x s IH]; simpl; [reflexivity |].
  intros H. apply andb_prop in H. destruct H as [Hx Hs].
  destruct (Ascii.eqb x c); [discriminate |]. rewrite IH by assumption. reflexivity.
Qed.

Lemma split_on_app c p x :
  forallb (fun a => negb (Ascii.eqb a c)) (list_ascii_of_string p) = true ->
  split_on c (p ++ String c x)%string = p :: split_on c x.
Proof.
  induction p as [|a p IH]; simpl.
  - intros _. rewrite Ascii.eqb_refl. reflexivity.
  - intros H. apply andb_prop in H. destruct H as [Ha Hp].
    destruct (Ascii.eqb a c); [discriminate |]. rewrite IH by assumption. reflexivity.
Qed.

Lemma split_on_absent c p :
  forallb (fun a => negb (Ascii.eqb a c)) (list_ascii_of_string p) = true ->
  split_on c p = [p].
Proof.
  induction p as [|a p IH]; simpl; [reflexivity |].
  intros H. apply andb_prop in H. destruct H as [Ha Hp].
  destruct (Ascii.eqb a c); [discriminate |]. rewrite IH by assumption. reflexivity.
Qed.

Lemma plain_format_absent fmt :
  plain_format fmt = true ->
  forallb (fun a => negb (Ascii.eqb a "S")) (list_ascii_of_string fmt) = true
  /\ forallb (fun a => negb (Ascii.eqb a "Z")) (list_ascii_of_string fmt) = true
  /\ forallb (fun a => negb (Ascii.eqb a ",")) (list_ascii_of_string fmt) = true.
Proof.
  unfold plain_format. induction fmt as [|x s IH]; simpl; [auto |].
  intros H. apply andb_prop in H. destruct H as [Hx Hs].
  destruct (IH Hs) as (-> & -> & ->).
  destruct (Ascii.eqb x "S"), (Ascii.eqb x "Z"), (Ascii.eqb x ","); try discriminate.
  auto.
Qed.

Lemma plain_format_not_special fmt :
  plain_format fmt = true -> String.eqb fmt "S" = false /\ String.eqb fmt "Z" = false.
Proof.
  intros H. split.
  - destruct (String.eqb_spec fmt "S") as [->|]; [discriminate | reflexivity].
  - destruct (String.eqb_spec fmt "Z") as [->|]; [discriminate | reflexivity].
Qed.

Lemma collapse_ret (data : list value) :
  match data with
  | [v] => ret (Scalar v)
  | _ => ret (Tuple data)
  end = ret (collapse data).
Proof. destruct data as [|v [|w t]]; reflexivity. Qed.

Lemma items_collapse data : items (collapse data) = data.
Proof. destruct data as [|v [|w t]]; reflexivity. Qed.

(** The values already read are carried along unchanged. *)
Lemma read_subfmts_acc fmts :
  forall data f,
    read_subfmts fmts data f
    = match read_subfmts fmts [] f with
      | Ok (vs, f') => Ok (data ++ vs, f')
      | Raise e => Raise e
      end.
Proof.
  induction fmts as [|subfmt rest IH]; intros data f; simpl.
  - unfold ret. rewrite app_nil_r. reflexivity.
  - destruct (String.eqb subfmt "S"); [| destruct (String.eqb subfmt "Z")]; unfold bind.
    + destruct (read_string f) as [[s f1]|e]; [| reflexivity].
      rewrite IH. rewrite (IH ([] ++ [PyStr s])).
      destruct (read_subfmts rest [] f1) as [[vs f2]|e]; [| reflexivity].
      simpl. rewrite <- app_assoc. reflexivity.
    + destruct (read_bool f) as [[b f1]|e]; [| reflexivity].
      rewrite IH. rewrite (IH ([] ++ [PyBool b])).
      destruct (read_subfmts rest [] f1) as [[vs f2]|e]; [| reflexivity].
      simpl. rewrite <- app_assoc. reflexivity.
    + destruct (read_and_unpack subfmt f) as [[ws f1]|e]; [| reflexivity].
      rewrite IH. rewrite (IH ([] ++ ws)).
      destruct (read_subfmts rest [] f1) as [[vs f2]|e]; [| reflexivity].
      simpl. rewrite <- app_assoc. reflexivity.
Qed.

Lemma read_f_unfold fmt f :
  read_f fmt f
  = match read_subfmts (split_on "," (replace "Z" ",Z," (replace "S" ",S," fmt))) [] f with
    | Ok (data, f') => Ok (collapse data, f')
    | Raise e => Raise e
    end.
Proof.
  unfold read_f, read_f_at, bind, ret at 1.
  destruct (read_subfmts _ [] f) as [[data f']|e]; [| reflexivity].
  rewrite collapse_ret. reflexivity.
Qed.

(** X3.  On a format without ['S'], ['Z'] or a comma, [read_f] is
    [read_and_unpack]: one fixed-width read, whose value is returned as it
    is when there is exactly one, as a tuple otherwise. *)
Theorem read_f_plain (fmt : string) (f : StructFile) :
  plain_format fmt = true ->
  read_f fmt f = (data <- read_and_unpack fmt ;; ret (collapse data)) f.
Proof.
  intros Hp. rewrite read_f_unfold.
  destruct (plain_format_absent _ Hp) as (HS & HZ & HC).
  destruct (plain_format_not_special _ Hp) as (NS & NZ).
  rewrite (@replace_absent "S" ",S," fmt HS), (@replace_absent "Z" ",Z," fmt HZ).
  rewrite split_on_absent by assumption.
  simpl. rewrite NS, NZ. unfold bind, ret.
  destruct (read_and_unpack fmt f) as [[vs f1]|e]; reflexivity.
Qed.

(** Three unsigned bytes after a pad byte, as the colour of a trace is
    stored. *)
Lemma read_f_plain_witness :
  read_f "xBBB" (mkStructFile BigEndian [x00; x01; x02; x03] 0)
  = Ok (Tuple [PyInt 1; PyInt 2; PyInt 3], mkStructFile BigEndian [x00; x01; x02; x03] 4).
Proof.
  rewrite read_f_plain by reflexivity. reflexivity.
Defined.

(** X4.  [read_f] reads its fields from left to right: the plain codes
    before the first ['S'] or ['Z'] in one fixed-width read, then the
    string or the boolean, then the rest of the format; the values come
    back in that order, a single value as itself. *)
Theorem read_f_sequence (p : string) (c : ascii) (rest : string) (f : StructFile) :
  plain_format p = true ->
  c = "S"%char \/ c = "Z"%char ->
  read_f (p ++ String c rest)%string f
  = (vs <- read_and_unpack p ;;
     x <- read_special c ;;
     o <- read_f rest ;;
     ret (collapse (vs ++ x :: items o))) f.
Proof.
  intros Hp Hc. rewrite read_f_unfold.
  destruct (plain_format_absent _ Hp) as (HS & HZ & HC).
  destruct (plain_format_not_special _ Hp) as (NS & NZ).
  set (mark := fun s => replace "Z" ",Z," (replace "S" ",S," s)).
  assert (Hsplit : split_on "," (mark (p ++ String c rest)%string)
                   = p :: String c "" :: split_on "," (mark rest)).
  { unfold mark. rewrite replace_app, (@replace_absent "S" ",S," p HS).
    rewrite replace_app, (@replace_absent "Z" ",Z," p HZ).
    destruct Hc as [-> | ->]; simpl.
    - rewrite split_on_app by assumption. simpl. reflexivity.
    - rewrite split_on_app by assumption. simpl. reflexivity. }
  fold (mark (p ++ String c rest)%string). rewrite Hsplit.
  cbn [read_subfmts]. rewrite NS, NZ. unfold bind.
  destruct (read_and_unpack p f) as [[vs f1]|e]; [| reflexivity].
  unfold read_special.
  destruct Hc as [-> | ->]; simpl; unfold bind.
  - destruct (read_string f1) as [[s f2]|e]; [| reflexivity]. unfold ret at 1.
    rewrite read_subfmts_acc, (read_f_unfold rest f2). fold (mark rest).
    destruct (read_subfmts (split_on "," (mark rest)) [] f2) as [[data f3]|e]; [| reflexivity].
    unfold ret. rewrite items_collapse, <- app_assoc. reflexivity.
  - destruct (read_bool f1) as [[b f2]|e]; [| reflexivity]. unfold ret at 1.
    rewrite read_subfmts_acc, (read_f_unfold rest f2). fold (mark rest).
    destruct (read_subfmts (split_on "," (mark rest)) [] f2) as [[data f3]|e]; [| reflexivity].
    unfold ret. rewrite items_collapse, <- app_assoc. reflexivity.
Qed.

(** A short, then a string, then a short, as in the description of a
    group header. *)
Lemma read_f_sequence_witness :
  read_f "hSh" (mkStructFile BigEndian
                  [x00; x07; x00; x00; x00; x02; x00; x41; xff; xff] 0)
  = Ok (Tuple [PyInt 7; PyStr [65%N]; PyInt (-1)],
        mkStructFile BigEndian [x00; x07; x00; x00; x00; x02; x00; x41; xff; xff] 10).
Proof.
  rewrite (@read_f_sequence "h" "S"%char "h") by (try reflexivity; left; reflexivity).
  reflexivity.
Defined.

(** ** Names and units *)

Lemma py_split_word w : forall cur rest,
  no_space w = true -> py_split cur (w ++ rest) = py_split (rev w ++ cur) rest.
Proof.
  induction w as [|c w IH]; intros cur rest H; simpl in *.
  - reflexivity.
  - apply andb_prop in H. destruct H as [Hc Hw].
    destruct (py_isspace c); [discriminate |].
    rewrite IH by assumption. rewrite <- app_assoc. reflexivity.
Qed.

Lemma py_split_join (words : list str) :
  Forall (fun w => w <> [] /\ no_space w = true) words ->
  py_split [] (py_join (str_of " ") words) = words.
Proof.
  induction words as [|w rest IH]; intros H; [reflexivity |].
  inversion H as [|? ? [Hne Hw] Hrest]; subst.
  destruct rest as [|w' rest'].
  - simpl. rewrite <- (app_nil_r w) at 1. rewrite py_split_word by assumption.
    rewrite app_nil_r. simpl.
    destruct (rev w) eqn:E.
    + apply (f_equal (@rev N)) in E. rewrite rev_involutive in E. contradiction.
    + rewrite <- E, rev_involutive. reflexivity.
  - change (py_join (str_of " ") (w :: w' :: rest'))
      with (w ++ str_of " " ++ py_join (str_of " ") (w' :: rest')).
    rewrite py_split_word by assumption. rewrite app_nil_r.
    change (str_of " ") with [32%N]. cbn [app py_split].
    change (py_isspace 32) with true. cbv iota.
    specialize (IH Hrest). change (str_of " ") with [32%N] in IH. rewrite IH.
    destruct (rev w) eqn:E.
    + apply (f_equal (@rev N)) in E. rewrite rev_involutive in E. contradiction.
    + rewrite <- E, rev_involutive. reflexivity.
Qed.

Lemma py_lstrip_keep chars c t : chars c = false -> py_lstrip chars (c :: t) = c :: t.
Proof. intros H. simpl. rewrite H. reflexivity. Qed.

Lemma py_strip_parens (units : str) :
  is_paren (hd 0%N units) = false ->
  is_paren (last units 0%N) = false ->
  py_strip is_paren (lparen :: units ++ [rparen]) = units.
Proof.
  intros Hh Hl. unfold py_strip.
  change (py_lstrip is_paren (lparen :: units ++ [rparen]))
    with (py_lstrip is_paren (units ++ [rparen])).
  destruct units as [|c t]; [reflexivity |].
  simpl in Hh. cbn [app]. rewrite py_lstrip_keep by assumption.
  change (c :: t ++ [rparen]) with ((c :: t) ++ [rparen]).
  rewrite rev_app_distr. cbn [rev app].
  change (py_lstrip is_paren (rparen :: rev t ++ [c]))
    with (py_lstrip is_paren (rev t ++ [c])).
  change (rev t ++ [c]) with (rev (c :: t)).
  destruct (rev (c :: t)) as [|d r] eqn:E.
  - apply (f_equal (@rev N)) in E. rewrite rev_involutive in E. discriminate.
  - assert (Hd : d = last (c :: t) 0%N).
    { apply (f_equal (@rev N)) in E. rewrite rev_involutive in E. rewrite E.
      simpl. rewrite last_last. reflexivity. }
    rewrite py_lstrip_keep by (rewrite Hd; assumption).
    rewrite <- E, rev_involutive. reflexivity.
Qed.

(** X5.  A title made of the words of a name, one space apart, followed
    by units in parentheses, splits back into that name and those units,
    when the units hold no white space and do not themselves begin or end
    with a parenthesis. *)
Theorem title_round_trip (words : list str) (units : str) :
  Forall (fun w => w <> [] /\ no_space w = true) words ->
  no_space units = true ->
  is_paren (hd 0%N units) = false ->
  is_paren (last units 0%N) = false ->
  name_and_units (title_of words units) = (py_join (str_of " ") words, units).
Proof.
  intros Hwords Hunits Hh Hl. unfold name_and_units, title_of.
  rewrite py_split_join.
  2:{ apply Forall_app. split; [assumption |]. constructor; [| constructor].
      split; [discriminate |]. unfold no_space. simpl.
      rewrite forallb_app. unfold no_space in Hunits. rewrite Hunits. reflexivity. }
  rewrite rev_app_distr. cbn [rev app hd].
  rewrite N.eqb_refl.
  change (lparen :: units ++ [rparen]) with ((lparen :: units) ++ [rparen]) at 1.
  rewrite last_last, N.eqb_refl. cbn [andb].
  rewrite removelast_last.
  f_equal. apply py_strip_parens; assumption.
Qed.

(** "Membrane Potential (mV)". *)
Lemma title_round_trip_witness :
  name_and_units (str_of "Membrane Potential (mV)")
  = (str_of "Membrane Potential", str_of "mV").
Proof.
  apply (@title_round_trip [str_of "Membrane"; str_of "Potential"] (str_of "mV")).
  - repeat constructor; discriminate.
  - reflexivity.
  - reflexivity.
  - reflexivity.
Defined.

Lemma no_space_rev s : no_space (rev s) = no_space s.
Proof.
  unfold no_space. induction s as [|c s IH]; simpl; [reflexivity |].
  rewrite forallb_app, IH. simpl. rewrite andb_true_r. apply andb_comm.
Qed.

Lemma py_split_words s : forall cur,
  no_space cur = true ->
  Forall (fun w => w <> [] /\ no_space w = true) (py_split cur s).
Proof.
  induction s as [|c s IH]; intros cur Hcur; simpl.
  - destruct cur as [|d cur']; [constructor |].
    constructor; [| constructor]. split.
    + intros E. apply (f_equal (@rev N)) in E. rewrite rev_involutive in E. discriminate.
    + rewrite no_space_rev. assumption.
  - destruct (py_isspace c) eqn:Ec.
    + destruct cur as [|d cur'].
      * apply IH. reflexivity.
      * constructor; [| apply IH; reflexivity]. split.
        -- intros E. apply (f_equal (@rev N)) in E. rewrite rev_involutive in E. discriminate.
        -- rewrite no_space_rev. assumption.
    + apply IH. unfold no_space in *. simpl. rewrite Ec, Hcur. reflexivity.
Qed.

Lemma py_split_blank s :
  forallb py_isspace s = true -> py_split [] s = [].
Proof.
  induction s as [|c s IH]; simpl; [reflexivity |].
  intros H. apply andb_prop in H. destruct H as [Hc Hs]. rewrite Hc. auto.
Qed.

Lemma py_lstrip_suffix chars s : exists pre, s = pre ++ py_lstrip chars s.
Proof.
  induction s as [|c s [pre IH]]; simpl.
  - exists []. reflexivity.
  - destruct (chars c).
    + exists (c :: pre). simpl. f_equal. exact IH.
    + exists []. reflexivity.
Qed.

Lemma py_lstrip_head chars s c t : py_lstrip chars s = c :: t -> chars c = false.
Proof.
  induction s as [|d s IH]; simpl; [discriminate |].
  destruct (chars d) eqn:E; [exact IH |].
  intros H. inversion H. subst. exact E.
Qed.

Lemma no_space_suffix pre s : no_space (pre ++ s) = true -> no_space s = true.
Proof.
  unfold no_space. rewrite forallb_app. intros H. apply andb_prop in H. tauto.
Qed.

Lemma no_space_strip chars s : no_space s = true -> no_space (py_strip chars s) = true.
Proof.
  intros H. unfold py_strip. rewrite no_space_rev.
  destruct (py_lstrip_suffix chars (rev (py_lstrip chars s))) as [pre1 E1].
  apply (@no_space_suffix pre1). rewrite <- E1, no_space_rev.
  destruct (py_lstrip_suffix chars s) as [pre2 E2].
  apply (@no_space_suffix pre2). rewrite <- E2. exact H.
Qed.

Lemma last_after {A} (pre : list A) c t d : last (pre ++ c :: t) d = last (c :: t) d.
Proof.
  induction pre as [|x pre IH]; [reflexivity |].
  simpl app. rewrite <- IH. simpl. destruct (pre ++ c :: t) eqn:E; [| reflexivity].
  destruct pre; discriminate.
Qed.

Lemma py_strip_ends chars s :
  py_strip chars s <> [] ->
  chars (hd 0%N (py_strip chars s)) = false
  /\ chars (last (py_strip chars s) 0%N) = false.
Proof.
  unfold py_strip. intros Hne.
  set (inner := py_lstrip chars s) in *.
  set (outer := py_lstrip chars (rev inner)) in *.
  destruct outer as [|c t] eqn:Eo; [contradiction |].
  split.
  - (* the first character is the last one of [outer], which ends [rev inner] *)
    destruct (py_lstrip_suffix chars (rev inner)) as [pre Epre].
    fold outer in Epre. rewrite Eo in Epre.
    destruct inner as [|d inner'] eqn:Ei.
    { simpl in Epre. destruct pre; discriminate. }
    assert (Hd : chars d = false) by (eapply py_lstrip_head; exact Ei).
    assert (Hlast : last (c :: t) 0%N = d).
    { assert (E : last (pre ++ c :: t) 0%N = d).
      { rewrite <- Epre. simpl. apply last_last. }
      rewrite last_after in E. exact E. }
    assert (Hhd : hd 0%N (rev (c :: t)) = last (c :: t) 0%N).
    { generalize (c :: t). intros l.
      induction l as [|x l IH] using rev_ind; [reflexivity |].
      rewrite rev_app_distr, last_last. reflexivity. }
    rewrite Hhd, Hlast. exact Hd.
  - assert (Hc : chars c = false) by (eapply py_lstrip_head; exact Eo).
    simpl. rewrite last_last. exact Hc.
Qed.

(** X6.  The units taken from a title never hold white space and never
    begin or end with a parenthesis; and a blank or empty title is its own
    name, without units. *)
Theorem units_are_clean (title : str) :
  let units := snd (name_and_units title) in
  no_space units = true
  /\ (units <> [] ->
      is_paren (hd 0%N units) = false /\ is_paren (last units 0%N) = false)
  /\ (forallb py_isspace title = true -> name_and_units title = (title, [])).
Proof.
  intros units. unfold units, name_and_units.
  pose proof (@py_split_words title [] eq_refl) as Hwords.
  split; [| split].
  - destruct (rev (py_split [] title)) as [|last_word others] eqn:E; [reflexivity |].
    destruct ((hd 0%N last_word =? lparen)%N && (last last_word 0%N =? rparen)%N);
      [| reflexivity].
    simpl. apply no_space_strip.
    assert (Hin : In last_word (py_split [] title)).
    { apply in_rev. rewrite E. left. reflexivity. }
    rewrite Forall_forall in Hwords. apply (Hwords _ Hin).
  - destruct (rev (py_split [] title)) as [|last_word others] eqn:E;
      [simpl; intros Hne; contradiction |].
    destruct ((hd 0%N last_word =? lparen)%N && (last last_word 0%N =? rparen)%N);
      [| simpl; intros Hne; contradiction].
    simpl. intros Hne. apply (@py_strip_ends is_paren last_word). exact Hne.
  - intros Hblank. rewrite (py_split_blank _ Hblank). reflexivity.
Qed.

(** ** The preamble *)

Lemma option_map_cons_some (c : N) (r : option str) (s : str) :
  option_map (cons c) r = Some s -> exists s', r = Some s' /\ s = c :: s'.
Proof. destruct r as [s'|]; simpl; intros H; inversion H; eauto. Qed.

(** A decoded text is no longer than its bytes, and as long only when every
    byte stands for itself. *)
Lemma utf8_decode_length n :
  forall bs s,
    (length bs <= n)%nat ->
    utf8_decode bs = Some s ->
    (length s <= length bs)%nat
    /\ (length s = length bs -> s = map byte_N bs).
Proof.
  induction n as [|n IH]; intros bs s Hn H.
  - destruct bs; [| simpl in Hn; lia]. inversion H. simpl. auto.
  - destruct bs as [|b0 t]; [inversion H; simpl; auto |].
    simpl in Hn. cbn [utf8_decode] in H.
    destruct (byte_N b0 <? 128)%N.
    { apply option_map_cons_some in H. destruct H as (s' & Hs' & ->).
      destruct (IH t s') as [Hle Heq]; [lia | assumption |].
      simpl. split; [lia |]. intros E. f_equal. apply Heq. lia. }
    destruct (in_range 194 223 (byte_N b0)).
    { destruct t as [|b1 t1]; [discriminate |].
      destruct (in_range 128 191 (byte_N b1)); [| discriminate].
      apply option_map_cons_some in H. destruct H as (s' & Hs' & ->).
      destruct (IH t1 s') as [Hle _]; [simpl in Hn; lia | assumption |].
      simpl. split; [lia | intros; lia]. }
    destruct (in_range 224 239 (byte_N b0)).
    { destruct t as [|b1 [|b2 t2]]; try discriminate.
      match type of H with (if ?c then _ else _) = _ => destruct c end; [| discriminate].
      apply option_map_cons_some in H. destruct H as (s' & Hs' & ->).
      destruct (IH t2 s') as [Hle _]; [simpl in Hn; lia | assumption |].
      simpl. split; [lia | intros; lia]. }
    destruct (in_range 240 244 (byte_N b0)); [| discriminate].
    destruct t as [|b1 [|b2 [|b3 t3]]]; try discriminate.
    match type of H with (if ?c then _ else _) = _ => destruct c end; [| discriminate].
    apply option_map_cons_some in H. destruct H as (s' & Hs' & ->).
    destruct (IH t3 s') as [Hle _]; [simpl in Hn; lia | assumption |].
    simpl. split; [lia | intros; lia].
Qed.

Lemma byte_N_inj a b : byte_N a = byte_N b -> a = b.
Proof.
  unfold byte_N. intros H.
  pose proof (Byte.of_to_N a) as Ea. pose proof (Byte.of_to_N b) as Eb.
  rewrite H in Ea. congruence.
Qed.

Lemma map_byte_N_inj (a b : list byte) : map byte_N a = map byte_N b -> a = b.
Proof.
  revert b. induction a as [|x a IH]; intros [|y b] H; simpl in H; try discriminate.
  - reflexivity.
  - inversion H. f_equal; [apply byte_N_inj; assumption | auto].
Qed.

(** The four bytes that decode to a four-letter identifier are its letters. *)
Lemma identifier_bytes (bs : list byte) (magic : list byte) :
  (length bs <= 4)%nat ->
  length magic = 4%nat ->
  utf8_decode bs = Some (map byte_N magic) ->
  bs = magic.
Proof.
  intros Hlen Hm H.
  destruct (@utf8_decode_length 4 bs _ Hlen H) as [Hle Heq].
  rewrite length_map in Hle, Heq.
  apply map_byte_N_inj. symmetry. apply Heq. lia.
Qed.

Lemma bytes_eqb_true a b : bytes_eqb a b = true <-> a = b.
Proof. unfold bytes_eqb. destruct (list_eq_dec Byte.byte_eq_dec a b); intuition discriminate. Qed.

Lemma str_eqb_true a b : str_eqb a b = true <-> a = b.
Proof. unfold str_eqb. destruct (list_eq_dec N.eq_dec a b); intuition discriminate. Qed.

Lemma read_int2_HH f :
  read_int2 "HH" f =
  if (4 <=? length (remaining f))%nat
  then Ok ((uint_of (byte_order f) (firstn 2 (remaining f)),
            uint_of (byte_order f) (firstn 2 (skipn 2 (remaining f)))),
           advance f 4)
  else Raise StructError.
Proof.
  unfold read_int2, read_f, read_f_at, bind. simpl. unfold bind.
  unfold read_and_unpack, read, unpack, advance. simpl.
  destruct (remaining f) as [|b0 [|b1 [|b2 [|b3 t]]]]; reflexivity.
Qed.

Lemma read_int2_ll f :
  read_int2 "ll" f =
  if (8 <=? length (remaining f))%nat
  then Ok ((sint_of (byte_order f) (firstn 4 (remaining f)),
            sint_of (byte_order f) (firstn 4 (skipn 4 (remaining f)))),
           advance f 8)
  else Raise StructError.
Proof.
  unfold read_int2, read_f, read_f_at, bind. simpl. unfold bind.
  unfold read_and_unpack, read, unpack, advance. simpl.
  destruct (remaining f) as [|b0 [|b1 [|b2 [|b3 [|b4 [|b5 [|b6 [|b7 t]]]]]]]]; reflexivity.
Qed.

Lemma read_preamble_bytes (f : StructFile) :
  let id_bytes := firstn 4 (remaining f) in
  let body := skipn 4 (remaining f) in
  read_preamble f =
    match utf8_decode id_bytes with
    | None => Raise UnicodeDecodeError
    | Some header_id =>
        if bytes_eqb id_bytes magic_legacy then
          if (length body <? 4)%nat then Raise StructError
          else
            let format_ver := uint_of (byte_order f) (firstn 2 body) in
            let n_cols := uint_of (byte_order f) (firstn 2 (skipn 2 body)) in
            if (format_ver =? 1) || (format_ver =? 2)
            then Ok ((header_id, format_ver, n_cols), advance f 8)
            else Raise (AssertionError (header_version_mismatch format_ver))
        else if bytes_eqb id_bytes magic_modern then
          if (length body <? 8)%nat then Raise StructError
          else
            let format_ver := sint_of (byte_order f) (firstn 4 body) in
            let n_cols := sint_of (byte_order f) (firstn 4 (skipn 4 body)) in
            if 3 <=? format_ver
            then Ok ((header_id, format_ver, n_cols), advance f 12)
            else Raise (AssertionError (header_version_mismatch format_ver))
        else Raise (AssertionError not_an_AxoGraph_file)
    end.
Proof.
  intros id_bytes body.
  assert (Hlen : (length id_bytes <= 4)%nat) by (unfold id_bytes; rewrite length_firstn; lia).
  unfold read_preamble. unfold bind at 1. unfold read at 1. fold id_bytes.
  unfold bind at 1. unfold lift at 1, decode.
  destruct (utf8_decode id_bytes) as [header_id|] eqn:Edec; [| reflexivity].
  set (f1 := mkStructFile (byte_order f) (raw f) (position f + length id_bytes)).
  assert (Hf1 : length id_bytes = 4%nat -> f1 = advance f 4).
  { intros E. unfold f1, advance. rewrite E. reflexivity. }
  destruct (str_eqb header_id (str_of "AxGr")) eqn:E1.
  { apply str_eqb_true in E1. subst header_id.
    assert (Hid : id_bytes = magic_legacy)
      by (apply identifier_bytes; [assumption | reflexivity | exact Edec]).
    rewrite Hid. change (bytes_eqb magic_legacy magic_legacy) with true. cbv iota.
    rewrite Hf1 by (rewrite Hid; reflexivity).
    cbn [orb]. unfold bind at 1. cbn [lift py_assert].
    change (str_eqb (str_of "AxGr") (str_of "AxGr")) with true. cbv iota.
    unfold bind at 1. rewrite read_int2_HH, remaining_advance. fold body.
    destruct (Nat.ltb_spec (length body) 4) as [Hs|Hs];
      destruct (Nat.leb_spec 4 (length body)); try lia; [reflexivity |].
    cbv zeta. change (byte_order (advance f 4)) with (byte_order f).
    unfold bind, lift, py_assert.
    destruct ((uint_of (byte_order f) (firstn 2 body) =? 1)
              || (uint_of (byte_order f) (firstn 2 body) =? 2)); [| reflexivity].
    unfold ret, advance. simpl. do 3 f_equal. lia. }
  destruct (str_eqb header_id (str_of "axgx")) eqn:E2.
  { apply str_eqb_true in E2. subst header_id.
    assert (Hid : id_bytes = magic_modern)
      by (apply identifier_bytes; [assumption | reflexivity | exact Edec]).
    rewrite Hid. change (bytes_eqb magic_modern magic_legacy) with false.
    change (bytes_eqb magic_modern magic_modern) with true. cbv iota.
    rewrite Hf1 by (rewrite Hid; reflexivity).
    cbn [orb]. unfold bind at 1. cbn [lift py_assert].
    change (str_eqb (str_of "axgx") (str_of "AxGr")) with false.
    change (str_eqb (str_of "axgx") (str_of "axgx")) with true. cbv iota.
    unfold bind at 1. rewrite read_int2_ll, remaining_advance. fold body.
    destruct (Nat.ltb_spec (length body) 8) as [Hs|Hs];
      destruct (Nat.leb_spec 8 (length body)); try lia; [reflexivity |].
    cbv zeta. change (byte_order (advance f 4)) with (byte_order f).
    unfold bind, lift, py_assert.
    destruct (3 <=? sint_of (byte_order f) (firstn 4 body)); [| reflexivity].
    unfold ret, advance. simpl. do 3 f_equal. lia. }
  cbn [orb]. unfold bind at 1. cbn [lift py_assert].
  destruct (bytes_eqb id_bytes magic_legacy) eqn:B1.
  { apply bytes_eqb_true in B1. rewrite B1 in Edec. vm_compute in Edec.
    inversion Edec. subst header_id. vm_compute in E1. discriminate. }
  destruct (bytes_eqb id_bytes magic_modern) eqn:B2.
  { apply bytes_eqb_true in B2. rewrite B2 in Edec. vm_compute in Edec.
    inversion Edec. subst header_id. vm_compute in E2. discriminate. }
  reflexivity.
Qed.

(** X7.  The preamble, byte for byte.  The first four bytes (fewer at the
    end of the file) must decode as UTF-8, else [UnicodeDecodeError]; they
    must be ['AxGr'] or ['axgx'], else the assertion on the identifier
    fails.  After ['AxGr'] come the version and the number of columns as
    two unsigned shorts, and the version must be 1 or 2; after ['axgx'] come
    two signed longs, and the version must be at least 3; a version that
    does not fit its identifier fails the assertion on the version, a file
    too short for the two numbers raises [struct.error].  On success 8 or
    12 bytes have been consumed. *)
Theorem read_preamble_spec (f : StructFile) :
  let id_bytes := firstn 4 (remaining f) in
  let body := skipn 4 (remaining f) in
  read_preamble f =
    match utf8_decode id_bytes with
    | None => Raise UnicodeDecodeError
    | Some header_id =>
        if bytes_eqb id_bytes magic_legacy then
          if (length body <? 4)%nat then Raise StructError
          else
            let format_ver := uint_of (byte_order f) (firstn 2 body) in
            let n_cols := uint_of (byte_order f) (firstn 2 (skipn 2 body)) in
            if (format_ver =? 1) || (format_ver =? 2)
            then Ok ((header_id, format_ver, n_cols), advance f 8)
            else Raise (AssertionError (header_version_mismatch format_ver))
        else if bytes_eqb id_bytes magic_modern then
          if (length body <? 8)%nat then Raise StructError
          else
            let format_ver := sint_of (byte_order f) (firstn 4 body) in
            let n_cols := sint_of (byte_order f) (firstn 4 (skipn 4 body)) in
            if 3 <=? format_ver
            then Ok ((header_id, format_ver, n_cols), advance f 12)
            else Raise (AssertionError (header_version_mismatch format_ver))
        else Raise (AssertionError not_an_AxoGraph_file)
    end.
Proof. exact (read_preamble_bytes f). Qed.

Lemma read_list_length {A} (read_one : M A) indices :
  forall xs f ys f',
    read_list indices read_one xs f = Ok (ys, f') ->
    length ys = (length xs + length indices)%nat.
Proof.
  induction indices as [|i rest IH]; intros xs f ys f' H; simpl in H.
  - inv_run. simpl. lia.
  - inv_step H. apply IH in H. rewrite H, length_app. simpl. lia.
Qed.

Lemma length_py_range n : length (py_range n) = Z.to_nat n.
Proof. unfold py_range. rewrite length_map, length_seq. reflexivity. Qed.

(** What the sections of version 3 and later went through. *)
Lemma read_modern_sections_ok format_ver cols period f ann f' :
  read_modern_sections format_ver cols period f = Ok (ann, f') ->
  exists m ids raws fa fb fc fd fe ff,
    details ann = Some m
    /\ n_cols m = cols
    /\ read_trace_headers format_ver (py_range (n_traces m)) [] [] fa
       = Ok ((trace_header_info_list m, ids), fb)
    /\ n_groups m = Z.of_nat (length (np_unique ids))
    /\ read_group_headers format_ver (np_unique ids) [] fc
       = Ok (group_header_info_list m, fd)
    /\ read_episode_list fe = Ok ((n_episodes m, episodes_in_review m), ff)
    /\ raw_event_timestamps ann = map PyInt raws
    /\ make_event_list (combine (event_labels ann) raws) period = Ok (event_list m)
    /\ length (epoch_list m) = Z.to_nat (n_epochs m)
    /\ make_epoch_arrays (epoch_list m) period
       = Ok (raw_epoch_timestamps ann, raw_epoch_durations ann, epoch_labels ann).
Proof.
  unfold read_modern_sections. intros H.
  inv_run.
  repeat match goal with
         | H : py_assert _ _ = Ok _ |- _ => apply py_assert_ok in H; apply Z.eqb_eq in H
         end.
  match goal with
  | H : read_list _ (read_description _ _) _ _ = Ok _ |- _ =>
      apply read_list_length in H; rewrite length_py_range in H; simpl in H
  end.
  do 9 eexists. simpl.
  repeat split; first [reflexivity | eassumption].
Qed.

Lemma read_file_info long force f self f_end :
  read_file long force f = Ok (self, f_end) ->
  exists id ver cols_n f0,
    read_preamble f = Ok ((id, ver, cols_n), f0)
    /\ header_id (info self) = id
    /\ format_ver (info self) = ver
    /\ info_t_start (info self) = _t_start self
    /\ info_sampling_period (info self) = _sampling_period self
    /\ nb_block (header self) = 1
    /\ (forall m, modern (info self) = Some m -> n_cols m = cols_n).
Proof.
  intros H. pose proof H as H'. apply read_file_ok in H'.
  destruct H' as (id & ver & cols_n & f0 & cols & f1 & ann & Hpre & _ & Htail & _ & _ & _
                  & _ & _ & _ & _ & Hmod).
  unfold read_file in H. unfold bind at 1 in H. rewrite Hpre in H.
  inv_run. unfold bound in *.
  destruct (sampling_period a); [| discriminate].
  destruct (t_start a); [| discriminate].
  inv_run. simpl in *.
  exists id, ver, cols_n, f0. repeat split; try assumption.
  intros m Hm. rewrite Hmod in Hm.
  destruct Htail as [(_ & Hend)|(_ & Hsec)].
  - apply read_legacy_end_ok in Hend. destruct Hend as [Hnone _].
    rewrite Hnone in Hm. discriminate.
  - apply read_modern_sections_ok in Hsec.
    destruct Hsec as (m' & ids & raws & fa & fb & fc & fd & fe & ff & Hd & Hn & _).
    rewrite Hd in Hm. inversion Hm. subst. reflexivity.
Qed.

Lemma parse_header_info long force file self :
  _parse_header long force file = Ok self ->
  exists self0,
    _do_the_heavy_lifting long force file = Ok self0
    /\ info self = info self0
    /\ _t_start self = _t_start self0
    /\ _sampling_period self = _sampling_period self0.
Proof.
  intros H. apply parse_header_cases in H.
  destruct H as (self0 & Hheavy & _ & [(-> & _)|(_ & _ & Hconv)]).
  - exists self0. auto.
  - apply convert_ok in Hconv.
    destruct Hconv as (m & sigs & others & _ & _ & _ & _ & _ & _ & _ & _ & Ht & Hp & Hi & _).
    exists self0. auto.
Qed.

Lemma heavy_lifting_identity long force file self :
  _do_the_heavy_lifting long force file = Ok self ->
  info_t_start (info self) = _t_start self
  /\ info_sampling_period (info self) = _sampling_period self
  /\ ((firstn 4 file = magic_legacy
       /\ header_id (info self) = str_of "AxGr"
       /\ (format_ver (info self) = 1 \/ format_ver (info self) = 2)
       /\ format_ver (info self) = uint_of BigEndian (firstn 2 (skipn 4 file))
       /\ modern (info self) = None)
      \/ (firstn 4 file = magic_modern
          /\ header_id (info self) = str_of "axgx"
          /\ 3 <= format_ver (info self)
          /\ format_ver (info self) = sint_of BigEndian (firstn 4 (skipn 4 file))
          /\ exists m,
               modern (info self) = Some m
               /\ n_cols m = sint_of BigEndian (firstn 4 (skipn 8 file)))).
Proof.
  intros Hheavy. rename self into self0.
  apply heavy_lifting_ok in Hheavy. destruct Hheavy as [f_end Hfile].
  pose proof (read_file_ok _ _ _ Hfile) as Hok.
  destruct Hok as (id' & ver' & cols' & f0' & cols & f1 & ann & Hpre' & _ & Htail & _ & _ & _
                   & _ & _ & _ & _ & Hmod).
  apply read_file_info in Hfile.
  destruct Hfile as (id & ver & cols_n & f0 & Hpre & Hid & Hver & Hts & Hsp & _ & Hcols).
  rewrite Hpre in Hpre'. inversion Hpre'; subst id' ver' cols' f0'. clear Hpre'.
  split; [assumption |]. split; [assumption |].
  rewrite read_preamble_bytes in Hpre. cbv zeta in Hpre.
  change (remaining (mkStructFile BigEndian file 0)) with file in Hpre.
  change (byte_order (mkStructFile BigEndian file 0)) with BigEndian in Hpre.
  replace (skipn 8 file) with (skipn 4 (skipn 4 file))
    by (rewrite skipn_skipn; reflexivity).
  set (v16 := uint_of BigEndian (firstn 2 (skipn 4 file))) in *.
  set (c16 := uint_of BigEndian (firstn 2 (skipn 2 (skipn 4 file)))) in *.
  set (v32 := sint_of BigEndian (firstn 4 (skipn 4 file))) in *.
  set (c32 := sint_of BigEndian (firstn 4 (skipn 4 (skipn 4 file)))) in *.
  destruct (utf8_decode (firstn 4 file)) as [s|] eqn:Edec; [| discriminate].
  destruct (bytes_eqb (firstn 4 file) magic_legacy) eqn:B1.
  { apply bytes_eqb_true in B1. left.
    rewrite B1 in Edec. vm_compute in Edec. inversion Edec; subst s; clear Edec.
    destruct (length (skipn 4 file) <? 4)%nat; [discriminate |].
    destruct ((v16 =? 1) || (v16 =? 2)) eqn:Ev; [| discriminate].
    inversion Hpre as [[Eid Ever Ecols Ef0]]. clear Hpre.
    rewrite <- Eid in Hid. rewrite <- Ever in Hver.
    assert (Hv : format_ver (info self0) = 1 \/ format_ver (info self0) = 2).
    { rewrite Hver. apply orb_prop in Ev. destruct Ev as [E|E]; apply Z.eqb_eq in E; auto. }
    split; [assumption |]. split; [assumption |]. split; [assumption |].
    split; [assumption |].
    rewrite Hmod.
    destruct Htail as [(_ & Hend)|(Hge & _)].
    - apply read_legacy_end_ok in Hend. tauto.
    - rewrite <- Ever, <- Hver in Hge. lia. }
  destruct (bytes_eqb (firstn 4 file) magic_modern) eqn:B2; [| discriminate].
  apply bytes_eqb_true in B2. right.
  rewrite B2 in Edec. vm_compute in Edec. inversion Edec; subst s; clear Edec.
  destruct (length (skipn 4 file) <? 8)%nat; [discriminate |].
  destruct (Z.leb_spec 3 v32) as [G3|]; [| discriminate].
  inversion Hpre as [[Eid Ever Ecols Ef0]]. clear Hpre.
  rewrite <- Eid in Hid. rewrite <- Ever in Hver.
  split; [assumption |]. split; [assumption |].
  split; [rewrite Hver; assumption |]. split; [assumption |].
  destruct Htail as [([E|E] & _)|(_ & Hsec)];
    [rewrite <- Ever in E; lia | rewrite <- Ever in E; lia |].
  apply read_modern_sections_ok in Hsec.
  destruct Hsec as (m & ids & raws & fa & fb & fc & fd & fe & ff & Hd & Hn & _).
  exists m. rewrite Hmod. split; [assumption |].
  rewrite Hn, <- Ecols. reflexivity.
Qed.

(** X8.  What a decoded file records about itself.  [info] repeats the
    start time and the sampling period of the decoder; its identifier and
    version are those of the first bytes of the file and fit each other
    (['AxGr'] with version 1 or 2, ['axgx'] with version 3 or later); and
    the details of the later sections are there exactly for ['axgx'], with
    the number of columns the preamble declared. *)
Theorem decoded_file_identity long force file self :
  _parse_header long force file = Ok self ->
  info_t_start (info self) = _t_start self
  /\ info_sampling_period (info self) = _sampling_period self
  /\ ((firstn 4 file = magic_legacy
       /\ header_id (info self) = str_of "AxGr"
       /\ (format_ver (info self) = 1 \/ format_ver (info self) = 2)
       /\ format_ver (info self) = uint_of BigEndian (firstn 2 (skipn 4 file))
       /\ modern (info self) = None)
      \/ (firstn 4 file = magic_modern
          /\ header_id (info self) = str_of "axgx"
          /\ 3 <= format_ver (info self)
          /\ format_ver (info self) = sint_of BigEndian (firstn 4 (skipn 4 file))
          /\ exists m,
               modern (info self) = Some m
               /\ n_cols m = sint_of BigEndian (firstn 4 (skipn 8 file)))).
Proof.
  intros H. apply parse_header_info in H.
  destruct H as (self0 & Hheavy & -> & -> & ->).
  exact (heavy_lifting_identity _ _ _ Hheavy).
Qed.

Lemma decoded_file_identity_witness :
  exists self,
    _parse_header 8 false annotated_file = Ok self
    /\ header_id (info self) = str_of "axgx"
    /\ format_ver (info self) = 3
    /\ exists m, modern (info self) = Some m /\ n_cols m = 2.
Proof.
  destruct (_parse_header 8 false annotated_file) as [self|e] eqn:E.
  2:{ vm_compute in E. discriminate E. }
  exists self. split; [reflexivity |].
  destruct (decoded_file_identity 8 false annotated_file E)
    as (_ & _ & [(Hmagic & _)|(_ & Hid & _ & Hver & m & Hm & Hcols)]).
  - vm_compute in Hmagic. discriminate Hmagic.
  - split; [exact Hid |]. split; [rewrite Hver; reflexivity |].
    exists m. split; [exact Hm | rewrite Hcols; reflexivity].
Defined.

(** ** Errors in the columns *)

(** The element of [range(n)] at a position is that position. *)
Lemma py_range_index n done i rest :
  py_range n = done ++ i :: rest -> i = Z.of_nat (length done).
Proof.
  unfold py_range. intros H.
  assert (Hlen : (length done < Z.to_nat n)%nat).
  { apply (f_equal (@length Z)) in H.
    rewrite length_map, length_seq, length_app in H. simpl in H. lia. }
  assert (Hn : nth (length done) (map Z.of_nat (seq 0 (Z.to_nat n))) (Z.of_nat 0)
               = Z.of_nat (length done)).
  { rewrite map_nth, seq_nth by assumption. reflexivity. }
  rewrite H, app_nth2, Nat.sub_diag in Hn by lia. exact Hn.
Qed.

(** An error in a column is the error of the whole decoding. *)
Lemma column_error_is_fatal long force file id ver cols_n f0 done i rest st f1 e :
  read_preamble (mkStructFile BigEndian file 0) = Ok ((id, ver, cols_n), f0) ->
  py_range cols_n = done ++ i :: rest ->
  read_columns long ver done no_columns f0 = Ok (st, f1) ->
  read_column long ver i st f1 = Raise e ->
  _do_the_heavy_lifting long force file = Raise e
  /\ _parse_header long force file = Raise e.
Proof.
  intros Hpre Hrange Hdone Hcol.
  assert (Hheavy : _do_the_heavy_lifting long force file = Raise e).
  { unfold _do_the_heavy_lifting.
    erewrite read_file_columns_raise; [reflexivity | eassumption |].
    rewrite Hrange, read_columns_app, Hdone. simpl. unfold bind. rewrite Hcol.
    reflexivity. }
  split; [exact Hheavy |].
  unfold _parse_header. rewrite Hheavy. reflexivity.
Qed.

(** X10.  From version 3 on, a series (column type 9) anywhere but in the
    first column stops the decoding: once its first value and increment
    have been read, [NotImplementedError] is raised (or the error of that
    read, if it fails), and no header is produced. *)
Theorem series_only_in_first_column long force file id ver cols_n f0
    done i rest st f1 n_points title fh :
  read_preamble (mkStructFile BigEndian file 0) = Ok ((id, ver, cols_n), f0) ->
  py_range cols_n = done ++ i :: rest ->
  done <> [] ->
  read_columns long ver done no_columns f0 = Ok (st, f1) ->
  read_column_header ver f1 = Ok ((n_points, Some 9, title), fh) ->
  let outcome :=
    match read_series "dd" fh with
    | Ok _ => NotImplementedError series_only_for_first_column
    | Raise e => e
    end in
  read_column long ver i st f1 = Raise outcome
  /\ _do_the_heavy_lifting long force file = Raise outcome
  /\ _parse_header long force file = Raise outcome.
Proof.
  intros Hpre Hrange Hne Hdone Hh outcome.
  pose proof (read_column_header_typed _ _ Hh) as Hver.
  assert (Hi : i <> 0).
  { rewrite (@py_range_index _ _ _ _ Hrange). destruct done; [contradiction | simpl; lia]. }
  assert (Hcol : read_column long ver i st f1 = Raise outcome).
  { unfold read_column, bind. rewrite Hh.
    destruct (name_and_units title) as [name units].
    unfold read_column_data, read_column_kind, bind.
    destruct (Z.eqb_spec ver 1); [lia |].
    destruct (Z.eqb_spec ver 2); [lia |].
    destruct (Z.leb_spec 3 ver); [| lia].
    simpl. unfold outcome.
    destruct (read_series "dd" fh) as [[[first_value increment] fs]|e]; [| reflexivity].
    destruct (Z.eqb_spec i 0); [contradiction | reflexivity]. }
  split; [exact Hcol |].
  eapply column_error_is_fatal; eassumption.
Qed.

Lemma series_only_in_first_column_witness :
  _parse_header 8 false series_twice_file
  = Raise (NotImplementedError series_only_for_first_column).
Proof.
  destruct (read_preamble (mkStructFile BigEndian series_twice_file 0))
    as [[[[id ver] cols_n] f0]|e] eqn:Hpre.
  2:{ vm_compute in Hpre. discriminate Hpre. }
  assert (Hv : ver = 3 /\ cols_n = 2).
  { vm_compute in Hpre. inversion Hpre. auto. }
  destruct Hv as [-> ->].
  destruct (read_columns 8 3 [0] no_columns f0) as [[st f1]|e] eqn:Hdone.
  2:{ vm_compute in Hpre. inversion Hpre; subst f0. vm_compute in Hdone. discriminate Hdone. }
  destruct (read_column_header 3 f1) as [[[[n_points col_type] title] fh]|e] eqn:Hh.
  2:{ vm_compute in Hpre. inversion Hpre; subst f0.
      vm_compute in Hdone. inversion Hdone; subst f1.
      vm_compute in Hh. discriminate Hh. }
  assert (Ht : col_type = Some 9 /\ read_series "dd" fh <> Raise ZeroDivisionError
               /\ exists r, read_series "dd" fh = Ok r).
  { vm_compute in Hpre. inversion Hpre; subst f0.
    vm_compute in Hdone. inversion Hdone; subst f1.
    vm_compute in Hh. inversion Hh; subst. split; [reflexivity |].
    split; [vm_compute; discriminate |]. eexists. vm_compute. reflexivity. }
  destruct Ht as (-> & _ & r & Hr).
  destruct (@series_only_in_first_column 8 false series_twice_file id 3 2 f0
              [0] 1 [] st f1 n_points title fh Hpre eq_refl) as (_ & _ & Hparse);
    [discriminate | exact Hdone | exact Hh |].
  rewrite Hr in Hparse. exact Hparse.
Defined.

(** X11.  A time series (version 2, or type 9 from version 3 on) whose
    increment is zero of either sign stops the decoding with
    [ZeroDivisionError]: the frequency [1/increment] is computed for the
    debug log. *)
Theorem zero_increment_is_fatal long force file id ver cols_n f0
    n_points col_type title fh fmt first_value increment f1 :
  read_preamble (mkStructFile BigEndian file 0) = Ok ((id, ver, cols_n), f0) ->
  0 < cols_n ->
  read_column_header ver f0 = Ok ((n_points, col_type, title), fh) ->
  (ver = 2 /\ fmt = "ff") \/ (3 <= ver /\ col_type = Some 9 /\ fmt = "dd") ->
  read_float2 fmt fh = Ok ((first_value, PyFloat increment), f1) ->
  is_zero increment = true ->
  read_column long ver 0 no_columns f0 = Raise ZeroDivisionError
  /\ _do_the_heavy_lifting long force file = Raise ZeroDivisionError
  /\ _parse_header long force file = Raise ZeroDivisionError.
Proof.
  intros Hpre Hpos Hh Hkind Hread Hzero.
  assert (Hdiv : py_truediv (PyInt 1) (PyFloat increment) = Raise ZeroDivisionError).
  { unfold py_truediv. simpl. rewrite Hzero. reflexivity. }
  assert (Hseries : read_series fmt fh = Raise ZeroDivisionError).
  { unfold read_series, bind. rewrite Hread. unfold lift. rewrite Hdiv. reflexivity. }
  assert (Hcol : read_column long ver 0 no_columns f0 = Raise ZeroDivisionError).
  { unfold read_column, bind. rewrite Hh.
    destruct (name_and_units title) as [name units].
    unfold read_column_data, read_column_kind, bind.
    destruct Hkind as [(-> & ->)|(Hge & -> & ->)].
    - simpl. rewrite Hseries. reflexivity.
    - destruct (Z.eqb_spec ver 1); [lia |].
      destruct (Z.eqb_spec ver 2); [lia |].
      destruct (Z.leb_spec 3 ver); [| lia].
      simpl. rewrite Hseries. reflexivity. }
  split; [exact Hcol |].
  eapply column_error_is_fatal with (done := []) (i := 0); try eassumption.
  - rewrite py_range_pos by assumption. reflexivity.
  - reflexivity.
Qed.

Lemma zero_increment_is_fatal_witness :
  _parse_header 8 false zero_increment_file = Raise ZeroDivisionError.
Proof.
  edestruct (@zero_increment_is_fatal 8 false zero_increment_file) as (_ & _ & Hparse);
    [ vm_compute; reflexivity | vm_compute; reflexivity | vm_compute; reflexivity
    | right; split; [vm_compute; discriminate | split; reflexivity]
    | vm_compute; reflexivity | reflexivity | exact Hparse ].
Defined.

(** X12.  From version 3 on, a first column of samples (any type but the
    series) stops the decoding with [UnboundLocalError]: its array is
    mapped, and then the sampling rate of its row is asked for before any
    sampling period has been read.  (In versions 1 and 2 the first column
    is always read as the time column.) *)
Theorem first_column_must_be_time long force file id ver cols_n f0
    n_points col_type title fh dtype gain offset fk array f1 :
  read_preamble (mkStructFile BigEndian file 0) = Ok ((id, ver, cols_n), f0) ->
  0 < cols_n ->
  read_column_header ver f0 = Ok ((n_points, col_type, title), fh) ->
  read_column_kind long ver 0 n_points col_type fh = Ok (samples dtype gain offset, fk) ->
  map_array long dtype n_points fk = Ok (array, f1) ->
  3 <= ver
  /\ read_column long ver 0 no_columns f0 = Raise UnboundLocalError
  /\ _do_the_heavy_lifting long force file = Raise UnboundLocalError
  /\ _parse_header long force file = Raise UnboundLocalError.
Proof.
  intros Hpre Hpos Hh Hkind Hmap.
  assert (Hver : 3 <= ver).
  { apply read_column_kind_samples in Hkind. destruct Hkind; [contradiction | assumption]. }
  assert (Hcol : read_column long ver 0 no_columns f0 = Raise UnboundLocalError).
  { unfold read_column, bind. rewrite Hh.
    destruct (name_and_units title) as [name units].
    unfold read_column_data, bind. rewrite Hkind.
    unfold store_column, bind. rewrite Hmap. reflexivity. }
  split; [exact Hver |]. split; [exact Hcol |].
  eapply column_error_is_fatal with (done := []) (i := 0); try eassumption.
  - rewrite py_range_pos by assumption. reflexivity.
  - reflexivity.
Qed.

Lemma first_column_must_be_time_witness :
  _parse_header 8 false samples_first_file = Raise UnboundLocalError.
Proof.
  edestruct (@first_column_must_be_time 8 false samples_first_file)
    as (_ & _ & _ & Hparse);
    [ vm_compute; reflexivity | vm_compute; reflexivity | vm_compute; reflexivity
    | vm_compute; reflexivity | vm_compute; reflexivity | exact Hparse ].
Defined.

(** ** Branches that are never taken *)

Lemma ravoids_ok {A} (a : A) : ravoids (Ok a).
Proof. intros e H. discriminate. Qed.

Lemma ravoids_raise {A} e : guarded_against e = false -> ravoids (@Raise A e).
Proof. intros He e' H. inversion H. subst. exact He. Qed.

Lemma ravoids_rbind {A B} (r : result A) (k : A -> result B) :
  ravoids r -> (forall a, ravoids (k a)) -> ravoids (rbind r k).
Proof.
  intros Hr Hk e H. destruct r as [a|e0]; simpl in H.
  - exact (Hk a e H).
  - apply Hr. inversion H. reflexivity.
Qed.

Create HintDb avoid.
#[local] Hint Resolve ravoids_ok ravoids_raise : avoid.

Ltac ravoid :=
  repeat first
    [ solve [auto with avoid]
    | apply ravoids_rbind; [| intros ?]
    | match goal with
      | |- ravoids (match ?x with _ => _ end) => destruct x
      | |- ravoids (let '(_, _) := ?x in _) => destruct x
      end ].

Lemma ravoids_decode codec bs : ravoids (decode codec bs).
Proof. unfold decode. ravoid. Qed.

Lemma ravoids_py_assert b a : ravoids (py_assert b a).
Proof. unfold py_assert. ravoid. Qed.

Lemma ravoids_py_truediv a b : ravoids (py_truediv a b).
Proof. unfold py_truediv. ravoid. Qed.

Lemma ravoids_py_mul a b : ravoids (py_mul a b).
Proof. unfold py_mul. ravoid. Qed.

Lemma ravoids_py_sub a b : ravoids (py_sub a b).
Proof. unfold py_sub. ravoid. Qed.

Lemma ravoids_dict_get {K V} (eqb : K -> K -> bool) k (d : dict K V) :
  ravoids (dict_get eqb k d).
Proof. induction d as [|[k' v] t IH]; simpl; [ravoid | destruct (eqb k k'); [ravoid | exact IH]]. Qed.

#[local] Hint Resolve ravoids_decode ravoids_py_assert ravoids_py_truediv ravoids_py_mul
  ravoids_py_sub ravoids_dict_get : avoid.

Lemma ravoids_as_int o : ravoids (as_int o).
Proof. unfold as_int. ravoid. Qed.

Lemma ravoids_as_value o : ravoids (as_value o).
Proof. unfold as_value. ravoid. Qed.

Lemma ravoids_as_str o : ravoids (as_str o).
Proof. unfold as_str. ravoid. Qed.

#[local] Hint Resolve ravoids_as_int ravoids_as_value ravoids_as_str : avoid.

Lemma ravoids_get_int key d : ravoids (get_int key d).
Proof. unfold get_int. ravoid. Qed.

Lemma ravoids_bound v : ravoids (bound v).
Proof. unfold bound. ravoid. Qed.

Lemma ravoids_trace_description v : ravoids (trace_description v).
Proof. unfold trace_description. ravoid. Qed.

Lemma ravoids_group_description v : ravoids (group_description v).
Proof. unfold group_description. ravoid. Qed.

#[local] Hint Resolve ravoids_get_int ravoids_bound ravoids_trace_description
  ravoids_group_description : avoid.

Lemma ravoids_font_derived info : ravoids (font_derived info).
Proof. unfold font_derived. ravoid. Qed.

Lemma ravoids_make_event_list events period : ravoids (make_event_list events period).
Proof. induction events as [|[l i] rest IH]; simpl; ravoid. Qed.

Lemma ravoids_make_epoch_arrays epochs period : ravoids (make_epoch_arrays epochs period).
Proof. induction epochs as [|epoch rest IH]; simpl; ravoid. Qed.

Lemma ravoids_np_memmap long file dtype offset shape :
  ravoids (np_memmap long file dtype offset shape).
Proof. unfold np_memmap. ravoid. Qed.

Lemma ravoids_calcsize fmt : ravoids (calcsize fmt).
Proof. unfold calcsize. ravoid. Qed.

Lemma ravoids_unpack o fmt buffer : ravoids (unpack o fmt buffer).
Proof. unfold unpack. ravoid. Qed.

#[local] Hint Resolve ravoids_font_derived ravoids_make_event_list ravoids_make_epoch_arrays
  ravoids_np_memmap ravoids_calcsize ravoids_unpack : avoid.

Lemma avoids_ret {A} (x : A) : avoids (ret x).
Proof. intros f e H. discriminate. Qed.

Lemma avoids_raise {A} e : guarded_against e = false -> avoids (@raise A e).
Proof. intros He f e' H. inversion H. subst. exact He. Qed.

Lemma avoids_lift {A} (r : result A) : ravoids r -> avoids (lift r).
Proof.
  intros Hr f e H. unfold lift in H. destruct r; [discriminate |].
  apply Hr. inversion H. reflexivity.
Qed.

Lemma avoids_bind {A B} (m : M A) (k : A -> M B) :
  avoids m -> (forall a, avoids (k a)) -> avoids (bind m k).
Proof.
  intros Hm Hk f e H. unfold bind in H.
  destruct (m f) as [[a f1]|e0] eqn:E.
  - exact (Hk a f1 e H).
  - apply (Hm f). rewrite E. inversion H. reflexivity.
Qed.

Lemma avoids_total {A} (m : M A) : (forall f, exists r, m f = Ok r) -> avoids m.
Proof. intros Ht f e H. destruct (Ht f) as [r Hr]. congruence. Qed.

Lemma avoids_read n : avoids (read n).
Proof. apply avoids_total. intros f. eexists. reflexivity. Qed.

Lemma avoids_read_all : avoids read_all.
Proof. apply avoids_total. intros f. eexists. reflexivity. Qed.

Lemma avoids_peek {A} (g : StructFile -> A) : avoids (fun f => Ok (g f, f)).
Proof. apply avoids_total. intros f. eexists. reflexivity. Qed.

Lemma avoids_decode_here (codec : StructFile -> list byte -> option str) bs :
  avoids (fun f => lift (decode (codec f) bs) f).
Proof.
  intros f e H. unfold lift in H. destruct (decode (codec f) bs) eqn:E; [discriminate |].
  inversion H. subst. eapply ravoids_decode. exact E.
Qed.

Lemma avoids_read_and_unpack fmt : avoids (read_and_unpack fmt).
Proof.
  intros f e H. unfold read_and_unpack in H.
  destruct (calcsize fmt) as [size|e0] eqn:Ec; simpl in H.
  - destruct (unpack (byte_order f) fmt (firstn size (remaining f))) as [data|e1] eqn:Eu;
      simpl in H; [discriminate |].
    inversion H. subst. eapply ravoids_unpack. exact Eu.
  - inversion H. subst. eapply ravoids_calcsize. exact Ec.
Qed.

#[local] Hint Resolve avoids_ret avoids_raise avoids_lift avoids_read avoids_read_all
  avoids_peek avoids_read_and_unpack : avoid.

Ltac avoid :=
  repeat first
    [ solve [auto with avoid]
    | apply avoids_bind; [| intros ?]
    | match goal with
      | |- avoids (match ?x with _ => _ end) => destruct x
      | |- avoids (let '(_, _) := ?x in _) => destruct x
      end ].

Lemma avoids_read_string : avoids read_string.
Proof. unfold read_string. avoid. apply (avoids_decode_here utf_16_decoder). Qed.

Lemma avoids_read_bool : avoids read_bool.
Proof. unfold read_bool. avoid. Qed.

#[local] Hint Resolve avoids_read_string avoids_read_bool : avoid.

Lemma avoids_read_subfmts fmts : forall data, avoids (read_subfmts fmts data).
Proof. induction fmts as [|subfmt rest IH]; intros data; simpl; avoid. Qed.

#[local] Hint Resolve avoids_read_subfmts : avoid.

Lemma avoids_read_f fmt : avoids (read_f fmt).
Proof. unfold read_f, read_f_at. avoid. Qed.

#[local] Hint Resolve avoids_read_f : avoid.

Lemma avoids_read_int fmt : avoids (read_int fmt).
Proof. unfold read_int. avoid. Qed.

Lemma avoids_read_int2 fmt : avoids (read_int2 fmt).
Proof. unfold read_int2. avoid. Qed.

Lemma avoids_read_float fmt : avoids (read_float fmt).
Proof. unfold read_float. avoid. Qed.

Lemma avoids_read_float2 fmt : avoids (read_float2 fmt).
Proof. unfold read_float2. avoid. Qed.

Lemma avoids_read_bytes fmt : avoids (read_bytes fmt).
Proof. unfold read_bytes. avoid. Qed.

Lemma avoids_read_str fmt : avoids (read_str fmt).
Proof. unfold read_str. avoid. Qed.

#[local] Hint Resolve avoids_read_int avoids_read_int2 avoids_read_float
  avoids_read_float2 avoids_read_bytes avoids_read_str : avoid.

Lemma avoids_map_array long dtype n_points : avoids (map_array long dtype n_points).
Proof.
  intros f e H. unfold map_array, tell, seek_cur in H. simpl in H.
  destruct (np_memmap long (raw f) (byte_order f, dtype) (position f) n_points) eqn:E;
    simpl in H; [discriminate |].
  inversion H. subst. eapply ravoids_np_memmap. exact E.
Qed.

#[local] Hint Resolve avoids_map_array : avoid.

Lemma avoids_store_column long i n_points name units dtype gain offset st :
  avoids (store_column long i n_points name units dtype gain offset st).
Proof. unfold store_column. avoid. Qed.

Lemma avoids_read_series fmt : avoids (read_series fmt).
Proof. unfold read_series. avoid. Qed.

Lemma avoids_read_time_array long n_points : avoids (read_time_array long n_points).
Proof. unfold read_time_array. avoid. Qed.

#[local] Hint Resolve avoids_store_column avoids_read_series avoids_read_time_array : avoid.

Lemma known_version_cases format_ver :
  known_version format_ver ->
  (format_ver =? 1) || (format_ver =? 2) = true
  \/ ((format_ver =? 1) = false /\ (format_ver =? 2) = false /\ (3 <=? format_ver) = true).
Proof.
  intros [->|[->|H]]; [left; reflexivity | left; reflexivity |].
  right. repeat split; [apply Z.eqb_neq; lia | apply Z.eqb_neq; lia | apply Z.leb_le; lia].
Qed.

Lemma avoids_read_column_header format_ver :
  known_version format_ver -> avoids (read_column_header format_ver).
Proof.
  intros Hv. unfold read_column_header.
  destruct (known_version_cases Hv) as [E|(E1 & E2 & E3)].
  - rewrite E. avoid.
  - rewrite E1, E2, E3. simpl. avoid.
Qed.

Lemma avoids_read_column_kind long format_ver i n_points col_type :
  known_version format_ver ->
  avoids (read_column_kind long format_ver i n_points col_type).
Proof.
  intros Hv. unfold read_column_kind.
  destruct (Z.eqb_spec format_ver 1); [avoid |].
  destruct (Z.eqb_spec format_ver 2); [avoid |].
  destruct (Z.leb_spec 3 format_ver); [avoid |].
  destruct Hv as [?|[?|?]]; lia.
Qed.

Lemma avoids_read_column long format_ver i st :
  known_version format_ver -> avoids (read_column long format_ver i st).
Proof.
  intros Hv. unfold read_column, read_column_data.
  pose proof (avoids_read_column_header Hv).
  pose proof (fun n c => @avoids_read_column_kind long format_ver i n c Hv).
  avoid.
Qed.

Lemma avoids_read_columns long format_ver indices :
  known_version format_ver ->
  forall st, avoids (read_columns long format_ver indices st).
Proof.
  intros Hv. induction indices as [|i rest IH]; intros st; simpl.
  - avoid.
  - apply avoids_bind; [apply avoids_read_column; assumption | intros st'; apply IH].
Qed.

Lemma avoids_read_description description : forall info, avoids (read_description description info).
Proof. induction description as [|[key fmt] rest IH]; intros info; simpl; avoid. Qed.

#[local] Hint Resolve avoids_read_description : avoid.

Lemma avoids_read_trace_headers format_ver indices :
  forall traces ids, avoids (read_trace_headers format_ver indices traces ids).
Proof. induction indices as [|i rest IH]; intros traces ids; simpl; avoid. Qed.

Lemma avoids_read_group_headers format_ver group_ids :
  forall groups, avoids (read_group_headers format_ver group_ids groups).
Proof. induction group_ids as [|i rest IH]; intros groups; simpl; avoid. Qed.

Lemma avoids_read_flags indices : forall acc, avoids (read_flags indices acc).
Proof. induction indices as [|i rest IH]; intros acc; simpl; avoid. Qed.

#[local] Hint Resolve avoids_read_trace_headers avoids_read_group_headers avoids_read_flags
  : avoid.

Lemma avoids_read_episode_list : avoids read_episode_list.
Proof. unfold read_episode_list. avoid. Qed.

Lemma avoids_read_font_settings categories :
  forall acc, avoids (read_font_settings categories acc).
Proof. induction categories as [|i rest IH]; intros acc; simpl; avoid. Qed.

Lemma avoids_read_list {A} (read_one : M A) indices :
  avoids read_one -> forall xs, avoids (read_list indices read_one xs).
Proof. intros H. induction indices as [|i rest IH]; intros xs; simpl; avoid. Qed.

#[local] Hint Resolve avoids_read_episode_list avoids_read_font_settings avoids_read_list
  : avoid.

Lemma avoids_read_modern_sections format_ver cols period :
  avoids (read_modern_sections format_ver cols period).
Proof. unfold read_modern_sections. avoid. Qed.

Lemma avoids_read_legacy_end : avoids read_legacy_end.
Proof. unfold read_legacy_end. avoid. Qed.

Lemma avoids_read_preamble : avoids read_preamble.
Proof.
  intros f e H. rewrite read_preamble_bytes in H. cbv zeta in H.
  repeat match type of H with
         | match ?x with _ => _ end = _ => destruct x
         end;
    try discriminate; inversion H; reflexivity.
Qed.

Lemma read_preamble_version f id ver cols_n f0 :
  read_preamble f = Ok ((id, ver, cols_n), f0) -> known_version ver.
Proof.
  intros H. rewrite read_preamble_bytes in H. cbv zeta in H. unfold known_version.
  destruct (utf8_decode (firstn 4 (remaining f))); [| discriminate].
  destruct (bytes_eqb (firstn 4 (remaining f)) magic_legacy).
  - destruct (length (skipn 4 (remaining f)) <? 4)%nat; [discriminate |].
    match type of H with
    | (if (?a =? 1) || (?a =? 2) then _ else _) = _ =>
        destruct (Z.eqb_spec a 1); [| destruct (Z.eqb_spec a 2); [| discriminate]]
    end; simpl in H; inversion H; subst; auto.
  - destruct (bytes_eqb (firstn 4 (remaining f)) magic_modern); [| discriminate].
    destruct (length (skipn 4 (remaining f)) <? 8)%nat; [discriminate |].
    match type of H with
    | (if 3 <=? ?a then _ else _) = _ => destruct (Z.leb_spec 3 a); [| discriminate]
    end.
    inversion H; subst; auto.
Qed.

Lemma avoids_read_file long force : avoids (read_file long force).
Proof.
  intros f e H. unfold read_file in H. unfold bind at 1 in H.
  destruct (read_preamble f) as [[[[id ver] cols_n] f0]|e0] eqn:Epre.
  2:{ inversion H. subst. eapply avoids_read_preamble. exact Epre. }
  pose proof (read_preamble_version _ Epre) as Hv.
  revert H. generalize f0 e.
  change (avoids (cols <- read_columns long ver (py_range cols_n) no_columns ;;
     ann <-
       (if (ver =? 1) || (ver =? 2) then read_legacy_end
        else if 3 <=? ver then
          read_modern_sections ver cols_n (sampling_period cols)
        else raise UnboundLocalError) ;;
     let event_channels :=
       [ (str_of "AxoGraph Tags", str_of "", str_of "event");
         (str_of "AxoGraph Intervals", str_of "", str_of "epoch") ] in
     period <- lift (bound (sampling_period cols)) ;;
     start <- lift (bound (t_start cols)) ;;
     ret (mk_AxographRawIO force
            (mk_header 1 [1] (sig_channels cols) event_channels [])
            period start
            [sigs_memmap cols]
            [raw_event_timestamps ann; raw_epoch_timestamps ann]
            [None; Some (raw_epoch_durations ann)]
            [np_array_U (event_labels ann); np_array_U (epoch_labels ann)]
            (mk_info id ver start period (details ann))))).
  pose proof (@avoids_read_columns long ver (py_range cols_n) Hv no_columns).
  pose proof avoids_read_modern_sections. pose proof avoids_read_legacy_end.
  avoid.
Qed.

Lemma ravoids_columns_of_group g traces : ravoids (columns_of_group g traces).
Proof. induction traces as [|[k h] rest IH]; simpl; ravoid. Qed.

#[local] Hint Resolve ravoids_columns_of_group : avoid.

Lemma ravoids_group_columns groups traces :
  forall acc, ravoids (group_columns groups traces acc).
Proof. induction groups as [|[g h] rest IH]; intros acc; simpl; ravoid. Qed.

Lemma ravoids_np_take {A} (table : list A) index : ravoids (np_take table index).
Proof. unfold np_take. ravoid. Qed.

#[local] Hint Resolve ravoids_group_columns ravoids_np_take : avoid.

Lemma ravoids_np_take_all {A} (table : list A) indices : ravoids (np_take_all table indices).
Proof. induction indices as [|j rest IH]; simpl; ravoid. Qed.

#[local] Hint Resolve ravoids_np_take_all : avoid.

Lemma ravoids_signal_params table cols : ravoids (signal_params_for_group table cols).
Proof. unfold signal_params_for_group. ravoid. Qed.

#[local] Hint Resolve ravoids_signal_params : avoid.

Lemma ravoids_groups_uniform table by_group :
  forall acc, ravoids (groups_uniform table by_group acc).
Proof. induction by_group as [|[g c] rest IH]; intros acc; simpl; ravoid. Qed.

#[local] Hint Resolve ravoids_groups_uniform : avoid.

Lemma ravoids_safe self : ravoids (_safe_to_treat_as_episodic self).
Proof. unfold _safe_to_treat_as_episodic. ravoid. Qed.

Lemma ravoids_reshape {A} n (table : list A) : ravoids (reshape_first_row n table).
Proof. unfold reshape_first_row. ravoid. Qed.

Lemma ravoids_np_arange stop step : ravoids (np_arange stop step).
Proof. unfold np_arange. ravoid. Qed.

#[local] Hint Resolve ravoids_safe ravoids_reshape ravoids_np_arange : avoid.

Lemma ravoids_convert self : ravoids (_convert_to_multi_segment self).
Proof. unfold _convert_to_multi_segment. ravoid. Qed.

#[local] Hint Resolve ravoids_convert : avoid.

Lemma ravoids_heavy long force file : ravoids (_do_the_heavy_lifting long force file).
Proof.
  intros e H. unfold _do_the_heavy_lifting in H.
  destruct (read_file long force (mkStructFile BigEndian file 0)) as [[self f]|e0] eqn:E;
    simpl in H; [discriminate |].
  inversion H. subst. eapply avoids_read_file. exact E.
Qed.

#[local] Hint Resolve ravoids_heavy : avoid.

(** X9.  The branches that raise for an unknown header identifier or an
    unknown format version are never taken: whatever the file, neither
    [_parse_header] nor [_do_the_heavy_lifting] ends in one of those
    errors (the assertions of the preamble refuse such files first). *)
Theorem guards_are_never_reached long force file :
  match _parse_header long force file with
  | Raise e => guarded_against e = false
  | Ok _ => True
  end
  /\ match _do_the_heavy_lifting long force file with
     | Raise e => guarded_against e = false
     | Ok _ => True
     end.
Proof.
  split.
  - destruct (_parse_header long force file) as [self|e] eqn:E; [exact I |].
    revert E. generalize e. change (ravoids (_parse_header long force file)).
    unfold _parse_header. ravoid.
  - destruct (_do_the_heavy_lifting long force file) as [self|e] eqn:E; [exact I |].
    eapply ravoids_heavy. exact E.
Qed.

(** ** Where the samples are *)

Lemma forward_ret {A} (x : A) : forward (ret x).
Proof. intros f a f' H. inv_step H. lia. Qed.

Lemma forward_raise {A} e : forward (@raise A e).
Proof. intros f a f' H. discriminate. Qed.

Lemma forward_lift {A} (r : result A) : forward (lift r).
Proof. intros f a f' H. inv_step H. lia. Qed.

Lemma forward_bind {A B} (m : M A) (k : A -> M B) :
  forward m -> (forall a, forward (k a)) -> forward (bind m k).
Proof.
  intros Hm Hk f b f' H. inv_step H.
  pose proof (Hm _ _ _ H0). pose proof (Hk _ _ _ _ H). lia.
Qed.

Lemma forward_read n : forward (read n).
Proof. intros f a f' H. unfold read in H. inv_step H. simpl. lia. Qed.

Lemma forward_read_all : forward read_all.
Proof. intros f a f' H. unfold read_all in H. inv_step H. simpl. lia. Qed.

Lemma forward_peek {A} (g : StructFile -> A) : forward (fun f => Ok (g f, f)).
Proof. intros f a f' H. inv_step H. lia. Qed.

Lemma forward_decode_here (codec : StructFile -> list byte -> option str) bs :
  forward (fun f => lift (decode (codec f) bs) f).
Proof. intros f a f' H. inv_step H. lia. Qed.

Lemma forward_read_and_unpack fmt : forward (read_and_unpack fmt).
Proof.
  intros f a f' H. unfold read_and_unpack in H.
  inv_step H. inv_step H.
  destruct a1 as [buffer f1]. inv_step H. inv_step H.
  eapply forward_read; eassumption.
Qed.

Create HintDb fwd.
#[local] Hint Resolve forward_ret forward_raise forward_lift forward_read forward_read_all
  forward_peek forward_read_and_unpack : fwd.

Ltac fwd :=
  repeat first
    [ solve [auto with fwd]
    | apply forward_bind; [| intros ?]
    | match goal with
      | |- forward (match ?x with _ => _ end) => destruct x
      | |- forward (let '(_, _) := ?x in _) => destruct x
      end ].

Lemma forward_read_string : forward read_string.
Proof. unfold read_string. fwd. apply (forward_decode_here utf_16_decoder). Qed.

Lemma forward_read_bool : forward read_bool.
Proof. unfold read_bool. fwd. Qed.

#[local] Hint Resolve forward_read_string forward_read_bool : fwd.

Lemma forward_read_subfmts fmts : forall data, forward (read_subfmts fmts data).
Proof. induction fmts as [|subfmt rest IH]; intros data; simpl; fwd. Qed.

#[local] Hint Resolve forward_read_subfmts : fwd.

Lemma forward_read_f fmt : forward (read_f fmt).
Proof. unfold read_f, read_f_at. fwd. Qed.

#[local] Hint Resolve forward_read_f : fwd.

Lemma forward_read_int fmt : forward (read_int fmt).
Proof. unfold read_int. fwd. Qed.

Lemma forward_read_int2 fmt : forward (read_int2 fmt).
Proof. unfold read_int2. fwd. Qed.

Lemma forward_read_float fmt : forward (read_float fmt).
Proof. unfold read_float. fwd. Qed.

Lemma forward_read_float2 fmt : forward (read_float2 fmt).
Proof. unfold read_float2. fwd. Qed.

Lemma forward_read_bytes fmt : forward (read_bytes fmt).
Proof. unfold read_bytes. fwd. Qed.

Lemma forward_read_str fmt : forward (read_str fmt).
Proof. unfold read_str. fwd. Qed.

#[local] Hint Resolve forward_read_int forward_read_int2 forward_read_float
  forward_read_float2 forward_read_bytes forward_read_str : fwd.

Lemma forward_map_array long dtype n_points : forward (map_array long dtype n_points).
Proof.
  intros f a f' H. apply map_array_ok in H. destruct H as (_ & _ & -> & _).
  unfold advance. simpl. lia.
Qed.

#[local] Hint Resolve forward_map_array : fwd.

Lemma forward_read_column_header format_ver : forward (read_column_header format_ver).
Proof. unfold read_column_header. fwd. Qed.

Lemma forward_read_series fmt : forward (read_series fmt).
Proof. unfold read_series. fwd. Qed.

Lemma forward_read_time_array long n_points : forward (read_time_array long n_points).
Proof. unfold read_time_array. fwd. Qed.

#[local] Hint Resolve forward_read_column_header forward_read_series
  forward_read_time_array : fwd.

Lemma forward_read_column_kind long format_ver i n_points col_type :
  forward (read_column_kind long format_ver i n_points col_type).
Proof. unfold read_column_kind. fwd. Qed.

Lemma in_file_order_upto long arrays : forall from upto upto',
  in_file_order long from arrays upto -> (upto <= upto')%nat ->
  in_file_order long from arrays upto'.
Proof.
  induction arrays as [|a rest IH]; intros from upto upto' H Hle; simpl in *.
  - lia.
  - destruct H as [H1 H2]. split; [assumption | eapply IH; eassumption].
Qed.

Lemma in_file_order_snoc long arrays a : forall from upto,
  in_file_order long from arrays upto ->
  (upto <= mm_offset a)%nat ->
  in_file_order long from (arrays ++ [a]) (mm_offset a + nbytes long a).
Proof.
  induction arrays as [|b rest IH]; intros from upto H Hle; simpl in *.
  - split; lia.
  - destruct H as [H1 H2]. split; [assumption | eapply IH; eassumption].
Qed.

Lemma in_file_order_from long arrays : forall from from' upto,
  in_file_order long from arrays upto -> (from' <= from)%nat ->
  in_file_order long from' arrays upto.
Proof.
  destruct arrays as [|a rest]; intros from from' upto H Hle; simpl in *.
  - lia.
  - destruct H as [H1 H2]. split; [lia | assumption].
Qed.

Lemma read_column_laid_out long from format_ver i st f st' f' :
  i <> 0 ->
  byte_order f = BigEndian ->
  read_column long format_ver i st f = Ok (st', f') ->
  columns_laid_out long from st f ->
  columns_laid_out long from st' f'.
Proof.
  intros Hi Hord H (Horder & Hty & Hrows).
  apply read_column_ok in H.
  destruct H as (n_points & col_type & title & fh & Hh & Hd).
  apply read_column_data_ok in Hd.
  destruct Hd as [(first_value & increment & Hk & _)|(dtype & gain & offset & fk & Hk & Hs)].
  { apply read_column_kind_time in Hk. destruct Hk as (-> & _). contradiction. }
  pose proof (forward_read_column_header _ _ Hh) as P1.
  pose proof (forward_read_column_kind _ _ _ _ _ _ Hk) as P2.
  destruct (preserves_read_column_header _ _ Hh) as (_ & O1 & _).
  destruct (preserves_read_column_kind _ _ _ _ _ _ Hk) as (_ & O2 & _).
  apply store_column_ok in Hs.
  destruct Hs as (array & period & rate & Hm & Hp & Hr & ->).
  apply map_array_ok in Hm. destruct Hm as (_ & -> & -> & _).
  unfold columns_laid_out. simpl. repeat split.
  - replace (position fk + Z.to_nat n_points * itemsize long dtype)%nat
      with (mm_offset (mk_memmap (byte_order fk, dtype) (position fk) (Z.to_nat n_points))
            + nbytes long (mk_memmap (byte_order fk, dtype) (position fk) (Z.to_nat n_points)))%nat
      by reflexivity.
    eapply in_file_order_snoc; [exact Horder | simpl; lia].
  - rewrite !map_app, Hty. reflexivity.
  - intros period' Hp'. rewrite Hp in Hp'. inversion Hp'; subst period'.
    apply Forall_app. split; [apply Hrows; assumption |].
    constructor; [| constructor].
    unfold common_row. simpl. repeat split; [congruence | assumption].
Qed.

Lemma read_columns_laid_out long from format_ver indices :
  forall st f st' f',
    ~ In 0 indices ->
    byte_order f = BigEndian ->
    read_columns long format_ver indices st f = Ok (st', f') ->
    columns_laid_out long from st f ->
    columns_laid_out long from st' f'.
Proof.
  induction indices as [|i rest IH]; intros st f st' f' Hnot Hord H Hinv; simpl in H.
  - inv_run. exact Hinv.
  - inv_step H.
    destruct (preserves_read_column _ _ _ _ _ H0) as (_ & O1 & _).
    eapply IH; [| | exact H |].
    + intros Hin. apply Hnot. right. exact Hin.
    + congruence.
    + eapply read_column_laid_out; [| exact Hord | exact H0 | exact Hinv].
      intros ->. apply Hnot. left. reflexivity.
Qed.

Lemma read_preamble_position f id ver cols_n f0 :
  read_preamble f = Ok ((id, ver, cols_n), f0) ->
  (position f + 8 <= position f0)%nat.
Proof.
  intros H. rewrite read_preamble_bytes in H. cbv zeta in H.
  repeat match type of H with
         | match ?x with _ => _ end = _ => destruct x
         end;
    try discriminate; inversion H; unfold advance; simpl; lia.
Qed.

(** The columns of a decoded file. *)
Lemma file_laid_out long force file self :
  _do_the_heavy_lifting long force file = Ok self ->
  exists sigs,
    _raw_signals self = [sigs]
    /\ in_file_order long 8 sigs (length file)
    /\ map mm_dtype sigs = map ch_dtype (signal_channels (header self))
    /\ Forall (common_row (_sampling_period self)) (signal_channels (header self)).
Proof.
  intros H. apply heavy_lifting_ok in H. destruct H as [f_end H].
  apply read_file_ok in H.
  destruct H as (id & ver & cols_n & f0 & cols & f1 & ann & Hpre & Hcols & _ & Hp & _ & _
                 & _ & Htable & Hraw & _).
  exists (sigs_memmap cols). split; [assumption |].
  assert (Hinit : inside (mkStructFile BigEndian file 0)) by (unfold inside; simpl; lia).
  destruct (preserves_read_preamble _ Hpre) as (R0 & O0 & I0).
  destruct (preserves_read_columns _ _ _ _ _ Hcols) as (R1 & O1 & I1).
  pose proof (read_preamble_position _ Hpre) as Hpos8. simpl in Hpos8.
  assert (Hlay : columns_laid_out long 8 cols f1).
  { destruct (Z.ltb_spec 0 cols_n) as [Hpos|Hneg].
    2:{ rewrite py_range_nonpos in Hcols by assumption. simpl in Hcols. inv_run.
        simpl in Hp. discriminate. }
    rewrite py_range_pos in Hcols by assumption. simpl in Hcols. inv_step Hcols.
    pose proof H as Hfirst. apply read_column_first in Hfirst; [| reflexivity].
    destruct Hfirst as (_ & n_points & col_type & title & fh & first_value & increment & rate
                        & Hh & Ht & Hr & ->).
    destruct (preserves_read_column _ _ _ _ _ H) as (_ & O2 & _).
    assert (Hfwd : (position f0 <= position f)%nat).
    { pose proof (forward_read_column_header _ _ Hh) as P1.
      destruct Ht as [(_ & Ht)|[(_ & Ht)|(_ & _ & Ht)]].
      - apply forward_read_time_array in Ht. lia.
      - apply forward_read_series in Ht. lia.
      - apply forward_read_series in Ht. lia. }
    eapply read_columns_laid_out; [apply zero_not_in_seq | | exact Hcols |].
    - simpl in *. congruence.
    - unfold columns_laid_out. simpl. repeat split; [lia | constructor]. }
  destruct Hlay as (Horder & Hty & Hrows).
  repeat split.
  - eapply in_file_order_upto; [exact Horder |].
    assert (Hin : inside f1) by auto.
    unfold inside in Hin. rewrite R1, R0 in Hin. simpl in Hin. exact Hin.
  - rewrite Htable. exact Hty.
  - rewrite Htable. apply Hrows. exact Hp.
Qed.

(** The two outcomes of [_parse_header] seen as one: what was decoded, cut
    into [n] segments of [rows] arrays each ([n = 1] when the file is left
    as it is). *)
Lemma parse_header_segments long force file self :
  _parse_header long force file = Ok self ->
  exists self0 sigs rows n,
    _do_the_heavy_lifting long force file = Ok self0
    /\ _raw_signals self0 = [sigs]
    /\ length sigs = length (signal_channels (header self0))
    /\ length sigs = (n * rows)%nat
    /\ (0 < n)%nat
    /\ (0 < rows \/ n = 1)%nat
    /\ signal_channels (header self) = firstn rows (signal_channels (header self0))
    /\ _raw_signals self = chunks rows (map (fun q => q * rows)%nat (seq 0 n)) sigs
    /\ nb_segment (header self) = [Z.of_nat n]
    /\ _sampling_period self = _sampling_period self0
    /\ _t_start self = _t_start self0
    /\ info self = info self0.
Proof.
  intros H. apply parse_header_cases in H.
  destruct H as (self0 & Hheavy & _ & Hcases).
  destruct (heavy_lifting_layout _ _ _ Hheavy) as (_ & Hseg & (sigs & Hraw & Hlen) & _).
  exists self0, sigs.
  destruct Hcases as [(-> & _)|(_ & _ & Hconv)].
  - exists (length sigs), 1%nat.
    split; [assumption |]. split; [assumption |]. split; [assumption |].
    split; [lia |]. split; [lia |]. split; [right; reflexivity |].
    split; [rewrite Hlen, firstn_all; reflexivity |].
    split; [unfold chunks; simpl; rewrite firstn_all; assumption |].
    auto.
  - apply convert_ok in Hconv.
    destruct Hconv as (m & sigs' & others & _ & Hraw' & Hpos & Hmul & Hrows & Hfirst & Hnb
                       & (starts & Hstarts & Hsegs) & Ht & Hp & Hi & _).
    rewrite Hraw in Hraw'. inversion Hraw'; subst sigs' others.
    set (rows := length (signal_channels (header self))) in *.
    assert (Hsigs : length sigs = (Z.to_nat (n_episodes m) * rows)%nat) by nia.
    rewrite Hsigs, np_arange_exact in Hstarts by assumption. inv_step Hstarts.
    exists rows, (Z.to_nat (n_episodes m)).
    split; [assumption |]. split; [assumption |]. split; [assumption |].
    split; [assumption |]. split; [lia |]. split; [left; assumption |].
    split; [assumption |]. split; [assumption |].
    split; [rewrite Hnb; f_equal; lia |]. auto.
Qed.

Lemma concat_chunks {A} (rows n : nat) (sigs : list A) :
  length sigs = (n * rows)%nat ->
  (0 < rows \/ n = 1)%nat ->
  concat (chunks rows (map (fun q => q * rows)%nat (seq 0 n)) sigs) = sigs.
Proof.
  intros Hlen [Hrows|Hone].
  - apply (chunks_exact n Hrows sigs Hlen).
  - subst n. unfold chunks. simpl. rewrite app_nil_r. apply firstn_all2. lia.
Qed.

(** X13.  The sample arrays of a decoded file are regions of the file
    that follow one another in the order of the columns without
    overlapping, the first one after the preamble and the last one ending
    within the file; cutting the file into segments keeps that order. *)
Theorem arrays_are_disjoint_regions long force file self :
  _parse_header long force file = Ok self ->
  in_file_order long 8 (concat (_raw_signals self)) (length file).
Proof.
  intros H. apply parse_header_segments in H.
  destruct H as (self0 & sigs & rows & n & Hheavy & Hraw & _ & Hlen & _ & Hor & _ & Hsegs & _).
  apply file_laid_out in Hheavy.
  destruct Hheavy as (sigs' & Hraw' & Horder & _).
  rewrite Hraw in Hraw'. inversion Hraw'; subst sigs'.
  rewrite Hsegs, concat_chunks by assumption. exact Horder.
Qed.

Lemma arrays_are_disjoint_regions_witness :
  exists self,
    _parse_header 8 false three_episodes_file = Ok self
    /\ in_file_order 8 8 (concat (_raw_signals self)) (length three_episodes_file).
Proof.
  destruct (_parse_header 8 false three_episodes_file) as [self|e] eqn:E.
  2:{ vm_compute in E. discriminate E. }
  exists self. split; [reflexivity |].
  exact (arrays_are_disjoint_regions 8 false three_episodes_file E).
Defined.

(** X14.  Every row of the signal-channel table of a decoded file has the
    group id 0, the big-endian byte order and, as its sampling rate, the
    inverse of the sampling period of the file; and the arrays of the
    first segment have, one by one, the storage types of the rows. *)
Theorem rows_describe_the_arrays long force file self :
  _parse_header long force file = Ok self ->
  Forall (common_row (_sampling_period self)) (signal_channels (header self))
  /\ exists segment others,
       _raw_signals self = segment :: others
       /\ map mm_dtype segment = map ch_dtype (signal_channels (header self)).
Proof.
  intros H. apply parse_header_segments in H.
  destruct H as (self0 & sigs & rows & n & Hheavy & Hraw & _ & Hlen & Hn & _ & Htable & Hsegs
                 & _ & Hp & _).
  apply file_laid_out in Hheavy.
  destruct Hheavy as (sigs' & Hraw' & _ & Hty & Hrows).
  rewrite Hraw in Hraw'. inversion Hraw'; subst sigs'.
  split.
  - rewrite Htable, Hp. apply Forall_forall. intros ch Hin.
    rewrite Forall_forall in Hrows. apply Hrows.
    rewrite <- (firstn_skipn rows). apply in_or_app. left. exact Hin.
  - destruct n as [|n']; [lia |].
    rewrite Hsegs. unfold chunks. simpl.
    eexists. eexists. split; [reflexivity |].
    rewrite Htable, <- !firstn_map, Hty. reflexivity.
Qed.

Lemma rows_describe_the_arrays_witness :
  exists self,
    _parse_header 8 false three_episodes_file = Ok self
    /\ Forall (common_row (_sampling_period self)) (signal_channels (header self)).
Proof.
  destruct (_parse_header 8 false three_episodes_file) as [self|e] eqn:E.
  2:{ vm_compute in E. discriminate E. }
  exists self. split; [reflexivity |].
  exact (proj1 (rows_describe_the_arrays 8 false three_episodes_file E)).
Defined.

(** ** Events and epochs *)

Lemma make_epoch_arrays_length epochs period ts ds ls :
  make_epoch_arrays epochs period = Ok (ts, ds, ls) ->
  length ts = length epochs /\ length ds = length epochs /\ length ls = length epochs.
Proof.
  revert ts ds ls. induction epochs as [|epoch rest IH]; intros ts ds ls H; simpl in H.
  - inversion H. auto.
  - inv_run.
    match goal with
    | Hrest : make_epoch_arrays rest period = Ok _ |- _ =>
        destruct (IH _ _ _ Hrest) as (A1 & A2 & A3)
    end.
    simpl. repeat split; congruence.
Qed.

(** The event and epoch attributes of a decoded file. *)
Lemma read_file_events long force f self f_end :
  read_file long force f = Ok (self, f_end) ->
  exists ann,
    _raw_event_epoch_timestamps self = [raw_event_timestamps ann; raw_epoch_timestamps ann]
    /\ _raw_event_epoch_durations self = [None; Some (raw_epoch_durations ann)]
    /\ _event_epoch_labels self
       = [np_array_U (event_labels ann); np_array_U (epoch_labels ann)]
    /\ modern (info self) = details ann
    /\ (((format_ver (info self) = 1 \/ format_ver (info self) = 2)
         /\ ann = mk_annotations [] [] [] [] [] None)
        \/ (3 <= format_ver (info self)
            /\ exists cols_n fs fe,
                 read_modern_sections (format_ver (info self)) cols_n
                   (Some (_sampling_period self)) fs = Ok (ann, fe))).
Proof.
  intros H. pose proof H as H'. apply read_file_ok in H'.
  destruct H' as (id & ver & cols_n & f0 & cols & f1 & ann & Hpre & Hcols & Htail & Hp & _ & _
                  & _ & _ & _ & Hver & Hmod).
  unfold read_file in H. unfold bind at 1 in H. rewrite Hpre in H.
  unfold bind at 1 in H. rewrite Hcols in H.
  assert (Hann : (if (ver =? 1) || (ver =? 2) then read_legacy_end
                  else if 3 <=? ver
                       then read_modern_sections ver cols_n (sampling_period cols)
                       else raise UnboundLocalError) f1 = Ok (ann, f_end)).
  { destruct Htail as [([->| ->] & Hend)|(Hge & Hsec)]; try exact Hend.
    destruct (Z.eqb_spec ver 1); [lia |]. destruct (Z.eqb_spec ver 2); [lia |].
    destruct (Z.leb_spec 3 ver); [exact Hsec | lia]. }
  unfold bind at 1 in H. rewrite Hann in H.
  unfold bound in H. rewrite Hp in H.
  destruct (t_start cols) as [start|]; [| discriminate].
  cbv zeta in H. unfold bind, lift, ret in H. injection H as Hself.
  rewrite <- Hself in *. simpl in *.
  exists ann. repeat split.
  destruct Htail as [(Hv & Hend)|(Hge & Hsec)].
  - left. split; [assumption |].
    unfold read_legacy_end in Hend. inv_run. reflexivity.
  - right. split; [assumption |]. rewrite Hp in Hsec. eauto.
Qed.

Lemma parse_header_events long force file self :
  _parse_header long force file = Ok self ->
  exists self0,
    _do_the_heavy_lifting long force file = Ok self0
    /\ _raw_event_epoch_timestamps self = _raw_event_epoch_timestamps self0
    /\ _raw_event_epoch_durations self = _raw_event_epoch_durations self0
    /\ _event_epoch_labels self = _event_epoch_labels self0
    /\ info self = info self0
    /\ _sampling_period self = _sampling_period self0.
Proof.
  intros H. apply parse_header_cases in H.
  destruct H as (self0 & Hheavy & _ & [(-> & _)|(_ & _ & Hconv)]).
  - exists self0. auto 10.
  - exists self0. split; [assumption |].
    unfold _convert_to_multi_segment in Hconv.
    destruct (modern (info self0)); [| discriminate]. simpl in Hconv.
    inv_step Hconv. destruct (_raw_signals self0); [discriminate |]. simpl in Hconv.
    inv_step Hconv. inv_step Hconv. simpl. auto 10.
Qed.

(** X19.  Event channel 1 of a decoded file holds the epochs: as many
    start times as durations as labels, [n_epochs] of them from version 3
    on and none before; [_event_count] gives that number; index -1 is the
    same channel, and index 2 raises [IndexError]. *)
Theorem epochs_are_aligned long force file self block_index seg_index t_start t_stop :
  _parse_header long force file = Ok self ->
  exists starts durations labels,
    _get_event_timestamps self block_index seg_index 1 t_start t_stop
    = Ok (starts, Some durations, labels)
    /\ _get_event_timestamps self block_index seg_index (-1) t_start t_stop
       = Ok (starts, Some durations, labels)
    /\ _event_count self block_index seg_index 1 = Ok (length starts)
    /\ length durations = length starts
    /\ length labels = length starts
    /\ (forall m, modern (info self) = Some m -> length starts = Z.to_nat (n_epochs m))
    /\ (modern (info self) = None -> starts = [])
    /\ _event_count self block_index seg_index 2 = Raise IndexError
    /\ _get_event_timestamps self block_index seg_index 2 t_start t_stop = Raise IndexError.
Proof.
  intros H. apply parse_header_events in H.
  destruct H as (self0 & Hheavy & Ets & Eds & Els & Ei & _).
  apply heavy_lifting_ok in Hheavy. destruct Hheavy as [f_end Hfile].
  apply read_file_events in Hfile.
  destruct Hfile as (ann & Hts & Hds & Hls & Hmod & Hcases).
  unfold _get_event_timestamps, _event_count.
  rewrite Ets, Eds, Els, Ei, Hts, Hds, Hls, Hmod.
  exists (raw_epoch_timestamps ann), (raw_epoch_durations ann),
         (np_array_U (epoch_labels ann)).
  split; [reflexivity |]. split; [reflexivity |]. split; [reflexivity |].
  unfold np_array_U. rewrite length_map.
  destruct Hcases as [(_ & ->)|(_ & cols_n & fs & fe & Hsec)].
  - simpl. repeat split; try reflexivity. intros m Hm. discriminate.
  - apply read_modern_sections_ok in Hsec.
    destruct Hsec as (m & ids & raws & fa & fb & fc & fd & fg & fh & Hd & _ & _ & _ & _ & _ & _
                      & _ & Hn & Hep).
    apply make_epoch_arrays_length in Hep. destruct Hep as (A1 & A2 & A3).
    repeat split; congruence.
Qed.

Lemma epochs_are_aligned_witness :
  exists self starts durations labels,
    _parse_header 8 false annotated_file = Ok self
    /\ _get_event_timestamps self 0 0 1 None None = Ok (starts, Some durations, labels)
    /\ length durations = length starts
    /\ length labels = length starts.
Proof.
  destruct (_parse_header 8 false annotated_file) as [self|e] eqn:E.
  2:{ vm_compute in E. discriminate E. }
  destruct (@epochs_are_aligned 8 false annotated_file self 0 0 None None E)
    as (starts & durations & labels & Hget & _ & _ & Hd & Hl & _).
  exists self, starts, durations, labels. auto.
Defined.

Lemma read_series_floats fmt f first_value increment f' :
  read_series fmt f = Ok ((first_value, increment), f') ->
  exists x y, first_value = PyFloat x /\ increment = PyFloat y.
Proof.
  unfold read_series, read_float2. intros H. inv_step H. inv_step H0.
  repeat match type of H0 with
         | match ?x with _ => _ end _ = _ => destruct x; try discriminate
         end.
  inv_run. eauto.
Qed.

(** From version 3 on the sampling period is a Python [float]. *)
Lemma modern_period_is_float long force file self :
  _do_the_heavy_lifting long force file = Ok self ->
  3 <= format_ver (info self) ->
  exists p, _sampling_period self = PyFloat p.
Proof.
  intros H Hge. apply heavy_lifting_ok in H. destruct H as [f_end H].
  apply read_file_ok in H.
  destruct H as (id & ver & cols_n & f0 & cols & f1 & ann & _ & Hcols & _ & Hp & _ & _
                 & _ & _ & _ & Hver & _).
  destruct (columns_of_read_file _ _ _ _ Hcols Hp)
    as (_ & (n_points & col_type & title & fh & first_value & increment & fc & rate
             & _ & Ht & _ & _ & Hsp) & _).
  rewrite Hp in Hsp. inversion Hsp as [Hinc]. rewrite Hver in Hge.
  destruct Ht as [(? & _)|[(? & _)|(_ & _ & Hs)]]; [lia | lia |].
  apply read_series_floats in Hs. destruct Hs as (x & y & _ & ->). eauto.
Qed.

Lemma make_event_list_float events p :
  make_event_list events (Some (PyFloat p))
  = Ok (map (fun '(label, index) => (label, PyFloat (SFmul 53 1024 (b64_of_Z index) p)))
          events).
Proof.
  induction events as [|[label index] rest IH]; simpl; [reflexivity |].
  rewrite IH. reflexivity.
Qed.

Lemma combine_map_r {A B C} (g : B -> C) (xs : list A) : forall ys : list B,
  combine xs (map g ys) = map (fun '(x, y) => (x, g y)) (combine xs ys).
Proof.
  induction xs as [|x xs IH]; intros [|y ys]; simpl; try reflexivity.
  rewrite IH. reflexivity.
Qed.

Lemma combine_map_l {A B C} (g : A -> C) (xs : list A) : forall ys : list B,
  combine (map g xs) ys = map (fun '(x, y) => (g x, y)) (combine xs ys).
Proof.
  induction xs as [|x xs IH]; intros [|y ys]; simpl; try reflexivity.
  rewrite IH. reflexivity.
Qed.

(** X18.  The times of the events kept in [info] are what rescaling gives:
    for a decoded file of version 3 or later, the raw timestamps of event
    channel 0 rescaled to [float64] are, paired with the labels, the event
    list of [info] (as many as the shorter of the two lists), up to the
    trailing NUL characters of a title, which the array of labels does not
    keep; the channel has no durations, and [_event_count] counts the raw
    timestamps. *)
Theorem event_times_match_rescale long force file self m
    block_index seg_index t_start t_stop :
  _parse_header long force file = Ok self ->
  modern (info self) = Some m ->
  exists raws labels times,
    _get_event_timestamps self block_index seg_index 0 t_start t_stop
    = Ok (raws, None, labels)
    /\ _event_count self block_index seg_index 0 = Ok (length raws)
    /\ _rescale_event_timestamp self raws float64 = Ok times
    /\ map (fun '(title, time) => (np_str title, time)) (event_list m)
       = combine labels times
    /\ map snd (event_list m) = firstn (length (event_list m)) times
    /\ length (event_list m) = Nat.min (length labels) (length raws).
Proof.
  intros H Hm. apply parse_header_events in H.
  destruct H as (self0 & Hheavy & Ets & Eds & Els & Ei & Ep).
  rewrite Ei in Hm.
  pose proof (heavy_lifting_layout _ _ _ Hheavy) as (_ & _ & _ & _ & Hver).
  specialize (Hver _ Hm).
  destruct (modern_period_is_float _ _ _ Hheavy Hver) as [p Hp].
  apply heavy_lifting_ok in Hheavy. destruct Hheavy as [f_end Hfile].
  apply read_file_events in Hfile.
  destruct Hfile as (ann & Hts & Hds & Hls & Hmod & Hcases).
  destruct Hcases as [(_ & ->)|(_ & cols_n & fs & fe & Hsec)].
  { simpl in Hmod. congruence. }
  apply read_modern_sections_ok in Hsec.
  destruct Hsec as (m' & ids & raws & fa & fb & fc & fd & fg & fh & Hd & _ & _ & _ & _ & _
                    & Hraw & Hev & _).
  assert (m' = m) by congruence. subst m'.
  rewrite Hp, make_event_list_float in Hev. inversion Hev as [Hlist]. clear Hev.
  unfold _get_event_timestamps, _event_count, _rescale_event_timestamp.
  rewrite Ets, Eds, Els, Ep, Hts, Hds, Hls, Hraw, Hp.
  exists (map PyInt raws), (np_array_U (event_labels ann)),
         (map (fun x => PyFloat (SFmul 53 1024 x p)) (map b64_of_Z raws)).
  split; [reflexivity |]. split; [reflexivity |].
  split.
  - apply np_map_ok.
    + intros t x Ht. unfold astype, np_mul. rewrite Ht. reflexivity.
    + rewrite !map_map. reflexivity.
  - unfold np_array_U. rewrite (map_map b64_of_Z).
    set (time := fun z => PyFloat (SFmul 53 1024 (b64_of_Z z) p)).
    split; [| split].
    + rewrite combine_map_l, combine_map_r, !map_map.
      apply map_ext. intros [l z]. reflexivity.
    + rewrite map_map.
      assert (Hsnd : forall (ls : list str) (zs : list Z),
                 map (fun x => snd (let '(l, z) := x in (l, time z))) (combine ls zs)
                 = firstn (length (combine ls zs)) (map time zs)).
      { induction ls as [|l ls IH]; intros [|z zs]; simpl; try reflexivity.
        rewrite IH. reflexivity. }
      rewrite length_map. apply Hsnd.
    + rewrite !length_map, length_combine. reflexivity.
Qed.

Lemma event_times_match_rescale_witness :
  exists self m raws labels times,
    _parse_header 8 false annotated_file = Ok self
    /\ modern (info self) = Some m
    /\ _get_event_timestamps self 0 0 0 None None = Ok (raws, None, labels)
    /\ _rescale_event_timestamp self raws float64 = Ok times
    /\ map snd (event_list m) = firstn (length (event_list m)) times.
Proof.
  edestruct (@event_times_match_rescale 8 false annotated_file)
    with (block_index := 0) (seg_index := 0) (t_start := @None value) (t_stop := @None value)
    as (raws & labels & times & Hget & _ & Hres & _ & Htimes & _);
    [vm_compute; reflexivity | vm_compute; reflexivity |].
  do 5 eexists.
  split; [vm_compute; reflexivity |].
  split; [vm_compute; reflexivity |].
  split; [exact Hget |]. split; [exact Hres | exact Htimes].
Defined.

(** ** Traces, groups, episodes and fonts *)

Lemma dict_set_fresh {V} k (v : V) (d : dict Z V) :
  ~ In k (map fst d) -> dict_set Z.eqb k v d = d ++ [(k, v)].
Proof.
  induction d as [|[k' v'] t IH]; simpl; intros Hnot; [reflexivity |].
  destruct (Z.eqb_spec k k') as [->|Hne]; [exfalso; apply Hnot; left; reflexivity |].
  rewrite IH; [reflexivity |]. intros Hin. apply Hnot. right. exact Hin.
Qed.

Lemma NoDup_app_cons_l {A} (l : list A) x r : NoDup (l ++ x :: r) -> ~ In x l /\ NoDup ((l ++ [x]) ++ r).
Proof.
  intros H. split.
  - apply NoDup_remove_2 in H. intros Hin. apply H. apply in_or_app. left. exact Hin.
  - rewrite <- app_assoc. exact H.
Qed.

Lemma read_trace_headers_keys format_ver indices :
  forall traces ids f traces' ids' f',
    read_trace_headers format_ver indices traces ids f = Ok ((traces', ids'), f') ->
    NoDup (map fst traces ++ map (fun i => i + 1) indices) ->
    Forall2 group_of traces ids ->
    map fst traces' = map fst traces ++ map (fun i => i + 1) indices
    /\ Forall2 group_of traces' ids'.
Proof.
  induction indices as [|i rest IH]; intros traces ids f traces' ids' f' H Hnd Hall;
    simpl in H.
  - inv_run. simpl. rewrite app_nil_r. auto.
  - inv_step H. inv_step H. inv_step H1. inv_step H. inv_step H. inv_step H3.
    simpl in Hnd. apply NoDup_app_cons_l in Hnd. destruct Hnd as [Hfresh Hnd].
    rewrite dict_set_fresh in H by assumption.
    apply IH in H.
    + destruct H as [Hkeys Hgroups]. split; [| exact Hgroups].
      rewrite Hkeys, map_app. simpl. rewrite <- app_assoc. reflexivity.
    + rewrite map_app. simpl. exact Hnd.
    + apply Forall2_app; [exact Hall |]. constructor; [| constructor].
      unfold group_of. simpl. assumption.
Qed.

Lemma read_group_headers_keys format_ver group_ids :
  forall groups f groups' f',
    read_group_headers format_ver group_ids groups f = Ok (groups', f') ->
    NoDup (map fst groups ++ group_ids) ->
    map fst groups' = map fst groups ++ group_ids.
Proof.
  induction group_ids as [|i rest IH]; intros groups f groups' f' H Hnd; simpl in H.
  - inv_run. rewrite app_nil_r. reflexivity.
  - inv_step H. inv_step H. inv_step H1. inv_step H.
    apply NoDup_app_cons_l in Hnd. destruct Hnd as [Hfresh Hnd].
    rewrite dict_set_fresh in H by assumption.
    apply IH in H.
    + rewrite H, map_app. simpl. rewrite <- app_assoc. reflexivity.
    + rewrite map_app. simpl. exact Hnd.
Qed.

Lemma insert_unique_sorted x l :
  StronglySorted Z.lt l -> StronglySorted Z.lt (insert_unique x l).
Proof.
  induction l as [|y t IH]; simpl; intros H.
  - constructor; constructor.
  - inversion H as [|? ? Ht Hy]; subst.
    destruct (Z.ltb_spec x y) as [Hlt|Hge].
    + constructor; [exact H |]. constructor; [exact Hlt |].
      eapply Forall_impl; [| exact Hy]. intros a Ha. simpl in Ha. lia.
    + destruct (Z.eqb_spec x y) as [Heq|Hne]; [exact H |].
      constructor; [apply IH; exact Ht |].
      apply Forall_forall. intros a Ha. apply insert_unique_In in Ha.
      destruct Ha as [->|Ha]; [lia |]. rewrite Forall_forall in Hy. apply Hy. exact Ha.
Qed.

Lemma np_unique_sorted xs : StronglySorted Z.lt (np_unique xs).
Proof.
  induction xs as [|x t IH]; simpl; [constructor | apply insert_unique_sorted; exact IH].
Qed.

Lemma sorted_NoDup l : StronglySorted Z.lt l -> NoDup l.
Proof.
  induction l as [|x t IH]; intros H; [constructor |].
  inversion H as [|? ? Ht Hx]; subst. constructor; [| apply IH; exact Ht].
  intros Hin. rewrite Forall_forall in Hx. specialize (Hx _ Hin). lia.
Qed.

Lemma py_range_shift n : map (fun i => i + 1) (py_range n) = map Z.of_nat (seq 1 (Z.to_nat n)).
Proof.
  unfold py_range. rewrite <- seq_shift, !map_map. apply map_ext. intros a. lia.
Qed.

Lemma py_range_sorted n : StronglySorted Z.lt (py_range n).
Proof.
  unfold py_range. generalize 0%nat. induction (Z.to_nat n) as [|k IH]; intros start; simpl.
  - constructor.
  - constructor; [apply IH |].
    apply Forall_forall. intros a Ha. apply in_map_iff in Ha. destruct Ha as (j & <- & Hj).
    apply in_seq in Hj. lia.
Qed.

Lemma seq_from_one_sorted k : StronglySorted Z.lt (map Z.of_nat (seq 1 k)).
Proof.
  generalize 1%nat. induction k as [|k IH]; intros start; simpl.
  - constructor.
  - constructor; [apply IH |].
    apply Forall_forall. intros a Ha. apply in_map_iff in Ha. destruct Ha as (j & <- & Hj).
    apply in_seq in Hj. lia.
Qed.

Lemma Forall2_group_In traces ids :
  Forall2 group_of traces ids ->
  forall g, In g ids <-> exists entry, In entry traces /\ group_of entry g.
Proof.
  induction 1 as [|entry g0 traces ids Hg Hrest IH]; intros g; simpl.
  - split; [intros [] | intros (e & [] & _)].
  - rewrite IH. split.
    + intros [<-|(e & Hin & He)]; [exists entry; auto | exists e; auto].
    + intros (e & [<-|Hin] & He).
      * left. unfold group_of in *. congruence.
      * right. eauto.
Qed.

(** X15.  In a decoded file of version 3 or later the traces are keyed
    1, 2, ..., [n_traces]; the group headers are keyed by the distinct
    group ids of the traces, in increasing order, [n_groups] of them; so a
    group has a header exactly when some trace belongs to it. *)
Theorem groups_match_traces long force file self m :
  _parse_header long force file = Ok self ->
  modern (info self) = Some m ->
  map fst (trace_header_info_list m) = map Z.of_nat (seq 1 (Z.to_nat (n_traces m)))
  /\ n_groups m = Z.of_nat (length (group_header_info_list m))
  /\ StronglySorted Z.lt (map fst (group_header_info_list m))
  /\ (forall g,
        In g (map fst (group_header_info_list m))
        <-> exists entry, In entry (trace_header_info_list m) /\ group_of entry g).
Proof.
  intros H Hm. apply parse_header_events in H.
  destruct H as (self0 & Hheavy & _ & _ & _ & Ei & _).
  rewrite Ei in Hm.
  apply heavy_lifting_ok in Hheavy. destruct Hheavy as [f_end Hfile].
  apply read_file_events in Hfile.
  destruct Hfile as (ann & _ & _ & _ & Hmod & Hcases).
  destruct Hcases as [(_ & ->)|(_ & cols_n & fs & fe & Hsec)].
  { simpl in Hmod. congruence. }
  apply read_modern_sections_ok in Hsec.
  destruct Hsec as (m' & ids & raws & fa & fb & fc & fd & fg & fh & Hd & _ & Htr & Hng & Hgr & _).
  assert (m' = m) by congruence. subst m'.
  apply read_trace_headers_keys in Htr; [| | constructor].
  2:{ simpl. rewrite py_range_shift. apply sorted_NoDup, seq_from_one_sorted. }
  destruct Htr as [Hkeys Hgroups]. simpl in Hkeys.
  apply read_group_headers_keys in Hgr.
  2:{ simpl. apply sorted_NoDup, np_unique_sorted. }
  simpl in Hgr.
  split; [rewrite Hkeys; apply py_range_shift |].
  split; [rewrite Hng, <- (length_map fst (group_header_info_list m)), Hgr; reflexivity |].
  split; [rewrite Hgr; apply np_unique_sorted |].
  intros g. rewrite Hgr, np_unique_In. apply Forall2_group_In. exact Hgroups.
Qed.

Lemma groups_match_traces_witness :
  exists self m,
    _parse_header 8 false uneven_groups_file = Ok self
    /\ modern (info self) = Some m
    /\ n_groups m = Z.of_nat (length (group_header_info_list m))
    /\ StronglySorted Z.lt (map fst (group_header_info_list m)).
Proof.
  do 2 eexists.
  split; [vm_compute; reflexivity |].
  split; [vm_compute; reflexivity |].
  edestruct (@groups_match_traces 8 false uneven_groups_file) as (_ & Hn & Hs & _);
    [vm_compute; reflexivity | vm_compute; reflexivity |].
  split; [exact Hn | exact Hs].
Defined.

Lemma sorted_snoc l x :
  StronglySorted Z.lt l -> Forall (fun a => a < x) l -> StronglySorted Z.lt (l ++ [x]).
Proof.
  induction l as [|y t IH]; intros Hs Hall; simpl.
  - constructor; constructor.
  - inversion Hs as [|? ? Ht Hy]; subst. inversion Hall as [|? ? Hyx Htx]; subst.
    constructor; [apply IH; assumption |].
    apply Forall_app. split; [exact Hy | constructor; [exact Hyx | constructor]].
Qed.

Lemma read_flags_sorted indices :
  forall acc f res f',
    read_flags indices acc f = Ok (res, f') ->
    StronglySorted Z.lt indices ->
    StronglySorted Z.lt acc ->
    (forall a i, In a acc -> In i indices -> a < i + 1) ->
    StronglySorted Z.lt res
    /\ forall e, In e res -> In e acc \/ In (e - 1) indices.
Proof.
  induction indices as [|i rest IH]; intros acc f res f' H Hidx Hacc Hlt; simpl in H.
  - inv_run. split; [exact Hacc | auto].
  - inv_step H. inversion Hidx as [|? ? Hrest Hi]; subst.
    destruct a as [[| | |episode_bool| |]|]; try discriminate.
    apply IH in H; try assumption.
    + destruct H as [Hs Hin]. split; [exact Hs |].
      intros e He. destruct (Hin e He) as [Ha|Hr]; [| right; right; exact Hr].
      destruct episode_bool; [| left; exact Ha].
      apply in_app_or in Ha. destruct Ha as [Ha|[<-|[]]]; [left; exact Ha |].
      right. left. lia.
    + destruct episode_bool; [| exact Hacc].
      apply sorted_snoc; [exact Hacc |].
      apply Forall_forall. intros a Ha. apply Hlt; [exact Ha | left; reflexivity].
    + intros a j Ha Hj.
      rewrite Forall_forall in Hi. specialize (Hi _ Hj).
      destruct episode_bool.
      * apply in_app_or in Ha. destruct Ha as [Ha|[<-|[]]]; [| lia].
        apply Hlt; [exact Ha | right; exact Hj].
      * apply Hlt; [exact Ha | right; exact Hj].
Qed.

Lemma read_episode_list_ok f n flags f' :
  read_episode_list f = Ok ((n, flags), f') ->
  StronglySorted Z.lt flags /\ Forall (fun e => 1 <= e <= n) flags.
Proof.
  unfold read_episode_list. intros H. inv_run.
  match goal with
  | Hf : read_flags _ _ _ = Ok _ |- _ =>
      destruct (@read_flags_sorted _ _ _ _ _ Hf) as [Hs Hin];
        [apply py_range_sorted | constructor | intros a1 i [] |]
  end.
  split; [exact Hs |].
  apply Forall_forall. intros e He. destruct (Hin e He) as [[]|Hr].
  unfold py_range in Hr. apply in_map_iff in Hr. destruct Hr as (j & Hj & Hseq).
  apply in_seq in Hseq. lia.
Qed.

Lemma read_modern_sections_masked format_ver cols period f ann f' :
  read_modern_sections format_ver cols period f = Ok (ann, f') ->
  exists m n fa fb,
    details ann = Some m
    /\ read_episode_list fa = Ok ((n, masked_episodes m), fb).
Proof.
  unfold read_modern_sections. intros H. inv_run.
  do 4 eexists. simpl. split; [reflexivity | eassumption].
Qed.

(** X16.  The episodes in review of a decoded file are listed in
    increasing order, without repeats, and lie between 1 and [n_episodes];
    the masked episodes are listed in increasing order and are at least 1. *)
Theorem episode_lists_are_ordered long force file self m :
  _parse_header long force file = Ok self ->
  modern (info self) = Some m ->
  StronglySorted Z.lt (episodes_in_review m)
  /\ Forall (fun e => 1 <= e <= n_episodes m) (episodes_in_review m)
  /\ StronglySorted Z.lt (masked_episodes m)
  /\ Forall (fun e => 1 <= e) (masked_episodes m).
Proof.
  intros H Hm. apply parse_header_events in H.
  destruct H as (self0 & Hheavy & _ & _ & _ & Ei & _).
  rewrite Ei in Hm.
  apply heavy_lifting_ok in Hheavy. destruct Hheavy as [f_end Hfile].
  apply read_file_events in Hfile.
  destruct Hfile as (ann & _ & _ & _ & Hmod & Hcases).
  destruct Hcases as [(_ & ->)|(_ & cols_n & fs & fe & Hsec)].
  { simpl in Hmod. congruence. }
  pose proof (read_modern_sections_masked _ _ _ _ Hsec) as (m1 & n & ga & gb & Hd1 & Hmask).
  apply read_modern_sections_ok in Hsec.
  destruct Hsec as (m' & ids & raws & fa & fb & fc & fd & fg & fh & Hd & _ & _ & _ & _ & Hep & _).
  assert (m' = m) by congruence. assert (m1 = m) by congruence. subst m' m1.
  apply read_episode_list_ok in Hep. apply read_episode_list_ok in Hmask.
  destruct Hep as [S1 B1]. destruct Hmask as [S2 B2].
  repeat split; try assumption.
  eapply Forall_impl; [| exact B2]. simpl. intros a Ha. lia.
Qed.

Lemma episode_lists_are_ordered_witness :
  exists self m,
    _parse_header 8 false three_episodes_file = Ok self
    /\ modern (info self) = Some m
    /\ Forall (fun e => 1 <= e <= n_episodes m) (episodes_in_review m).
Proof.
  do 2 eexists.
  split; [vm_compute; reflexivity |].
  split; [vm_compute; reflexivity |].
  edestruct (@episode_lists_are_ordered 8 false three_episodes_file) as (_ & Hb & _);
    [vm_compute; reflexivity | vm_compute; reflexivity |].
  exact Hb.
Defined.

Ltac dict_step :=
  first
    [ rewrite (@dict_get_set_same _ _ String.eqb String.eqb_eq)
    | rewrite (@dict_get_set_other _ _ String.eqb String.eqb_eq) by discriminate ].

Lemma font_derived_ok info info' :
  font_derived info = Ok info' -> font_ok info'.
Proof.
  unfold font_derived. intros H. inv_run.
  match goal with Ha : py_assert _ _ = Ok _ |- _ => apply py_assert_ok in Ha; rename Ha into Hs1 end.
  unfold font_ok, get_int in *.
  match goal with
  | H1 : rbind (dict_get String.eqb "setting1" info) _ = Ok ?s1,
    H2 : rbind (dict_get String.eqb "setting2" info) _ = Ok ?s2 |- _ =>
      exists s1, s2; rename H1 into G1; rename H2 into G2
  end.
  repeat split.
  - repeat dict_step. exact G1.
  - apply orb_prop in Hs1. destruct Hs1 as [E|E]; apply Z.eqb_eq in E; auto.
  - repeat dict_step. exact G2.
  - repeat dict_step. reflexivity.
  - repeat dict_step. reflexivity.
  - repeat dict_step. reflexivity.
  - repeat dict_step. reflexivity.
Qed.

Lemma read_font_settings_ok categories :
  forall acc f fonts f',
    read_font_settings categories acc f = Ok (fonts, f') ->
    Forall (fun entry => font_ok (snd entry)) acc ->
    Forall (fun entry => font_ok (snd entry)) fonts.
Proof.
  induction categories as [|i rest IH]; intros acc f fonts f' H Hacc; simpl in H.
  - inv_run. exact Hacc.
  - inv_step H. inv_step H. inv_step H1.
    eapply IH; [exact H |].
    apply Forall_forall. intros [k info] Hin.
    apply (@dict_set_In _ _ String.eqb) in Hin.
    destruct Hin as [[_ ->]|Hin].
    + simpl. eapply font_derived_ok. eassumption.
    + rewrite Forall_forall in Hacc. exact (Hacc _ Hin).
Qed.

Lemma read_font_settings_keys format_ver f fonts f' :
  read_font_settings (font_categories format_ver) [] f = Ok (fonts, f') ->
  map fst fonts = font_categories format_ver.
Proof.
  unfold font_categories. destruct (6 <=? format_ver); simpl; intros H; inv_run; reflexivity.
Qed.

Lemma read_modern_sections_fonts format_ver cols period f ann f' :
  read_modern_sections format_ver cols period f = Ok (ann, f') ->
  exists m fa fb,
    details ann = Some m
    /\ read_font_settings (font_categories format_ver) [] fa
       = Ok (font_settings_info_list m, fb).
Proof.
  unfold read_modern_sections. intros H. inv_run.
  do 3 eexists. simpl. split; [reflexivity | eassumption].
Qed.

(** X17.  A decoded file describes one font before version 6 and four
    from version 6 on, and for each of them the switch for bold is one of
    the two known constants (a file with any other value fails an
    assertion), [bold] says which, and [italics], [underline] and
    [strikeout] are the bits 1, 2 and 4 of the second setting byte. *)
Theorem font_settings_are_checked long force file self m :
  _parse_header long force file = Ok self ->
  modern (info self) = Some m ->
  map fst (font_settings_info_list m) = font_categories (format_ver (info self))
  /\ Forall (fun entry => font_ok (snd entry)) (font_settings_info_list m).
Proof.
  intros H Hm. apply parse_header_events in H.
  destruct H as (self0 & Hheavy & _ & _ & _ & Ei & _).
  rewrite Ei in *.
  apply heavy_lifting_ok in Hheavy. destruct Hheavy as [f_end Hfile].
  apply read_file_events in Hfile.
  destruct Hfile as (ann & _ & _ & _ & Hmod & Hcases).
  destruct Hcases as [(_ & ->)|(_ & cols_n & fs & fe & Hsec)].
  { simpl in Hmod. congruence. }
  apply read_modern_sections_fonts in Hsec.
  destruct Hsec as (m' & fa & fb & Hd & Hfonts).
  assert (m' = m) by congruence. subst m'.
  split.
  - eapply read_font_settings_keys. exact Hfonts.
  - eapply read_font_settings_ok; [exact Hfonts | constructor].
Qed.

Lemma font_settings_are_checked_witness :
  exists self m,
    _parse_header 8 false annotated_file = Ok self
    /\ modern (info self) = Some m
    /\ Forall (fun entry => font_ok (snd entry)) (font_settings_info_list m).
Proof.
  do 2 eexists.
  split; [vm_compute; reflexivity |].
  split; [vm_compute; reflexivity |].
  edestruct (@font_settings_are_checked 8 false annotated_file) as (_ & Hf);
    [vm_compute; reflexivity | vm_compute; reflexivity |].
  exact Hf.
Defined.

(** ** More on the episodic heuristic *)

(** X20.  A file that begins with ['AxGr'] is never cut into segments:
    with or without [force_single_segment], [_parse_header] is
    [_do_the_heavy_lifting] and nothing more. *)
Theorem legacy_files_stay_single long force file :
  firstn 4 file = magic_legacy ->
  _parse_header long force file = _do_the_heavy_lifting long force file.
Proof.
  intros Hmagic. unfold _parse_header.
  destruct (_do_the_heavy_lifting long force file) as [self0|e] eqn:Hheavy; [| reflexivity].
  simpl.
  destruct (heavy_lifting_identity _ _ _ Hheavy) as (_ & _ & [(_ & _ & Hv & _)|(Hm & _)]).
  - destruct (negb (force_single_segment self0)); [| reflexivity].
    unfold _safe_to_treat_as_episodic.
    destruct (Z.ltb_spec (format_ver (info self0)) 3); [reflexivity | lia].
  - rewrite Hmagic in Hm. discriminate.
Qed.

Lemma legacy_files_stay_single_witness :
  _parse_header 8 false legacy_file = _do_the_heavy_lifting 8 false legacy_file.
Proof.
  apply legacy_files_stay_single. reflexivity.
Defined.

Lemma group_columns_entries traces groups :
  forall acc by_group,
    group_columns groups traces acc = Ok by_group ->
    forall g cols,
      In (g, cols) by_group ->
      In (g, cols) acc
      \/ (In g (map fst groups) /\ columns_of_group g traces = Ok cols).
Proof.
  induction groups as [|[group_id h] rest IH]; intros acc by_group H g cols Hin; simpl in H.
  - inversion H. subst. left. exact Hin.
  - destruct (columns_of_group group_id traces) as [c|] eqn:Ec; [| discriminate].
    simpl in H. destruct (IH _ _ H _ _ Hin) as [Hacc|[Hk Hc]].
    + apply dict_set_In in Hacc. destruct Hacc as [[-> ->]|Hacc].
      * right. split; [left; reflexivity | exact Ec].
      * left. exact Hacc.
    + right. split; [right; exact Hk | exact Hc].
Qed.

Lemma dict_set_keys {V} k (v : V) (d : dict Z V) a :
  In a (map fst (dict_set Z.eqb k v d)) <-> a = k \/ In a (map fst d).
Proof.
  induction d as [|[k' v'] t IH]; simpl.
  - intuition.
  - destruct (Z.eqb_spec k k') as [->|Hne]; simpl.
    + intuition.
    + rewrite IH. intuition.
Qed.

Lemma dict_set_nodup {V} k (v : V) (d : dict Z V) :
  NoDup (map fst d) -> NoDup (map fst (dict_set Z.eqb k v d)).
Proof.
  induction d as [|[k' v'] t IH]; simpl; intros H.
  - constructor; [intros [] | constructor].
  - inversion H as [|? ? Hnot Ht]; subst.
    destruct (Z.eqb_spec k k') as [->|Hne]; simpl.
    + constructor; assumption.
    + constructor; [| apply IH; exact Ht].
      intros Hin. apply dict_set_keys in Hin. destruct Hin as [E|Hin]; [congruence | auto].
Qed.

Lemma group_columns_nodup traces groups :
  forall acc by_group,
    group_columns groups traces acc = Ok by_group ->
    NoDup (map fst acc) -> NoDup (map fst by_group).
Proof.
  induction groups as [|[group_id h] rest IH]; intros acc by_group H Hnd; simpl in H.
  - inversion H. subst. exact Hnd.
  - destruct (columns_of_group group_id traces) as [c|]; [| discriminate].
    simpl in H. eapply IH; [exact H |]. apply dict_set_nodup. exact Hnd.
Qed.

Lemma groups_uniform_keeps table by_group :
  forall acc uniform g,
    groups_uniform table by_group acc = Ok uniform ->
    ~ In g (map fst by_group) ->
    dict_get Z.eqb g uniform = dict_get Z.eqb g acc.
Proof.
  induction by_group as [|[g0 c0] rest IH]; intros acc uniform g H Hnot; simpl in H.
  - inversion H. reflexivity.
  - destruct (signal_params_for_group table c0) as [params|]; [| discriminate].
    simpl in H. erewrite IH; [| exact H |].
    + apply (@dict_get_set_other _ _ Z.eqb Z.eqb_eq).
      intros ->. apply Hnot. left. reflexivity.
    + intros Hin. apply Hnot. right. exact Hin.
Qed.

Lemma groups_uniform_entries table by_group :
  forall acc uniform,
    groups_uniform table by_group acc = Ok uniform ->
    NoDup (map fst by_group) ->
    forall g cols,
      In (g, cols) by_group ->
      exists params,
        signal_params_for_group table cols = Ok params
        /\ dict_get Z.eqb g uniform
           = Ok (unique_is_singleton same_signal_parameters params).
Proof.
  induction by_group as [|[g0 c0] rest IH]; intros acc uniform H Hnd g cols Hin;
    simpl in H; [destruct Hin |].
  inversion Hnd as [|? ? Hnot Hrest]; subst.
  destruct (signal_params_for_group table c0) as [params|] eqn:Ep; [| discriminate].
  simpl in H. destruct Hin as [E|Hin].
  - inversion E; subst g0 c0. exists params. split; [exact Ep |].
    erewrite groups_uniform_keeps; [| exact H | exact Hnot].
    apply (@dict_get_set_same _ _ Z.eqb Z.eqb_eq).
  - eapply IH; eassumption.
Qed.

Lemma np_unique_const c l :
  l <> [] -> Forall (eq c) l -> np_unique l = [c].
Proof.
  induction l as [|x t IH]; intros Hne Hall; [contradiction |].
  inversion Hall as [|? ? Hx Ht]; subst x. simpl.
  destruct t as [|y t'].
  - reflexivity.
  - rewrite IH by (try discriminate; assumption). simpl.
    rewrite Z.ltb_irrefl, Z.eqb_refl. reflexivity.
Qed.

(** What the heuristic has checked when it answers yes. *)
Lemma safe_accepts self line :
  _safe_to_treat_as_episodic self = Ok (true, line) ->
  exists m by_group,
    modern (info self) = Some m
    /\ 3 <= format_ver (info self)
    /\ 1 <= n_episodes m
    /\ group_columns (group_header_info_list m) (trace_header_info_list m) [] = Ok by_group
    /\ by_group <> []
    /\ Forall (fun entry =>
                 Z.of_nat (length (snd entry)) = n_episodes m
                 /\ exists params,
                      signal_params_for_group (signal_channels (header self)) (snd entry)
                      = Ok params
                      /\ unique_is_singleton same_signal_parameters params = true)
              by_group
    /\ signal_channels (header self) <> [].
Proof.
  unfold _safe_to_treat_as_episodic. intros H.
  destruct (Z.ltb_spec (format_ver (info self)) 3) as [|Hver]; [discriminate |].
  destruct (modern (info self)) as [m|]; [| discriminate]. simpl in H.
  destruct (group_columns (group_header_info_list m) (trace_header_info_list m) [])
    as [by_group|] eqn:Eg; [| discriminate].
  simpl in H.
  set (counts := map snd (map (fun '(k, v) => (k, Z.of_nat (length v))) by_group)) in *.
  destruct (Nat.eqb_spec (length (np_unique counts)) 1) as [Hone|]; [| discriminate].
  simpl in H.
  destruct (np_unique counts) as [|n [|n' t]] eqn:Eu; try discriminate.
  simpl in H. destruct (Z.eqb_spec n (n_episodes m)) as [Hn|]; [| discriminate].
  simpl in H.
  destruct (groups_uniform (signal_channels (header self)) by_group []) as [uniform|] eqn:Eun;
    [| discriminate].
  simpl in H.
  destruct (forallb (fun b => b) (map snd uniform)) eqn:Eall; [| discriminate].
  pose proof (group_columns_nodup _ _ _ Eg (NoDup_nil Z)) as Hnd.
  assert (Hcount : forall g cols, In (g, cols) by_group -> Z.of_nat (length cols) = n).
  { intros g cols Hin.
    assert (Hc : In (Z.of_nat (length cols)) (np_unique counts)).
    { apply np_unique_In. unfold counts. rewrite map_map.
      apply in_map_iff. exists (g, cols). split; [reflexivity | exact Hin]. }
    rewrite Eu in Hc. destruct Hc as [Hc|[]]. congruence. }
  assert (Hentries : Forall (fun entry =>
             Z.of_nat (length (snd entry)) = n_episodes m
             /\ exists params,
                  signal_params_for_group (signal_channels (header self)) (snd entry)
                  = Ok params
                  /\ unique_is_singleton same_signal_parameters params = true) by_group).
  { apply Forall_forall. intros [g cols] Hin. simpl.
    split; [rewrite <- Hn; eapply Hcount; exact Hin |].
    destruct (groups_uniform_entries _ _ _ Eun Hnd _ _ Hin) as (params & Hp & Hget).
    exists params. split; [exact Hp |].
    apply (@dict_get_In _ _ Z.eqb) in Hget; [| apply Z.eqb_eq].
    rewrite forallb_forall in Eall. apply Eall.
    apply in_map_iff. eexists. split; [| exact Hget]. reflexivity. }
  assert (Hne : by_group <> []).
  { intros ->. unfold counts in Eu. simpl in Eu. discriminate. }
  exists m, by_group.
  split; [reflexivity |]. split; [assumption |].
  destruct by_group as [|[g cols] rest]; [contradiction |].
  inversion Hentries as [|? ? [Hlen (params & Hp & _)] _]; subst. simpl in Hlen, Hp.
  unfold signal_params_for_group in Hp.
  destruct cols as [|c cols']; [discriminate |].
  split; [simpl in Hlen; lia |].
  split; [exact Eg |]. split; [discriminate |]. split; [exact Hentries |].
  intros Hempty. rewrite Hempty in Hp. simpl in Hp.
  unfold np_take in Hp. simpl in Hp.
  destruct (c - 1 <? 0); simpl in Hp;
    match type of Hp with
    | context [(0 <=? ?j) && (?j <? 0)] =>
        destruct (Z.leb_spec 0 j); destruct (Z.ltb_spec j 0); simpl in Hp;
          try discriminate; lia
    end.
Qed.

(** X22.  What the heuristic has established when it answers yes: the
    file is of version 3 or later, it has at least one group, every group
    holds exactly [n_episodes] traces, [n_episodes] is at least 1, the rows
    of the traces of a group exist and agree in everything but their ids,
    and the signal-channel table is not empty. *)
Theorem accepted_files_are_regular (self : AxographRawIO) (line : string) :
  _safe_to_treat_as_episodic self = Ok (true, line) ->
  exists m by_group,
    modern (info self) = Some m
    /\ 3 <= format_ver (info self)
    /\ 1 <= n_episodes m
    /\ group_columns (group_header_info_list m) (trace_header_info_list m) [] = Ok by_group
    /\ by_group <> []
    /\ Forall (fun entry =>
                 Z.of_nat (length (snd entry)) = n_episodes m
                 /\ exists params,
                      signal_params_for_group (signal_channels (header self)) (snd entry)
                      = Ok params
                      /\ unique_is_singleton same_signal_parameters params = true)
              by_group
    /\ signal_channels (header self) <> [].
Proof. exact (@safe_accepts self line). Qed.

Lemma accepted_files_are_regular_witness :
  exists self line m,
    _do_the_heavy_lifting 8 false episodic_file = Ok self
    /\ _safe_to_treat_as_episodic self = Ok (true, line)
    /\ modern (info self) = Some m
    /\ 1 <= n_episodes m.
Proof.
  destruct (_do_the_heavy_lifting 8 false episodic_file) as [self|e] eqn:E.
  2:{ vm_compute in E. discriminate E. }
  assert (Hsafe : _safe_to_treat_as_episodic self = Ok (true, "Can treat as episodic")).
  { vm_compute in E. inversion E. vm_compute. reflexivity. }
  destruct (accepted_files_are_regular self Hsafe) as (m & by_group & Hm & _ & Hep & _).
  exists self, "Can treat as episodic", m. auto.
Defined.

(** X23.  A file the heuristic accepts is cut into segments exactly when
    the number of its signal columns is a multiple of [n_episodes]: then
    [_parse_header] gives [n_episodes] segments, and otherwise it raises
    [ValueError], although the file decodes with [force_single_segment]. *)
Theorem conversion_needs_whole_episodes long file self0 line m :
  _do_the_heavy_lifting long false file = Ok self0 ->
  _safe_to_treat_as_episodic self0 = Ok (true, line) ->
  modern (info self0) = Some m ->
  (Z.of_nat (length (signal_channels (header self0))) mod n_episodes m <> 0 ->
   _parse_header long false file = Raise ValueError)
  /\ (Z.of_nat (length (signal_channels (header self0))) mod n_episodes m = 0 ->
      exists self,
        _parse_header long false file = Ok self
        /\ nb_segment (header self) = [n_episodes m]
        /\ Z.of_nat (length (signal_channels (header self))) * n_episodes m
           = Z.of_nat (length (signal_channels (header self0)))).
Proof.
  intros Hheavy Hsafe Hm.
  destruct (heavy_lifting_layout _ _ _ Hheavy) as (Hforce & _ & (sigs & Hraw & Hlen) & _).
  destruct (safe_accepts _ Hsafe) as (m' & by_group & Hm' & _ & Hep & _ & _ & _ & Htable).
  assert (m' = m) by congruence. subst m'.
  unfold _parse_header. rewrite Hheavy. simpl. rewrite Hforce, Hsafe. simpl.
  unfold _convert_to_multi_segment. rewrite Hm. simpl.
  unfold reshape_first_row.
  destruct (Z.leb_spec (n_episodes m) 0); [lia |].
  set (len := Z.of_nat (length (signal_channels (header self0)))) in *.
  split.
  - intros Hmod. destruct (Z.eqb_spec (len mod n_episodes m) 0); [contradiction | reflexivity].
  - intros Hmod. destruct (Z.eqb_spec (len mod n_episodes m) 0); [| contradiction].
    simpl. rewrite Hraw. simpl.
    assert (Hq : len = n_episodes m * (len / n_episodes m)) by (apply Z.div_exact; lia).
    assert (Hpos : 0 < len).
    { unfold len. destruct (signal_channels (header self0)); [contradiction | simpl; lia]. }
    assert (Hrows : length (firstn (Z.to_nat (len / n_episodes m))
                              (signal_channels (header self0)))
                    = Z.to_nat (len / n_episodes m)).
    { rewrite length_firstn. apply Nat.min_l. unfold len in *. nia. }
    rewrite Hrows.
    unfold np_arange.
    destruct (Z.to_nat (len / n_episodes m)) as [|k] eqn:Ek; [nia |].
    unfold rbind. eexists. split; [reflexivity |]. cbn [header nb_segment signal_channels].
    split; [reflexivity |].
    rewrite Hrows. nia.
Qed.

Lemma conversion_needs_whole_episodes_witness :
  _parse_header 8 false partial_episodes_file = Raise ValueError.
Proof.
  edestruct (@conversion_needs_whole_episodes 8 partial_episodes_file) as (Hfail & _);
    [vm_compute; reflexivity | vm_compute; reflexivity | vm_compute; reflexivity |].
  apply Hfail. vm_compute. discriminate.
Defined.

(** X21.  When every group of a decoded file holds the same number of
    traces and that number is not [n_episodes], the heuristic answers no at
    its third check, and [_parse_header] leaves the file in one segment. *)
Theorem episode_count_mismatch_rejects long force file self m g0 k :
  _do_the_heavy_lifting long force file = Ok self ->
  modern (info self) = Some m ->
  In g0 (map fst (group_header_info_list m)) ->
  (forall g, In g (map fst (group_header_info_list m)) ->
             traces_of_group g (trace_header_info_list m) = k) ->
  Z.of_nat k <> n_episodes m ->
  _safe_to_treat_as_episodic self
  = Ok (false,
        "Cannot treat as episodic because n_episodes does not match number of traces per group")
  /\ _parse_header long force file = Ok self
  /\ nb_segment (header self) = [1].
Proof.
  intros Hheavy Hm Hg0 Hall Hneq.
  destruct (heavy_lifting_layout _ _ _ Hheavy) as (Hforce & Hseg & _ & _ & Hver).
  specialize (Hver _ Hm).
  pose proof (heavy_lifting_traces _ _ _ Hheavy Hm) as Htraces.
  destruct (@group_columns_total _ Htraces (group_header_info_list m) [])
    as (by_group & Hgroups & Hlens & Hkeys); [intros g cols Hget; discriminate |].
  set (counts := map snd (map (fun '(k, v) => (k, Z.of_nat (length v))) by_group)).
  assert (Hcounts : np_unique counts = [Z.of_nat k]).
  { apply np_unique_const.
    - destruct (Hkeys _ Hg0) as [cols Hc].
      apply (@dict_get_In _ _ Z.eqb) in Hc; [| apply Z.eqb_eq].
      unfold counts. destruct by_group; [destruct Hc | discriminate].
    - apply Forall_forall. intros n Hn. unfold counts in Hn. rewrite map_map in Hn.
      apply in_map_iff in Hn. destruct Hn as ([g cols] & <- & Hin). simpl.
      destruct (group_columns_entries _ _ _ Hgroups _ _ Hin) as [[]|[Hk Hc]].
      destruct (@columns_of_group_total g _ Htraces) as (cols' & Hc' & Hlen).
      rewrite Hc in Hc'. inversion Hc'; subst cols'.
      rewrite Hlen, (Hall _ Hk). reflexivity. }
  assert (Hsafe : _safe_to_treat_as_episodic self
                  = Ok (false,
                        "Cannot treat as episodic because n_episodes does not match number of traces per group")).
  { unfold _safe_to_treat_as_episodic.
    destruct (Z.ltb_spec (format_ver (info self)) 3); [lia |].
    rewrite Hm. simpl. rewrite Hgroups. simpl. fold counts. rewrite Hcounts. simpl.
    destruct (Z.eqb_spec (Z.of_nat k) (n_episodes m)); [contradiction | reflexivity]. }
  split; [exact Hsafe |]. split; [| exact Hseg].
  unfold _parse_header. rewrite Hheavy. simpl. rewrite Hsafe.
  destruct (negb (force_single_segment self)); reflexivity.
Qed.

Lemma episode_count_mismatch_rejects_witness :
  exists self,
    _do_the_heavy_lifting 8 false miscounted_episodes_file = Ok self
    /\ _parse_header 8 false miscounted_episodes_file = Ok self
    /\ nb_segment (header self) = [1].
Proof.
  eexists.
  split; [vm_compute; reflexivity |].
  edestruct (@episode_count_mismatch_rejects 8 false miscounted_episodes_file)
    with (g0 := 0) (k := 1%nat)
    as (_ & Hparse & Hseg);
    [ vm_compute; reflexivity | vm_compute; reflexivity | vm_compute; left; reflexivity
    | intros g Hg; vm_compute in Hg; destruct Hg as [<-|[]]; vm_compute; reflexivity
    | vm_compute; discriminate | ].
  split; [exact Hparse | exact Hseg].
Defined.

Lemma py_getitem_nth {A} (xs : list A) (j : nat) x :
  nth_error xs j = Some x -> py_getitem xs (Z.of_nat j) = Ok x.
Proof.
  intros H. unfold py_getitem.
  assert (Hlt : (j < length xs)%nat) by (apply nth_error_Some; congruence).
  destruct (Z.ltb_spec (Z.of_nat j) 0); [lia |].
  destruct (Z.leb_spec 0 (Z.of_nat j)); [| lia].
  destruct (Z.ltb_spec (Z.of_nat j) (Z.of_nat (length xs))); [| lia].
  simpl. rewrite Nat2Z.id, H. reflexivity.
Qed.

Lemma py_getitem_beyond {A} (xs : list A) (j : Z) :
  Z.of_nat (length xs) <= j -> py_getitem xs j = Raise IndexError.
Proof.
  intros H. unfold py_getitem.
  destruct (Z.ltb_spec j 0); [lia |].
  destruct (Z.ltb_spec j (Z.of_nat (length xs))); [lia |].
  rewrite andb_false_r. reflexivity.
Qed.

(** X24.  The header of a decoded file announces as many segments as
    [_raw_signals] holds, at least one.  When the file has signal columns,
    [_get_signal_size] gives for each segment the length of its first
    array, and every segment has one array per row of the table; a file
    with the time column only has no signal size ([IndexError]), and
    neither has a segment index beyond the last. *)
Theorem signal_size_of_segments long force file self block_index channel_indexes :
  _parse_header long force file = Ok self ->
  nb_segment (header self) = [Z.of_nat (length (_raw_signals self))]
  /\ (0 < length (_raw_signals self))%nat
  /\ (forall seg_index,
        Z.of_nat (length (_raw_signals self)) <= seg_index ->
        _get_signal_size self block_index seg_index channel_indexes = Raise IndexError)
  /\ (signal_channels (header self) = [] ->
      _get_signal_size self block_index 0 channel_indexes = Raise IndexError)
  /\ (signal_channels (header self) <> [] ->
      forall seg, (seg < length (_raw_signals self))%nat ->
        exists segment first others,
          nth_error (_raw_signals self) seg = Some segment
          /\ segment = first :: others
          /\ length segment = length (signal_channels (header self))
          /\ _get_signal_size self block_index (Z.of_nat seg) channel_indexes
             = Ok (mm_len first)).
Proof.
  intros H. apply parse_header_segments in H.
  destruct H as (self0 & sigs & rows & n & Hheavy & Hraw & Hlen0 & Hlen & Hn & Hor & Htable
                 & Hsegs & Hnb & _).
  assert (Hcount : length (_raw_signals self) = n).
  { rewrite Hsegs. unfold chunks. rewrite !length_map, length_seq. reflexivity. }
  assert (Hrows : length (signal_channels (header self)) = rows).
  { rewrite Htable, length_firstn, <- Hlen0, Hlen. apply Nat.min_l. nia. }
  rewrite Hcount.
  split; [exact Hnb |]. split; [exact Hn |].
  split.
  { intros seg_index Hge. unfold _get_signal_size.
    rewrite py_getitem_beyond by (rewrite Hcount; exact Hge). reflexivity. }
  assert (Hseg : forall seg, (seg < n)%nat ->
            nth_error (_raw_signals self) seg
            = Some (firstn rows (skipn (seg * rows) sigs))).
  { intros seg Hseg. rewrite Hsegs. unfold chunks.
    rewrite nth_error_map, nth_error_map.
    rewrite (nth_error_nth' (seq 0 n) 0%nat) by (rewrite length_seq; exact Hseg).
    rewrite seq_nth by exact Hseg. reflexivity. }
  split.
  - intros Hempty. rewrite Hempty in Hrows. simpl in Hrows. subst rows.
    unfold _get_signal_size. change 0 with (Z.of_nat 0) at 1.
    rewrite (@py_getitem_nth _ _ 0%nat _ (Hseg 0%nat Hn)). simpl. reflexivity.
  - intros Hne seg Hseg'.
    assert (Hpos : (0 < rows)%nat).
    { rewrite <- Hrows. destruct (signal_channels (header self)); [contradiction | simpl; lia]. }
    assert (Hsl : length (firstn rows (skipn (seg * rows) sigs)) = rows).
    { rewrite length_firstn, length_skipn, Hlen. apply Nat.min_l. nia. }
    pose proof (Hseg _ Hseg') as Hnth.
    destruct (firstn rows (skipn (seg * rows) sigs)) as [|first others] eqn:Ef;
      [simpl in Hsl; lia |].
    exists (first :: others), first, others.
    split; [exact Hnth |].
    split; [reflexivity |]. split; [rewrite Hrows; exact Hsl |].
    unfold _get_signal_size.
    rewrite (@py_getitem_nth _ _ seg _ Hnth).
    reflexivity.
Qed.

Lemma signal_size_of_segments_witness :
  exists self,
    _parse_header 8 false three_episodes_file = Ok self
    /\ nb_segment (header self) = [Z.of_nat (length (_raw_signals self))]
    /\ _get_signal_size self 0 3 None = Raise IndexError.
Proof.
  destruct (_parse_header 8 false three_episodes_file) as [self|e] eqn:E.
  2:{ vm_compute in E. discriminate E. }
  exists self. split; [reflexivity |].
  destruct (@signal_size_of_segments 8 false three_episodes_file self 0 None E)
    as (Hnb & _ & Hbeyond & _).
  split; [exact Hnb |].
  apply Hbeyond.
  assert (Hlen : length (_raw_signals self) = 3%nat).
  { vm_compute in E. inversion E. reflexivity. }
  rewrite Hlen. vm_compute. discriminate.
Defined.

(** ** What a column appends *)

(** X25.  A column other than the first that is read with success adds
    exactly one array and one row.  The row carries the index of the
    column as its id and the name and the units parsed from the title of
    the column; the array has the storage type of the row and as many
    samples as the header of the column announces, never a negative
    number; it starts after the header, ends where the reader is left,
    and lies within the file. *)
Theorem sample_columns_append_rows long format_ver i st f st' f'
    n_points col_type title fh :
  i <> 0 ->
  read_column_header format_ver f = Ok ((n_points, col_type, title), fh) ->
  read_column long format_ver i st f = Ok (st', f') ->
  exists array ch,
    sigs_memmap st' = sigs_memmap st ++ [array]
    /\ sig_channels st' = sig_channels st ++ [ch]
    /\ ch_id ch = i
    /\ ch_name ch = fst (name_and_units title)
    /\ ch_units ch = snd (name_and_units title)
    /\ ch_dtype ch = mm_dtype array
    /\ 0 <= n_points
    /\ mm_len array = Z.to_nat n_points
    /\ (position fh <= mm_offset array)%nat
    /\ position f' = (mm_offset array + nbytes long array)%nat
    /\ (position f' <= length (raw f))%nat.
Proof.
  intros Hi Hh H. apply read_column_ok in H.
  destruct H as (n_points' & col_type' & title' & fh' & Hh' & Hd).
  rewrite Hh in Hh'. inversion Hh'; subst n_points' col_type' title' fh'. clear Hh'.
  apply read_column_data_ok in Hd.
  destruct Hd as [(first_value & increment & Hk & _)|(dtype & gain & offset & fk & Hk & Hs)].
  { apply read_column_kind_time in Hk. destruct Hk as (-> & _). contradiction. }
  pose proof (forward_read_column_kind _ _ _ _ _ _ Hk) as Hfwd.
  destruct (preserves_read_column_header _ _ Hh) as (R1 & _ & _).
  destruct (preserves_read_column_kind _ _ _ _ _ _ Hk) as (R2 & _ & _).
  apply store_column_ok in Hs.
  destruct Hs as (array & period & rate & Hm & _ & _ & ->).
  apply map_array_ok in Hm. destruct Hm as (Hpos & -> & -> & Hin).
  do 2 eexists. simpl.
  repeat split; try assumption; try reflexivity.
  rewrite <- R1, <- R2. exact Hin.
Qed.

Lemma sample_columns_append_rows_witness :
  let st := fst (after_time_column legacy_file) in
  let f := snd (after_time_column legacy_file) in
  exists st' f' array ch,
    read_column 8 2 1 st f = Ok (st', f')
    /\ sigs_memmap st' = sigs_memmap st ++ [array]
    /\ sig_channels st' = sig_channels st ++ [ch]
    /\ ch_name ch = str_of "Current"
    /\ ch_units ch = str_of "pA"
    /\ mm_len array = 3%nat.
Proof.
  intros st f.
  destruct (read_column_header 2 f) as [[[[n_points col_type] title] fh]|e] eqn:Eh;
    [| vm_compute in Eh; discriminate Eh].
  destruct (read_column 8 2 1 st f) as [[st' f']|e] eqn:E;
    [| vm_compute in E; discriminate E].
  assert (Hi : 1 <> 0) by discriminate.
  destruct (@sample_columns_append_rows 8 2 1 st f st' f' n_points col_type title fh Hi Eh E)
    as (array & ch & Hsigs & Hrows & _ & Hname & Hunits & _ & _ & Hlen & _).
  exists st', f', array, ch.
  split; [reflexivity |]. split; [exact Hsigs |]. split; [exact Hrows |].
  vm_compute in Eh. inversion Eh; subst n_points col_type title fh. clear Eh.
  split; [rewrite Hname; vm_compute; reflexivity |].
  split; [rewrite Hunits; vm_compute; reflexivity |].
  rewrite Hlen. reflexivity.
Defined.

(** ** Text written and read back *)

Lemma byte_N_byte_of n : Z.of_N (byte_N (byte_of n)) = n mod 256.
Proof.
  unfold byte_of, byte_N.
  assert (Hb : 0 <= n mod 256 < 256) by (apply Z.mod_pos_bound; lia).
  destruct (Byte.of_N (Z.to_N (n mod 256))) as [b|] eqn:E.
  - apply Byte.to_of_N in E. rewrite E. lia.
  - apply Byte.of_N_None_iff in E. lia.
Qed.

Lemma be4_bytes z :
  be 4 z = [byte_of (z / 16777216); byte_of (z / 65536); byte_of (z / 256); byte_of z].
Proof.
  unfold be. simpl.
  change (256 ^ 3) with 16777216. change (256 ^ 2) with 65536.
  change (256 ^ 1) with 256. change (256 ^ 0) with 1.
  rewrite Z.div_1_r. reflexivity.
Qed.

Lemma sint_of_be4 z :
  - 2 ^ 31 <= z < 2 ^ 31 -> sint_of BigEndian (be 4 z) = z.
Proof.
  intros Hz. rewrite be4_bytes. unfold sint_of, uint_of, to_signed. simpl.
  rewrite !byte_N_byte_of.
  change (2 ^ 31) with 2147483648 in Hz.
  change (2 ^ 31) with 2147483648. change (2 ^ 32) with 4294967296.
  match goal with |- (if ?a <? ?b then _ else _) = _ => destruct (Z.ltb_spec a b) end;
    Z.div_mod_to_equations; lia.
Qed.

Lemma byte_N_of_ascii a : byte_N (byte_of_ascii a) = N_of_ascii a.
Proof.
  destruct a as [[|] [|] [|] [|] [|] [|] [|] [|]]; reflexivity.
Qed.

Lemma str_of_bytes s : map byte_N (list_byte_of_string s) = str_of s.
Proof.
  unfold str_of. induction s as [|a s IH]; simpl; [reflexivity |].
  rewrite byte_N_of_ascii. f_equal. exact IH.
Qed.

Lemma utf16_units_latin (bs : list byte) :
  utf16_units BigEndian (flat_map (fun b => [x00; b]) bs) = Some (map byte_N bs).
Proof.
  induction bs as [|b bs IH]; [reflexivity |].
  cbn [flat_map app utf16_units]. rewrite IH. reflexivity.
Qed.

Lemma utf16_join_latin (bs : list byte) :
  utf16_join (map byte_N bs) = Some (map byte_N bs).
Proof.
  induction bs as [|b bs IH]; [reflexivity |].
  cbn [map utf16_join].
  pose proof (Byte.to_N_bounded b) as Hb. fold (byte_N b) in Hb.
  unfold in_range.
  destruct (N.leb_spec 55296 (byte_N b)); [lia |]. cbn [andb].
  destruct (N.leb_spec 56320 (byte_N b)); [lia |]. cbn [andb].
  rewrite IH. reflexivity.
Qed.

Lemma length_list_byte_of_string s : length (list_byte_of_string s) = String.length s.
Proof.
  unfold list_byte_of_string. rewrite length_map.
  induction s as [|a s IH]; simpl; [reflexivity | rewrite IH; reflexivity].
Qed.

Lemma length_flat_pairs (bs : list byte) :
  length (flat_map (fun b => [x00; b]) bs) = (2 * length bs)%nat.
Proof. induction bs as [|b bs IH]; simpl; [reflexivity | rewrite IH; lia]. Qed.

Lemma read_int_be4 z rest f :
  byte_order f = BigEndian ->
  remaining f = be 4 z ++ rest ->
  - 2 ^ 31 <= z < 2 ^ 31 ->
  read_int "l" f = Ok (z, advance f 4).
Proof.
  intros Ho Hrem Hz. pose proof (sint_of_be4 Hz) as Hs. unfold sint_of in Hs.
  rewrite be4_bytes in *. cbn [length] in Hs. change (8 * Z.of_nat 4) with 32 in Hs.
  unfold read_int, read_f, read_f_at, bind. simpl. unfold bind.
  rewrite read_and_unpack_l, Hrem, Ho.
  cbn [app length Nat.leb firstn]. rewrite Hs. reflexivity.
Qed.

Lemma read_string_text s rest f :
  byte_order f = BigEndian ->
  remaining f = text s ++ rest ->
  2 * Z.of_nat (String.length s) < 2 ^ 31 ->
  read_string f = Ok (str_of s, advance f (4 + 2 * String.length s)).
Proof.
  intros Ho Hrem Hlen. unfold read_string, bind.
  rewrite read_and_unpack_l, Ho, Hrem.
  unfold text. rewrite <- !app_assoc.
  set (payload := flat_map (fun b => [x00; b]) (list_byte_of_string s)).
  set (len := 2 * Z.of_nat (String.length s)) in *.
  assert (Hl : - 2 ^ 31 <= len < 2 ^ 31) by (unfold len; lia).
  pose proof (sint_of_be4 Hl) as Hs. unfold sint_of in Hs.
  rewrite be4_bytes in *. cbn [length] in Hs.
  change (8 * Z.of_nat 4) with 32 in Hs.
  cbn [app length Nat.leb firstn]. rewrite Hs.
  assert (Hp : length payload = (2 * String.length s)%nat).
  { unfold payload. rewrite length_flat_pairs, length_list_byte_of_string. reflexivity. }
  destruct (Z.ltb_spec 0 len) as [Hpos|Hzero].
  - unfold read. rewrite remaining_advance, Hrem.
    unfold text. fold payload. fold len. rewrite be4_bytes. cbn [app skipn].
    assert (Hq : Z.to_nat len = length payload).
    { rewrite Hp. subst len. clear.
      rewrite Z2Nat.inj_mul, Nat2Z.id by lia. reflexivity. }
    rewrite Hq.
    rewrite firstn_app, Nat.sub_diag, firstn_all. cbn [firstn].
    rewrite app_nil_r.
    unfold lift, decode, utf_16_decoder, utf16_decode. cbn [byte_order advance].
    rewrite Ho.
    unfold payload at 1. rewrite utf16_units_latin, utf16_join_latin, str_of_bytes.
    unfold advance. do 2 f_equal. rewrite Ho. f_equal. rewrite Hp. cbn [position]. lia.
  - assert (Hs0 : s = EmptyString).
    { destruct s; [reflexivity |]. unfold len in Hzero. simpl String.length in Hzero. lia. }
    subst s. reflexivity.
Qed.

Lemma read_str_text s rest f :
  byte_order f = BigEndian ->
  remaining f = text s ++ rest ->
  2 * Z.of_nat (String.length s) < 2 ^ 31 ->
  read_str "S" f = Ok (str_of s, advance f (4 + 2 * String.length s)).
Proof.
  intros Ho Hrem Hlen.
  assert (Ho0 : byte_order (advance f 0) = BigEndian) by exact Ho.
  assert (Hrem0 : remaining (advance f 0) = text s ++ rest).
  { rewrite remaining_advance. exact Hrem. }
  pose proof (read_string_text _ Ho0 Hrem0 Hlen) as Hr.
  unfold read_str, read_f, read_f_at, bind. cbn -[read_string]. unfold bind.
  unfold advance in Hr at 1. cbn -[read_string] in Hr. rewrite Hr.
  cbn. unfold ret, advance. cbn. do 2 f_equal. f_equal. lia.
Qed.

(** X26.  A text of Latin-1 characters written as AxoGraph writes it, a
    4-byte count of bytes and then two bytes a character, is read back as
    that text by [read_string], whatever follows it in the file, and the
    reader is left just after it. *)
Theorem text_round_trip (s : string) (rest : list byte) (f : StructFile) :
  byte_order f = BigEndian ->
  remaining f = text s ++ rest ->
  2 * Z.of_nat (String.length s) < 2 ^ 31 ->
  read_string f = Ok (str_of s, advance f (length (text s)))
  /\ remaining (advance f (length (text s))) = rest.
Proof.
  intros Ho Hrem Hlen.
  assert (Ht : length (text s) = (4 + 2 * String.length s)%nat).
  { unfold text. rewrite length_app, be4_bytes, length_flat_pairs,
      length_list_byte_of_string. simpl. lia. }
  split.
  - rewrite Ht. exact (read_string_text _ Ho Hrem Hlen).
  - rewrite remaining_advance, Hrem, skipn_app, Nat.sub_diag, skipn_all. reflexivity.
Qed.

Lemma text_round_trip_witness :
  read_string (mkStructFile BigEndian ([x01; x02] ++ text "Vm" ++ [xff]) 2)
  = Ok ([86%N; 109%N], mkStructFile BigEndian ([x01; x02] ++ text "Vm" ++ [xff]) 10).
Proof.
  destruct (@text_round_trip "Vm" [xff]
              (mkStructFile BigEndian ([x01; x02] ++ text "Vm" ++ [xff]) 2)) as (H & _).
  - reflexivity.
  - reflexivity.
  - vm_compute. reflexivity.
  - exact H.
Defined.

(** ** Column headers written and read back *)

Lemma utf8_decode_ascii s :
  ascii_only s = true -> utf8_decode (list_byte_of_string s) = Some (str_of s).
Proof.
  unfold ascii_only, list_byte_of_string, str_of.
  induction (list_ascii_of_string s) as [|a l IH]; [reflexivity |].
  cbn [forallb map utf8_decode]. intros H.
  apply andb_true_iff in H. destruct H as (Ha & Hl).
  rewrite byte_N_of_ascii.
  change (N_of_ascii a <? 128)%N with (N_of_ascii a <? 128)%N in Ha.
  rewrite Ha, (IH Hl). reflexivity.
Qed.

Lemma length_pascal80 s :
  (String.length s <= 79)%nat -> length (pascal80 s) = 80%nat.
Proof.
  intros Hs. unfold pascal80, zeros. cbn [length].
  rewrite length_app, length_list_byte_of_string, repeat_length. lia.
Qed.

Lemma read_and_unpack_80p f :
  (80 <= length (remaining f))%nat ->
  read_and_unpack "80p" f
  = Ok ([decode_pascal 80 (firstn 80 (remaining f))], advance f 80).
Proof.
  intros Hlen. unfold read_and_unpack, read, unpack.
  change (calcsize "80p") with (Ok 80%nat).
  change (parse_fmt None "80p") with (Some [(80%nat, Cp)]).
  assert (Hl : length (firstn 80 (remaining f)) = 80%nat).
  { rewrite length_firstn. lia. }
  unfold rbind. rewrite Hl.
  change (calcsize_items [(80%nat, Cp)]) with 80%nat. rewrite Nat.eqb_refl.
  unfold decode_items. change (80 * code_size Cp)%nat with 80%nat.
  rewrite (firstn_all2 (n := 80) (firstn 80 (remaining f))) by lia.
  rewrite app_nil_r. reflexivity.
Qed.

Lemma read_bytes_pascal80 s rest f :
  remaining f = pascal80 s ++ rest ->
  (String.length s <= 79)%nat ->
  read_bytes "80p" f = Ok (list_byte_of_string s, advance f 80).
Proof.
  intros Hrem Hs.
  unfold read_bytes, read_f, read_f_at, bind. cbn -[read_and_unpack]. unfold bind.
  rewrite read_and_unpack_80p
    by (rewrite Hrem, length_app, (@length_pascal80 s Hs); lia).
  rewrite Hrem, firstn_app, (@length_pascal80 s Hs), Nat.sub_diag.
  rewrite (firstn_all2 (n := 80) (pascal80 s)) by (rewrite (@length_pascal80 s Hs); lia).
  rewrite firstn_O, app_nil_r.
  unfold pascal80, decode_pascal.
  assert (Hn : N.to_nat (byte_N (byte_of (Z.of_nat (String.length s)))) = String.length s).
  { pose proof (byte_N_byte_of (Z.of_nat (String.length s))) as Hb.
    rewrite Z.mod_small in Hb by lia. lia. }
  rewrite Hn, Nat.min_l by lia.
  rewrite <- (length_list_byte_of_string s) at 1.
  rewrite firstn_app, Nat.sub_diag, firstn_all. cbn [firstn]. rewrite app_nil_r.
  reflexivity.
Qed.

(** X27.  A column header written in the layout of the format is read back
    field by field.  Up to version 2 it is a 4-byte count of points and
    an 80-byte Pascal string, 84 bytes in all, and there is no column
    type; from version 3 on it is the count, a 4-byte column type and a
    length-prefixed title. *)
Theorem column_header_round_trip (format_ver n_points col_type : Z) (title : string)
    (rest : list byte) (f : StructFile) :
  byte_order f = BigEndian ->
  - 2 ^ 31 <= n_points < 2 ^ 31 ->
  - 2 ^ 31 <= col_type < 2 ^ 31 ->
  (String.length title <= 79)%nat ->
  ascii_only title = true ->
  (format_ver = 1 \/ format_ver = 2 ->
   remaining f = be 4 n_points ++ pascal80 title ++ rest ->
   read_column_header format_ver f
   = Ok ((n_points, None, str_of title), advance f 84))
  /\ (3 <= format_ver ->
      remaining f = be 4 n_points ++ be 4 col_type ++ text title ++ rest ->
      read_column_header format_ver f
      = Ok ((n_points, Some col_type, str_of title),
            advance f (12 + 2 * String.length title))).
Proof.
  intros Ho Hn Ht Hlen Hascii. split.
  - intros Hver Hrem.
    assert (Hv : (format_ver =? 1) || (format_ver =? 2) = true).
    { destruct Hver as [-> | ->]; reflexivity. }
    unfold read_column_header, bind. rewrite Hv.
    rewrite (@read_int_be4 n_points _ f Ho Hrem Hn). unfold ret at 1.
    assert (Hrem' : remaining (advance f 4) = pascal80 title ++ rest).
    { rewrite remaining_advance, Hrem, be4_bytes. reflexivity. }
    rewrite (@read_bytes_pascal80 title rest (advance f 4) Hrem' Hlen).
    unfold lift, decode. rewrite (@utf8_decode_ascii title Hascii).
    unfold ret, advance. simpl. do 2 f_equal. f_equal. lia.
  - intros Hver Hrem.
    assert (Hv : (format_ver =? 1) || (format_ver =? 2) = false).
    { apply orb_false_iff. split; apply Z.eqb_neq; lia. }
    assert (Hv3 : (3 <=? format_ver) = true) by (apply Z.leb_le; exact Hver).
    unfold read_column_header, bind. rewrite Hv, Hv3.
    rewrite (@read_int_be4 n_points _ f Ho Hrem Hn). unfold bind.
    assert (Hrem1 : remaining (advance f 4) = be 4 col_type ++ text title ++ rest).
    { rewrite remaining_advance, Hrem, be4_bytes. reflexivity. }
    rewrite (@read_int_be4 col_type (text title ++ rest) (advance f 4) Ho Hrem1 Ht).
    unfold ret at 1.
    assert (Hrem2 : remaining (advance (advance f 4) 4) = text title ++ rest).
    { rewrite remaining_advance, Hrem1, be4_bytes. reflexivity. }
    rewrite (@read_str_text title rest (advance (advance f 4) 4) Ho Hrem2) by lia.
    unfold ret, advance. simpl. do 2 f_equal. f_equal. lia.
Qed.

Lemma column_header_round_trip_witness :
  read_column_header 2
    (mkStructFile BigEndian (be 4 3 ++ pascal80 "Current (pA)" ++ [xff]) 0)
  = Ok ((3, None, str_of "Current (pA)"),
        mkStructFile BigEndian (be 4 3 ++ pascal80 "Current (pA)" ++ [xff]) 84).
Proof.
  destruct (@column_header_round_trip 2 3 0 "Current (pA)" [xff]
              (mkStructFile BigEndian (be 4 3 ++ pascal80 "Current (pA)" ++ [xff]) 0))
    as (H & _).
  - reflexivity.
  - lia.
  - lia.
  - simpl. lia.
  - reflexivity.
  - apply H; [right; reflexivity | reflexivity].
Defined.
